(** * AFAP permit registry: lifecycle and access control

    A shallow embedding of the request handlers of [server.py] (with the
    data classes of [models.py] and the notifier of [email_service.py])
    and the properties of the permit registry proved about them.

    Conventions of the embedding.
    - A MongoDB document is a Python [dict]: a finite map from field names
      to values ([doc]).  The [_id] field is left out: every read of the
      program projects it away ([{"_id": 0}]).
    - A collection is the list of its documents in insertion order.
    - A [datetime] is an instant, as an integer count of microseconds.  The
      [str] produced by [datetime.isoformat()] for instant [t] is the value
      [VIso t]; every other [str] is a [VStr].  A [VStr] found where the
      program calls [datetime.fromisoformat] is text that this function
      rejects.
    - A handler is a computation over the world (database, log, dispatched
      notifications) that returns a value or raises; a raised exception
      leaves the writes made before it in place, as in Python. *)

From stdpp Require Import base option list strings pretty gmap sorting.
From Stdlib Require Import ZArith Lia.

Open Scope Z_scope.

(** ** Values and documents *)

Inductive value :=
| VNone
| VBool (b : bool)
| VInt (n : Z)
| VFloat (bits : Z)          (* a float, carried by its bit pattern *)
| VStr (s : string)
| VIso (t : Z)               (* the str [datetime.isoformat()] of instant t *)
| VDatetime (t : Z)          (* a datetime object *)
| VList (l : list string).

#[global] Instance value_eq_dec : EqDecision value.
Proof. solve_decision. Defined.

Abbreviation doc := (gmap string value).

(** Python's [isinstance(v, str)]. *)
Definition is_str (v : value) : bool :=
  match v with
  | VStr _ | VIso _ => true
  | _ => false
  end.

(** Python truthiness of a value ([if v:]). *)
Definition truthy (v : value) : bool :=
  match v with
  | VNone => false
  | VBool b => b
  | VInt n => negb (n =? 0)
  | VFloat bits => negb ((bits =? 0) || (bits =? 2 ^ 63))
  | VStr s => negb (bool_decide (s = ""))
  | VIso _ => true
  | VDatetime _ => true
  | VList l => negb (bool_decide (l = []))
  end.

(** [d.get(k)]: the value, or [None]. *)
Definition dict_get (d : doc) (k : string) : value := default VNone (d !! k).

(** Truthiness of a dict: false exactly for the empty one. *)
Definition truthy_doc (d : doc) : bool := negb (bool_decide (d = ∅)).

(** ** Exceptions and results *)

Inductive exn :=
| HTTPException (status_code : Z) (detail : string)
| KeyError (key : string)
| AttributeError
| TypeError
| ValueError
| OtherError (what : string).

#[global] Instance exn_eq_dec : EqDecision exn.
Proof. solve_decision. Defined.

Inductive result (A : Type) :=
| Ok (a : A)
| Raise (e : exn).
Arguments Ok {A} a.
Arguments Raise {A} e.

#[global] Instance result_eq_dec {A} `{EqDecision A} : EqDecision (result A).
Proof. solve_decision. Defined.

(** [d[k]]: the value, or [KeyError]. *)
Definition dict_item (d : doc) (k : string) : result value :=
  match d !! k with
  | Some v => Ok v
  | None => Raise (KeyError k)
  end.

(** ** models.py *)

Inductive Role := ciudadano | inspector | administrador.

#[global] Instance Role_eq_dec : EqDecision Role.
Proof. solve_decision. Defined.

Definition role_str (r : Role) : string :=
  match r with
  | ciudadano => "ciudadano"
  | inspector => "inspector"
  | administrador => "administrador"
  end.

Module User.
Record t := mk {
  email : string;
  cuit_cuil : string;
  nombre : string;
  apellido : string;
  telefono : string;
  role : Role;
  id : string;
  created_at : Z
}.
End User.

Inductive TitularTipo := fisica | juridica.

Definition titular_tipo_str (x : TitularTipo) : string :=
  match x with fisica => "fisica" | juridica => "juridica" end.

(** [AFAPBase], which [AFAPCreate] inherits unchanged: the request payload. *)
Module AFAPCreate.
Record t := mk {
  solicitante_nombre : string;
  solicitante_apellido : string;
  solicitante_cuit_cuil : string;
  solicitante_telefono : string;
  solicitante_email : string;
  titular_tipo : TitularTipo;
  titular_nombre : option string;
  titular_cuit : option string;
  cuenta_abl : string;
  domicilio_calle : string;
  domicilio_altura : string;
  domicilio_piso : option string;
  domicilio_depto : option string;
  domicilio_local : option string;
  domicilio_localidad : string;
  rubro_tipo : string;
  rubro_subrubro : string;
  rubro_descripcion : string;
  metros_cuadrados : Z;
  techos_cielorasos : string;
  pisos_material : string;
  tiene_sanitarios : bool;
  sanitarios_acceso_directo : bool;
  sanitarios_antecamara : bool;
  sanitarios_lavabos_m : Z;
  sanitarios_retretes_m : Z;
  sanitarios_lavabos_f : Z;
  sanitarios_retretes_f : Z;
  sanitarios_migitorios : Z;
  sanitarios_discapacitados : bool;
  cantidad_trabajadores : Z;
  documentos_urls : list string
}.
End AFAPCreate.

(** The [Literal] of [AFAP.estado]. *)
Inductive Estado := pendiente | aprobado | rechazado | inspeccion.

Definition estado_str (e : Estado) : string :=
  match e with
  | pendiente => "pendiente"
  | aprobado => "aprobado"
  | rechazado => "rechazado"
  | inspeccion => "inspeccion"
  end.

Module AFAP.
Record t := mk {
  base : AFAPCreate.t;
  id : string;
  numero_afap : Z;
  user_id : string;
  estado : Estado;
  fecha_solicitud : Z;
  fecha_vencimiento : option Z;
  observaciones : option string;
  inspector_asignado : option string
}.
End AFAP.

Definition opt_str (o : option string) : value :=
  match o with Some s => VStr s | None => VNone end.

Definition opt_datetime (o : option Z) : value :=
  match o with Some t => VDatetime t | None => VNone end.

(** [AFAPBase.model_dump()]: the fields of the payload, by name. *)
Definition AFAPCreate_fields (p : AFAPCreate.t) : list (string * value) :=
  [ ("solicitante_nombre", VStr (AFAPCreate.solicitante_nombre p));
    ("solicitante_apellido", VStr (AFAPCreate.solicitante_apellido p));
    ("solicitante_cuit_cuil", VStr (AFAPCreate.solicitante_cuit_cuil p));
    ("solicitante_telefono", VStr (AFAPCreate.solicitante_telefono p));
    ("solicitante_email", VStr (AFAPCreate.solicitante_email p));
    ("titular_tipo", VStr (titular_tipo_str (AFAPCreate.titular_tipo p)));
    ("titular_nombre", opt_str (AFAPCreate.titular_nombre p));
    ("titular_cuit", opt_str (AFAPCreate.titular_cuit p));
    ("cuenta_abl", VStr (AFAPCreate.cuenta_abl p));
    ("domicilio_calle", VStr (AFAPCreate.domicilio_calle p));
    ("domicilio_altura", VStr (AFAPCreate.domicilio_altura p));
    ("domicilio_piso", opt_str (AFAPCreate.domicilio_piso p));
    ("domicilio_depto", opt_str (AFAPCreate.domicilio_depto p));
    ("domicilio_local", opt_str (AFAPCreate.domicilio_local p));
    ("domicilio_localidad", VStr (AFAPCreate.domicilio_localidad p));
    ("rubro_tipo", VStr (AFAPCreate.rubro_tipo p));
    ("rubro_subrubro", VStr (AFAPCreate.rubro_subrubro p));
    ("rubro_descripcion", VStr (AFAPCreate.rubro_descripcion p));
    ("metros_cuadrados", VFloat (AFAPCreate.metros_cuadrados p));
    ("techos_cielorasos", VStr (AFAPCreate.techos_cielorasos p));
    ("pisos_material", VStr (AFAPCreate.pisos_material p));
    ("tiene_sanitarios", VBool (AFAPCreate.tiene_sanitarios p));
    ("sanitarios_acceso_directo", VBool (AFAPCreate.sanitarios_acceso_directo p));
    ("sanitarios_antecamara", VBool (AFAPCreate.sanitarios_antecamara p));
    ("sanitarios_lavabos_m", VInt (AFAPCreate.sanitarios_lavabos_m p));
    ("sanitarios_retretes_m", VInt (AFAPCreate.sanitarios_retretes_m p));
    ("sanitarios_lavabos_f", VInt (AFAPCreate.sanitarios_lavabos_f p));
    ("sanitarios_retretes_f", VInt (AFAPCreate.sanitarios_retretes_f p));
    ("sanitarios_migitorios", VInt (AFAPCreate.sanitarios_migitorios p));
    ("sanitarios_discapacitados", VBool (AFAPCreate.sanitarios_discapacitados p));
    ("cantidad_trabajadores", VInt (AFAPCreate.cantidad_trabajadores p));
    ("documentos_urls", VList (AFAPCreate.documentos_urls p)) ].

(** The fields [AFAP] adds to its base. *)
Definition AFAP_own_fields (a : AFAP.t) : list (string * value) :=
  [ ("id", VStr (AFAP.id a));
    ("numero_afap", VInt (AFAP.numero_afap a));
    ("user_id", VStr (AFAP.user_id a));
    ("estado", VStr (estado_str (AFAP.estado a)));
    ("fecha_solicitud", VDatetime (AFAP.fecha_solicitud a));
    ("fecha_vencimiento", opt_datetime (AFAP.fecha_vencimiento a));
    ("observaciones", opt_str (AFAP.observaciones a));
    ("inspector_asignado", opt_str (AFAP.inspector_asignado a)) ].

(** [AFAP.model_dump()]. *)
Definition AFAP_model_dump (a : AFAP.t) : doc :=
  list_to_map (AFAPCreate_fields (AFAP.base a) ++ AFAP_own_fields a).

Module DownloadLog.
Record t := mk {
  id : string;
  afap_id : string;
  afap_numero : Z;
  user_id : string;
  user_nombre : string;
  user_email : string;
  timestamp : Z;
  ip_address : option string
}.
End DownloadLog.

(** [DownloadLog.model_dump()]. *)
Definition DownloadLog_model_dump (l : DownloadLog.t) : doc :=
  list_to_map
    [ ("id", VStr (DownloadLog.id l));
      ("afap_id", VStr (DownloadLog.afap_id l));
      ("afap_numero", VInt (DownloadLog.afap_numero l));
      ("user_id", VStr (DownloadLog.user_id l));
      ("user_nombre", VStr (DownloadLog.user_nombre l));
      ("user_email", VStr (DownloadLog.user_email l));
      ("timestamp", VDatetime (DownloadLog.timestamp l));
      ("ip_address", opt_str (DownloadLog.ip_address l)) ].

(** ** The MongoDB operations the handlers use *)

(** A filter: each named field must satisfy its condition.  [{}] is the
    empty list. *)
Inductive cond :=
| Eq (v : value)               (* {field: v} *)
| In (vs : list value).        (* {field: {"$in": vs}} *)

Abbreviation query := (list (string * cond)).

(** A field equals a queried value when it holds that value, when it is an
    array that contains it, or when the value is null and the field is
    missing. *)
Definition field_eq (v : value) (fv : option value) : bool :=
  match fv with
  | None => bool_decide (v = VNone)
  | Some (VList l) =>
      bool_decide (v = VList l)
      || match v with VStr s => bool_decide (s ∈ l) | _ => false end
  | Some x => bool_decide (x = v)
  end.

Definition cond_matches (c : cond) (fv : option value) : bool :=
  match c with
  | Eq v => field_eq v fv
  | In vs => existsb (λ v, field_eq v fv) vs
  end.

Definition matches (q : query) (d : doc) : bool :=
  forallb (λ fc, cond_matches fc.2 (d !! fc.1)) q.

(** [find(q)]: the matching documents, in collection order. *)
Definition find (q : query) (c : list doc) : list doc :=
  List.filter (matches q) c.

(** A projection [{"_id": 0, f1: 1, ...}] keeps the listed fields;
    [{"_id": 0}] alone ([None]) keeps the document. *)
Definition project (p : option (list string)) (d : doc) : doc :=
  match p with
  | None => d
  | Some fs => filter (λ kv, kv.1 ∈ fs) d
  end.

(** [find_one(q, p)]: the first match. *)
Definition find_one (q : query) (p : option (list string)) (c : list doc)
  : option doc :=
  project p <$> head (find q c).

(** The integer under a field, the key of [sort=[(field, -1)]].  The
    program writes integers only under the field it sorts on; a document
    without an integer there is ordered below every integer, as a missing
    field is. *)
Definition int_field (f : string) (d : doc) : option Z :=
  match d !! f with
  | Some (VInt n) => Some n
  | _ => None
  end.

Definition key_ltb (a b : option Z) : bool :=
  match a, b with
  | None, Some _ => true
  | Some x, Some y => x <? y
  | _, _ => false
  end.

(** The first document with the greatest key. *)
Fixpoint first_max (key : doc → option Z) (c : list doc) : option doc :=
  match c with
  | [] => None
  | d :: c' =>
      match first_max key c' with
      | None => Some d
      | Some d' => if key_ltb (key d) (key d') then Some d' else Some d
      end
  end.

(** [find_one({}, p, sort=[(f, -1)])]. *)
Definition find_one_sorted_desc (f : string) (p : option (list string))
    (c : list doc) : option doc :=
  project p <$> first_max (int_field f) c.

(** [to_list(n)]: at most [n] documents. *)
Definition to_list (n : nat) (c : list doc) : list doc := take n c.

(** [update_one(q, {"$set": u})]: the first match gets the fields of [u];
    the result carries [matched_count]. *)
Fixpoint update_one (q : query) (u : doc) (c : list doc) : list doc * Z :=
  match c with
  | [] => ([], 0)
  | d :: c' =>
      if matches q d then ((u ∪ d) :: c', 1)
      else let '(c'', n) := update_one q u c' in (d :: c'', n)
  end.

Definition insert_one (d : doc) (c : list doc) : list doc := c ++ [d].

(** ** The world: database, log, and the notifications handed out *)

Record Db := mkDb {
  afap : list doc;
  users : list doc;
  inspecciones : list doc;
  download_logs : list doc
}.

Inductive Coll := c_afap | c_users | c_inspecciones | c_download_logs.

Definition coll (c : Coll) (d : Db) : list doc :=
  match c with
  | c_afap => afap d
  | c_users => users d
  | c_inspecciones => inspecciones d
  | c_download_logs => download_logs d
  end.

Definition set_coll (c : Coll) (l : list doc) (d : Db) : Db :=
  match c with
  | c_afap => mkDb l (users d) (inspecciones d) (download_logs d)
  | c_users => mkDb (afap d) l (inspecciones d) (download_logs d)
  | c_inspecciones => mkDb (afap d) (users d) l (download_logs d)
  | c_download_logs => mkDb (afap d) (users d) (inspecciones d) l
  end.

(** An f-string with the values it interpolates. *)
Inductive piece := Lit (s : string) | Fmt (v : value).
Abbreviation fstring := (list piece).

#[global] Instance piece_eq_dec : EqDecision piece.
Proof. solve_decision. Defined.

Inductive Level := INFO | ERROR.

(** The log lines of the handlers and of the notifier. *)
Inductive Message :=
| CertificateEmailSent (numero : value)
| ErrorSendingCertificateEmail (e : exn)
| ErrorSendingStatusNotification (e : exn)
| CertificateDownloaded (numero : value) (email : string)
| ErrorLoggingDownload (e : exn)
| ErrorGeneratingCertificate (e : exn)
| ErrorVerifyingCertificate (e : exn)
| EmailSimulado (user_email : value)
| EmailAsunto (afap_numero : value)
| EmailUsuario (user_name : fstring)
| NotificacionEnviada (user_email : value)
| NotificacionCambio (afap_numero old_status : value) (new_status : string)
| NotifierLine (s : string).

Abbreviation LogRecord := (Level * Message)%type.

#[global] Instance Level_eq_dec : EqDecision Level.
Proof. solve_decision. Defined.

#[global] Instance Message_eq_dec : EqDecision Message.
Proof. solve_decision. Defined.

(** A call of one of the two notifier functions, with its arguments. *)
Inductive Dispatch :=
| CertificateEmail (user_email : value) (user_name : fstring)
    (afap_numero : value) (afap_data : doc)
| StatusNotification (user_email : value) (user_name : fstring)
    (afap_numero old_status : value) (new_status : string)
    (observaciones : option string).

#[global] Instance Dispatch_eq_dec : EqDecision Dispatch.
Proof. solve_decision. Defined.

Definition is_certificate_email (d : Dispatch) : bool :=
  match d with CertificateEmail _ _ _ _ => true | _ => false end.

Definition is_status_notification (d : Dispatch) : bool :=
  match d with StatusNotification _ _ _ _ _ _ => true | _ => false end.

Record World := mkWorld {
  db : Db;
  log : list LogRecord;
  dispatched : list Dispatch
}.

(** ** Handlers as computations over the world *)

Definition M (A : Type) : Type := World → result A * World.

Definition ret {A} (a : A) : M A := λ w, (Ok a, w).

Definition raise {A} (e : exn) : M A := λ w, (Raise e, w).

Definition bind {A B} (m : M A) (k : A → M B) : M B :=
  λ w, match m w with
       | (Ok a, w') => k a w'
       | (Raise e, w') => (Raise e, w')
       end.

Notation "'let*' x := m 'in' k" := (bind m (λ x, k))
  (at level 10, x name, m at level 100, k at level 200, only parsing).
Notation "m ;;; k" := (bind m (λ _, k))
  (at level 100, k at level 200, right associativity, only parsing).

(** [try: body except Exception as e: handler(e)]. *)
Definition try_except {A} (body : M A) (handler : exn → M A) : M A :=
  λ w, match body w with
       | (Ok a, w') => (Ok a, w')
       | (Raise e, w') => handler e w'
       end.

Definition lift {A} (r : result A) : M A := λ w, (r, w).

Definition logger (l : Level) (m : Message) : M unit :=
  λ w, (Ok tt, mkWorld (db w) (log w ++ [(l, m)]) (dispatched w)).

Definition db_find_one (c : Coll) (q : query) (p : option (list string))
  : M (option doc) :=
  λ w, (Ok (find_one q p (coll c (db w))), w).

Definition db_find_one_sorted_desc (c : Coll) (f : string)
    (p : option (list string)) : M (option doc) :=
  λ w, (Ok (find_one_sorted_desc f p (coll c (db w))), w).

(** [find(q, p).to_list(n)]. *)
Definition db_find_to_list (c : Coll) (q : query) (p : option (list string))
    (n : nat) : M (list doc) :=
  λ w, (Ok (project p <$> to_list n (find q (coll c (db w)))), w).

Definition db_insert_one (c : Coll) (d : doc) : M unit :=
  λ w, (Ok tt,
        mkWorld (set_coll c (insert_one d (coll c (db w))) (db w))
                (log w) (dispatched w)).

(** [update_one(...)], returning [matched_count]. *)
Definition db_update_one (c : Coll) (q : query) (u : doc) : M Z :=
  λ w, let '(l, n) := update_one q u (coll c (db w)) in
       (Ok n, mkWorld (set_coll c l (db w)) (log w) (dispatched w)).

(** [not x] for the [None]-or-dict that [find_one] returns. *)
Definition not_found (o : option doc) : bool :=
  match o with
  | None => true
  | Some d => negb (truthy_doc d)
  end.

(** ** email_service.py: the notifier *)

(** What a notifier call does: the lines it logs, and whether it returns
    or raises.  The handlers are written against this interface, so that
    what they do when delivery fails can be stated. *)
Record Notifier := mkNotifier {
  send_certificate_email :
    value → fstring → value → doc → list LogRecord * result unit;
  send_status_notification :
    value → fstring → value → value → string → option string →
    list LogRecord * result unit
}.

(** The two functions of [email_service.py].  Each simulates the delivery
    by logging; its body formats text out of [dict.get] lookups only, so
    its own [except] branch is never entered. *)
Module EmailService.
Definition send_certificate_email (user_email : value) (user_name : fstring)
    (afap_numero : value) (afap_data : doc) : list LogRecord * result unit :=
  ([ (INFO, EmailSimulado user_email);
     (INFO, EmailAsunto afap_numero);
     (INFO, EmailUsuario user_name) ], Ok tt).

Definition send_status_notification (user_email : value)
    (user_name : fstring) (afap_numero old_status : value)
    (new_status : string) (observaciones : option string)
  : list LogRecord * result unit :=
  ([ (INFO, NotificacionEnviada user_email);
     (INFO, NotificacionCambio afap_numero old_status new_status) ], Ok tt).

Definition notifier : Notifier :=
  mkNotifier send_certificate_email send_status_notification.
End EmailService.

(** A call of a notifier function: the call is recorded, its log lines are
    appended, and it returns or raises. *)
Definition call_notifier (d : Dispatch) (out : list LogRecord * result unit)
  : M unit :=
  λ w, (out.2, mkWorld (db w) (log w ++ out.1) (dispatched w ++ [d])).

(** ** server.py: the permit handlers *)

(** [timedelta(days=n)], in microseconds. *)
Definition timedelta_days (n : Z) : Z := n * 86400 * 1000000.

(** [d[k].isoformat()]. *)
Definition isoformat_item (d : doc) (k : string) : result value :=
  match d !! k with
  | Some (VDatetime t) => Ok (VIso t)
  | Some _ => Raise AttributeError
  | None => Raise (KeyError k)
  end.

(** [x + 1] for a stored number.  A float under [numero_afap] is outside
    what the program writes and is not modelled further. *)
Definition plus_one (v : value) : result Z :=
  match v with
  | VInt n => Ok (n + 1)
  | VBool b => Ok (Z.b2z b + 1)
  | VFloat _ => Raise (OtherError "float numero_afap")
  | _ => Raise TypeError
  end.

(** [create_afap], up to its first [await]: the next permit number. *)
Definition create_afap_next_number : M Z :=
  let* last_afap :=
    db_find_one_sorted_desc c_afap "numero_afap" (Some ["numero_afap"]) in
  match last_afap with
  | Some d =>
      if truthy_doc d then
        let* n := lift (dict_item d "numero_afap") in
        lift (plus_one n)
      else ret 1001
  | None => ret 1001
  end.

(** [create_afap], from there to its end.  [now] and [utcnow] are the two
    readings of the clock ([datetime.now(timezone.utc)] for the expiry,
    the [default_factory] of [fecha_solicitud]); [uuid] is the fresh id. *)
Definition create_afap_store (afap_data : AFAPCreate.t)
    (current_user : User.t) (now utcnow : Z) (uuid : string)
    (next_number : Z) : M AFAP.t :=
  let fecha_vencimiento := now + timedelta_days 30 in
  let afap :=
    AFAP.mk afap_data uuid next_number (User.id current_user) pendiente
            utcnow (Some fecha_vencimiento) None None in
  let afap_dict := AFAP_model_dump afap in
  let* fs := lift (isoformat_item afap_dict "fecha_solicitud") in
  let afap_dict := <["fecha_solicitud" := fs]> afap_dict in
  let* fv := lift (isoformat_item afap_dict "fecha_vencimiento") in
  let afap_dict := <["fecha_vencimiento" := fv]> afap_dict in
  db_insert_one c_afap afap_dict ;;;
  ret afap.

Definition create_afap (afap_data : AFAPCreate.t) (current_user : User.t)
    (now utcnow : Z) (uuid : string) : M AFAP.t :=
  let* next_number := create_afap_next_number in
  create_afap_store afap_data current_user now utcnow uuid next_number.

(** [if isinstance(d.get(k), str): d[k] = datetime.fromisoformat(d[k])]. *)
Definition fromisoformat_field (k : string) (d : doc) : result doc :=
  match dict_get d k with
  | VIso t => Ok (<[k := VDatetime t]> d)
  | VStr _ => Raise ValueError
  | _ => Ok d
  end.

Definition and_then {A B} (r : result A) (k : A → result B) : result B :=
  match r with
  | Ok a => k a
  | Raise e => Raise e
  end.

(** A [for] loop that rewrites each document of a list; the first
    exception ends it. *)
Fixpoint for_each (f : doc → result doc) (l : list doc) : result (list doc) :=
  match l with
  | [] => Ok []
  | d :: l' =>
      and_then (f d) (λ d', and_then (for_each f l') (λ l'', Ok (d' :: l'')))
  end.

Definition afap_dates (d : doc) : result doc :=
  and_then (fromisoformat_field "fecha_solicitud" d)
           (fromisoformat_field "fecha_vencimiento").

(** pydantic's constructor of [AFAP] from a stored document: the model,
    or the validation error. *)
Abbreviation Validator := (doc → result AFAP.t).

(** Each document of a list through a validator; the first that fails
    ends it. *)
Fixpoint validate_each {A} (validate : doc → result A) (l : list doc)
  : result (list A) :=
  match l with
  | [] => Ok []
  | d :: l' =>
      and_then (validate d) (λ a,
      and_then (validate_each validate l') (λ l'', Ok (a :: l'')))
  end.

(** [response_model=List[T]] on a route: what the handler returned is
    validated against the model before it is sent; when an element fails,
    FastAPI raises [ResponseValidationError] and the request is answered
    with 500. *)
Definition response_model_list {A} (validate : doc → result A)
    (content : list doc) : result (list A) :=
  match validate_each validate content with
  | Ok models => Ok models
  | Raise _ => Raise (OtherError "ResponseValidationError")
  end.

(** [get_afaps], served under [response_model=List[AFAP]]. *)
Definition get_afaps (AFAP_validate : Validator) (current_user : User.t)
  : M (list AFAP.t) :=
  let query :=
    if bool_decide (User.role current_user ∈ [administrador; inspector])
    then []
    else [("user_id", Eq (VStr (User.id current_user)))] in
  let* afaps := db_find_to_list c_afap query None 1000 in
  let* afaps := lift (for_each afap_dates afaps) in
  lift (response_model_list AFAP_validate afaps).

(** The JSON object a handler returns, in the order it is written. *)
Abbreviation json := (list (string * value)).

(** [update_afap_estado], lines 221-249: the two notifications to the
    owner, once the owner's record has been looked up. *)
Definition notify_solicitante (N : Notifier) (afap_actual : doc)
    (old_estado : value) (estado : string) (observaciones : option string)
    (user_solicitante : option doc) : M unit :=
  if negb (not_found user_solicitante) then
    let u := default ∅ user_solicitante in
    let* nombre := lift (dict_item u "nombre") in
    let* apellido := lift (dict_item u "apellido") in
    let user_name := [Fmt nombre; Lit " "; Fmt apellido] in
    let* user_email := lift (dict_item u "email") in
    (if bool_decide (estado = "aprobado")
        && bool_decide (old_estado ≠ VStr "aprobado")
     then
       try_except
         (let* numero := lift (dict_item afap_actual "numero_afap") in
          call_notifier
            (CertificateEmail user_email user_name numero afap_actual)
            (send_certificate_email N user_email user_name numero
                                    afap_actual) ;;;
          logger INFO (CertificateEmailSent numero))
         (λ e, logger ERROR (ErrorSendingCertificateEmail e))
     else ret tt) ;;;
    try_except
      (let* numero := lift (dict_item afap_actual "numero_afap") in
       call_notifier
         (StatusNotification user_email user_name numero old_estado estado
                             observaciones)
         (send_status_notification N user_email user_name numero
                                   old_estado estado observaciones))
      (λ e, logger ERROR (ErrorSendingStatusNotification e))
  else ret tt.

(** The [update_data] of [update_afap_estado]. *)
Definition update_data (estado : string) (observaciones : option string)
  : doc :=
  let update_data : doc := {[ "estado" := VStr estado ]} in
  match observaciones with
  | Some o => if truthy (VStr o)
              then <["observaciones" := VStr o]> update_data
              else update_data
  | None => update_data
  end.

Definition update_afap_estado (N : Notifier) (afap_id estado : string)
    (observaciones : option string) (current_user : User.t) : M json :=
  if negb (bool_decide (User.role current_user ∈ [inspector; administrador]))
  then raise (HTTPException 403 "No autorizado")
  else
  let* afap_actual := db_find_one c_afap [("id", Eq (VStr afap_id))] None in
  match afap_actual with
  | None => raise (HTTPException 404 "AFAP no encontrado")
  | Some afap_actual =>
  if negb (truthy_doc afap_actual)
  then raise (HTTPException 404 "AFAP no encontrado")
  else
  let old_estado := dict_get afap_actual "estado" in
  let* matched_count :=
    db_update_one c_afap [("id", Eq (VStr afap_id))]
                  (update_data estado observaciones) in
  if matched_count =? 0
  then raise (HTTPException 404 "AFAP no encontrado")
  else
  let* owner := lift (dict_item afap_actual "user_id") in
  let* user_solicitante :=
    db_find_one c_users [("id", Eq owner)]
                (Some ["email"; "nombre"; "apellido"]) in
  notify_solicitante N afap_actual old_estado estado observaciones
                     user_solicitante ;;;
  ret [ ("message", VStr "Estado actualizado correctamente");
        ("old_estado", old_estado);
        ("new_estado", VStr estado);
        ("email_sent", VBool (bool_decide (is_Some user_solicitante))) ]
  end.

(** [pdf_generator.generate_afap_certificate], the renderer: it draws the
    document with a PDF library and yields its bytes, or raises. *)
Abbreviation Renderer := (doc → result (list Byte.byte)).

(** The [StreamingResponse] of a certificate. *)
Record CertificateResponse := mkCertificateResponse {
  body : list Byte.byte;
  media_type : string;
  content_disposition : fstring
}.

(** [download_certificado].  [utcnow] and [uuid] are the timestamp and id
    that [DownloadLog] draws for itself. *)
Definition download_certificado (generate_afap_certificate : Renderer)
    (afap_id : string) (current_user : User.t) (utcnow : Z) (uuid : string)
  : M CertificateResponse :=
  let* afap := db_find_one c_afap [("id", Eq (VStr afap_id))] None in
  match afap with
  | None => raise (HTTPException 404 "AFAP no encontrado")
  | Some afap =>
  if negb (truthy_doc afap)
  then raise (HTTPException 404 "AFAP no encontrado")
  else
  let* estado := lift (dict_item afap "estado") in
  if bool_decide (estado ≠ VStr "aprobado")
  then raise (HTTPException 400
         "El AFAP debe estar aprobado para generar el certificado")
  else
  let* not_owner :=
    if bool_decide (User.role current_user = ciudadano)
    then let* owner := lift (dict_item afap "user_id") in
         ret (bool_decide (owner ≠ VStr (User.id current_user)))
    else ret false in
  if (not_owner : bool)
  then raise (HTTPException 403 "No autorizado")
  else
  try_except
    (let* numero := lift (dict_item afap "numero_afap") in
     let* afap_numero :=
       match numero with
       | VInt n => ret n
       | _ => raise (OtherError "ValidationError")
       end in
     let download_log :=
       DownloadLog.mk uuid afap_id afap_numero (User.id current_user)
         (User.nombre current_user +:+ " " +:+ User.apellido current_user)
         (User.email current_user) utcnow None in
     let log_dict := DownloadLog_model_dump download_log in
     let* ts := lift (isoformat_item log_dict "timestamp") in
     let log_dict := <["timestamp" := ts]> log_dict in
     db_insert_one c_download_logs log_dict ;;;
     let* numero := lift (dict_item afap "numero_afap") in
     logger INFO (CertificateDownloaded numero (User.email current_user)))
    (λ e, logger ERROR (ErrorLoggingDownload e)) ;;;
  try_except
    (let* pdf_bytes := lift (generate_afap_certificate afap) in
     let* numero := lift (dict_item afap "numero_afap") in
     ret (mkCertificateResponse pdf_bytes "application/pdf"
            [ Lit "attachment; filename=HabilitacionPrecaria_"; Fmt numero;
              Lit "_Argentina.pdf" ]))
    (λ e, logger ERROR (ErrorGeneratingCertificate e) ;;;
          raise (HTTPException 500 "Error al generar el certificado"))
  end.

(** ** server.py: inspections *)

Definition inspeccion_dates (d : doc) : result doc :=
  and_then (fromisoformat_field "fecha_programada" d) (λ d,
  and_then (fromisoformat_field "fecha_realizada" d)
           (fromisoformat_field "created_at")).

(** [[afap["id"] for afap in user_afaps]]. *)
Fixpoint ids_of (l : list doc) : result (list value) :=
  match l with
  | [] => Ok []
  | d :: l' =>
      and_then (dict_item d "id") (λ v,
      and_then (ids_of l') (λ vs, Ok (v :: vs)))
  end.

Definition get_inspecciones (current_user : User.t) : M (list doc) :=
  let* query :=
    if bool_decide (User.role current_user = inspector)
    then ret [("inspector_id", Eq (VStr (User.id current_user)))]
    else if bool_decide (User.role current_user = administrador)
    then ret []
    else
      let* user_afaps :=
        db_find_to_list c_afap
          [("user_id", Eq (VStr (User.id current_user)))] (Some ["id"])
          1000 in
      let* afap_ids := lift (ids_of user_afaps) in
      ret [("afap_id", In afap_ids)] in
  let* inspecciones := db_find_to_list c_inspecciones query None 1000 in
  lift (for_each inspeccion_dates inspecciones).

(** ** server.py: public verification *)

Definition verificar_certificado_publico (afap_id : string) : M json :=
  try_except
    (let* afap := db_find_one c_afap [("id", Eq (VStr afap_id))] None in
     match afap with
     | None =>
         raise (HTTPException 404
                  "Certificado no encontrado. Verificá el código QR.")
     | Some afap =>
     if negb (truthy_doc afap)
     then raise (HTTPException 404
                   "Certificado no encontrado. Verificá el código QR.")
     else
     let* afap := lift (afap_dates afap) in
     let* id := lift (dict_item afap "id") in
     let* numero_afap := lift (dict_item afap "numero_afap") in
     let* estado := lift (dict_item afap "estado") in
     let* titular_nombre := lift (dict_item afap "titular_nombre") in
     let* titular_cuit := lift (dict_item afap "titular_cuit") in
     let* domicilio_calle := lift (dict_item afap "domicilio_calle") in
     let* domicilio_altura := lift (dict_item afap "domicilio_altura") in
     let domicilio_local := dict_get afap "domicilio_local" in
     let* domicilio_localidad :=
       lift (dict_item afap "domicilio_localidad") in
     let* rubro_tipo := lift (dict_item afap "rubro_tipo") in
     let* rubro_descripcion := lift (dict_item afap "rubro_descripcion") in
     let* metros_cuadrados := lift (dict_item afap "metros_cuadrados") in
     let* fecha_solicitud := lift (isoformat_item afap "fecha_solicitud") in
     let* fecha_vencimiento :=
       if truthy (dict_get afap "fecha_vencimiento")
       then lift (isoformat_item afap "fecha_vencimiento")
       else ret VNone in
     let observaciones := dict_get afap "observaciones" in
     ret [ ("id", id);
           ("numero_afap", numero_afap);
           ("estado", estado);
           ("titular_nombre", titular_nombre);
           ("titular_cuit", titular_cuit);
           ("domicilio_calle", domicilio_calle);
           ("domicilio_altura", domicilio_altura);
           ("domicilio_local", domicilio_local);
           ("domicilio_localidad", domicilio_localidad);
           ("rubro_tipo", rubro_tipo);
           ("rubro_descripcion", rubro_descripcion);
           ("metros_cuadrados", metros_cuadrados);
           ("fecha_solicitud", fecha_solicitud);
           ("fecha_vencimiento", fecha_vencimiento);
           ("observaciones", observaciones) ]
     end)
    (λ e, match e with
          | HTTPException _ _ => raise e
          | _ => logger ERROR (ErrorVerifyingCertificate e) ;;;
                 raise (HTTPException 500 "Error al verificar el certificado")
          end).

(** ** Requests served one after another, and interleaved creates *)

(** The requests that write to the permit registry or to the download
    log. *)
Inductive Request :=
| ReqCreate (afap_data : AFAPCreate.t) (current_user : User.t)
    (now utcnow : Z) (uuid : string)
| ReqUpdateEstado (afap_id estado : string) (observaciones : option string)
    (current_user : User.t)
| ReqDownload (afap_id : string) (current_user : User.t) (utcnow : Z)
    (uuid : string).

(** The world after a request has been served from start to end. *)
Definition serve (N : Notifier) (R : Renderer) (r : Request) (w : World)
  : World :=
  match r with
  | ReqCreate afap_data u now utcnow uuid =>
      (create_afap afap_data u now utcnow uuid w).2
  | ReqUpdateEstado afap_id estado obs u =>
      (update_afap_estado N afap_id estado obs u w).2
  | ReqDownload afap_id u utcnow uuid =>
      (download_certificado R afap_id u utcnow uuid w).2
  end.

Definition serve_all (N : Notifier) (R : Renderer) (rs : list Request)
    (w : World) : World :=
  foldl (λ w r, serve N R r w) w rs.

(** [create_afap] gives up control at its two [await]s.  A create that has
    read its number and not yet inserted is suspended, holding
    [next_number]; other requests may run meanwhile. *)
Record CreateCall := mkCreateCall {
  call_data : AFAPCreate.t;
  call_user : User.t;
  call_now : Z;
  call_utcnow : Z;
  call_uuid : string
}.

Inductive Step :=
| Reads (r : nat)        (* call r runs up to the reply of [find_one] *)
| Inserts (r : nat).     (* call r resumes and runs to its end *)

(** The world and the [next_number] of each suspended call. *)
Definition step (calls : list CreateCall) (s : Step)
    (st : World * gmap nat Z) : World * gmap nat Z :=
  let '(w, suspended) := st in
  match s with
  | Reads r =>
      match create_afap_next_number w with
      | (Ok n, w') => (w', <[r := n]> suspended)
      | (Raise _, w') => (w', suspended)
      end
  | Inserts r =>
      match calls !! r, suspended !! r with
      | Some c, Some n =>
          ((create_afap_store (call_data c) (call_user c) (call_now c)
                              (call_utcnow c) (call_uuid c) n w).2,
           delete r suspended)
      | _, _ => st
      end
  end.

Definition run_schedule (calls : list CreateCall) (sched : list Step)
    (w : World) : World :=
  (foldl (λ st s, step calls s st) (w, ∅) sched).1.

(** ** Predicates on the store *)

Definition numero_of (d : doc) : option Z := int_field "numero_afap" d.

(** The permit numbers of a registry, in insertion order. *)
Definition numeros (c : list doc) : list Z := omap numero_of c.

(** Every permit carries an integer [numero_afap]. *)
Definition numbered (c : list doc) : Prop :=
  Forall (λ d, is_Some (numero_of d)) c.

(** [m] is the greatest permit number of the registry. *)
Definition prior_max (c : list doc) (m : Z) : Prop :=
  m ∈ numeros c ∧ ∀ n, n ∈ numeros c → n ≤ m.

Definition empty_world : World := mkWorld (mkDb [] [] [] []) [] [].

(** The registry invariant: every permit is numbered, and the numbers
    grow strictly along the insertion order. *)
Definition registry_ok (c : list doc) : Prop :=
  numbered c ∧ StronglySorted Z.lt (numeros c).

(** The [AFAP] object that [create_afap] builds, and the document it
    inserts for it. *)
Definition new_afap (p : AFAPCreate.t) (u : User.t) (now utcnow : Z)
    (uuid : string) (n : Z) : AFAP.t :=
  AFAP.mk p uuid n (User.id u) pendiente utcnow
          (Some (now + timedelta_days 30)) None None.

Definition stored_afap (a : AFAP.t) (venc : Z) : doc :=
  <["fecha_vencimiento" := VIso venc]>
    (<["fecha_solicitud" := VIso (AFAP.fecha_solicitud a)]>
       (AFAP_model_dump a)).

(** A computation that leaves a part [g] of the database as it found it,
    whether it returns or raises. *)
Definition keeps {A X} (g : Db → X) (m : M A) : Prop :=
  ∀ w, g (db (m w).2) = g (db w).

(** [update_afap_estado] from line 215 on: what it does once the permit
    [d] has been read and updated. *)
Definition after_update (N : Notifier) (d : doc) (estado : string)
    (obs : option string) : M json :=
  let* owner := lift (dict_item d "user_id") in
  let* user_solicitante :=
    db_find_one c_users [("id", Eq owner)]
                (Some ["email"; "nombre"; "apellido"]) in
  notify_solicitante N d (dict_get d "estado") estado obs user_solicitante ;;;
  ret [ ("message", VStr "Estado actualizado correctamente");
        ("old_estado", dict_get d "estado");
        ("new_estado", VStr estado);
        ("email_sent", VBool (bool_decide (is_Some user_solicitante))) ].

(** The owner's record, as [update_afap_estado] looks it up. *)
Definition owner_record (d : doc) (w : World) : option doc :=
  match d !! "user_id" with
  | Some owner =>
      find_one [("id", Eq owner)] (Some ["email"; "nombre"; "apellido"])
               (users (db w))
  | None => None
  end.

(** A user record that carries the fields the notifications read. *)
Definition contactable (u : doc) : Prop :=
  is_Some (u !! "nombre") ∧ is_Some (u !! "apellido") ∧ is_Some (u !! "email").

#[global] Instance contactable_dec u : Decision (contactable u).
Proof. unfold contactable. apply _. Defined.

(** What the records of a collection hold under a field. *)
Definition field_of (k : string) (c : list doc) : list (option value) :=
  (λ d : doc, d !! k) <$> c.

(** The user has a record on file: what [get_current_user] has checked of
    the user it hands to a handler. *)
Definition on_file (u : User.t) (w : World) : Prop :=
  Some (VStr (User.id u)) ∈ field_of "id" (users (db w)).

#[global] Instance on_file_dec u w : Decision (on_file u w).
Proof. unfold on_file. apply _. Defined.

(** A store as the handlers build it: every permit carries an integer
    number and, as [user_id], the id of a user on file, and every user
    record carries the name and the address the notifications read. *)
Definition known_owner (ids : list (option value)) (v : option value)
  : Prop :=
  ∃ s, v = Some (VStr s) ∧ Some (VStr s) ∈ ids.

Definition owners_on_file (w : World) : Prop :=
  numbered (afap (db w)) ∧
  Forall contactable (users (db w)) ∧
  Forall (known_owner (field_of "id" (users (db w))))
         (field_of "user_id" (afap (db w))).

(** A computation that returns [None] (Python's), whatever the world. *)
Definition returns_tt (m : M unit) : Prop := ∀ w, (m w).1 = Ok tt.

(** Whether the notification block of [update_afap_estado] returns or
    raises, as the owner's record decides it. *)
Definition notify_outcome (user_solicitante : option doc) : result unit :=
  if negb (not_found user_solicitante) then
    let u := default ∅ user_solicitante in
    and_then (dict_item u "nombre") (λ _,
    and_then (dict_item u "apellido") (λ _,
    and_then (dict_item u "email") (λ _, Ok tt)))
  else Ok tt.

(** The transition that earns the certificate e-mail. *)
Definition approving (old_estado : value) (estado : string) : bool :=
  bool_decide (estado = "aprobado")
  && bool_decide (old_estado ≠ VStr "aprobado").

(** The line a handler logs after a guarded notifier call. *)
Definition certificate_log_line (numero : value) (r : result unit)
  : list LogRecord :=
  match r with
  | Ok _ => [(INFO, CertificateEmailSent numero)]
  | Raise e => [(ERROR, ErrorSendingCertificateEmail e)]
  end.

Definition status_log_line (r : result unit) : list LogRecord :=
  match r with
  | Ok _ => []
  | Raise e => [(ERROR, ErrorSendingStatusNotification e)]
  end.

(** A notifier whose two functions always raise. *)
Definition failing_notifier : Notifier :=
  mkNotifier (λ _ _ _ _, ([], Raise (OtherError "SMTP")))
             (λ _ _ _ _ _ _, ([], Raise (OtherError "SMTP"))).

(** The world once [update_one] has set the new [estado]. *)
Definition updated_world (afap_id estado : string) (obs : option string)
    (w : World) : World :=
  mkWorld
    (set_coll c_afap
       (update_one [("id", Eq (VStr afap_id))] (update_data estado obs)
                   (afap (db w))).1
       (db w))
    (log w) (dispatched w).

(** The creates among a list of requests. *)
Definition is_create (r : Request) : bool :=
  match r with ReqCreate _ _ _ _ _ => true | _ => false end.

(** The fields of the public view, in the order the handler writes them. *)
Definition public_fields : list string :=
  [ "id"; "numero_afap"; "estado"; "titular_nombre"; "titular_cuit";
    "domicilio_calle"; "domicilio_altura"; "domicilio_local";
    "domicilio_localidad"; "rubro_tipo"; "rubro_descripcion";
    "metros_cuadrados"; "fecha_solicitud"; "fecha_vencimiento";
    "observaciones" ].

(** A field of the requester's contact data, by its name. *)
Definition solicitante_field (k : string) : bool :=
  String.prefix "solicitante_" k.

(** ** What the list handlers return *)

(** The permit is filed under this user. *)
Definition owned_by (uid : string) (d : doc) : Prop :=
  d !! "user_id" = Some (VStr uid).

#[global] Instance owned_by_dec uid d : Decision (owned_by uid d).
Proof. unfold owned_by. apply _. Defined.

(** The inspection is assigned to this inspector. *)
Definition assigned_to (uid : string) (i : doc) : Prop :=
  i !! "inspector_id" = Some (VStr uid).

#[global] Instance assigned_to_dec uid i : Decision (assigned_to uid i).
Proof. unfold assigned_to. apply _. Defined.

(** The inspection is of one of these permits: its [afap_id] is the [id]
    of one of them. *)
Definition inspects (permits : list doc) (i : doc) : Prop :=
  Exists (λ d, is_Some (d !! "id") ∧ i !! "afap_id" = d !! "id") permits.

#[global] Instance inspects_dec permits i : Decision (inspects permits i).
Proof. unfold inspects. apply _. Defined.

(** The field does not hold an array. *)
Definition not_array (k : string) (d : doc) : Prop :=
  ∀ l, d !! k ≠ Some (VList l).

#[global] Instance not_array_dec k d : Decision (not_array k d).
Proof.
  unfold not_array. destruct (d !! k) as [v|]; [|left; by intros l].
  destruct v; try (left; by intros ?). right. intros H. by eapply H.
Defined.

(** The field holds a string. *)
Definition has_str (k : string) (d : doc) : Prop :=
  ∃ s, d !! k = Some (VStr s).

#[global] Instance has_str_dec k d : Decision (has_str k d).
Proof.
  unfold has_str. destruct (d !! k) as [v|]; [|right; by intros [? ?]].
  destruct v; try (right; by intros [? ?]). left. by eexists.
Defined.

(** The field holds no text that [datetime.fromisoformat] rejects. *)
Definition not_text (k : string) (d : doc) : Prop :=
  ∀ s, d !! k ≠ Some (VStr s).

#[global] Instance not_text_dec k d : Decision (not_text k d).
Proof.
  unfold not_text. destruct (d !! k) as [v|]; [|left; by intros s].
  destruct v; try (left; by intros ?). right. intros H. by eapply H.
Defined.

(** A stored ISO date, read back as a [datetime]. *)
Definition as_datetime (v : value) : value :=
  match v with
  | VIso t => VDatetime t
  | _ => v
  end.

(** The document with the dates of the listed fields read back. *)
Definition parse_dates (ks : list string) (d : doc) : doc :=
  foldl (λ d k, alter as_datetime k d) d ks.

Definition afap_date_fields : list string :=
  ["fecha_solicitud"; "fecha_vencimiento"].

Definition inspeccion_date_fields : list string :=
  ["fecha_programada"; "fecha_realizada"; "created_at"].

(** The number of documents a handler returned. *)
Definition returned {A} (r : result (list A)) : option nat :=
  match r with
  | Ok l => Some (length l)
  | Raise _ => None
  end.

(** The permits a requester may see: a ciudadano's own, everyone's for
    an inspector or administrador. *)
Definition visible_afaps (u : User.t) (c : list doc) : list doc :=
  match User.role u with
  | ciudadano => filter (owned_by (User.id u)) c
  | inspector | administrador => c
  end.

(** The inspections a requester may see, given the permits and the
    inspections on file; a ciudadano's are joined against the first
    [cap] permits of theirs. *)
Definition visible_inspecciones (cap : nat) (u : User.t)
    (permits inspections : list doc) : list doc :=
  match User.role u with
  | inspector => filter (assigned_to (User.id u)) inspections
  | administrador => inspections
  | ciudadano =>
      filter (inspects (take cap (filter (owned_by (User.id u)) permits)))
             inspections
  end.

(** ** Validators *)

(** What a validator of [AFAP] owes to the [Literal] of [estado]: a
    document whose [estado] is a string outside the four is rejected. *)
Definition checks_estado (V : Validator) : Prop :=
  ∀ d s a,
    d !! "estado" = Some (VStr s) →
    s ∉ ["pendiente"; "aprobado"; "rechazado"; "inspeccion"] →
    V d ≠ Ok a.

(** The validator accepts the document. *)
Definition accepts (V : Validator) (d : doc) : Prop := ∃ a, V d = Ok a.

(** The state of the permit is a string outside the [Literal] of
    [AFAP.estado]. *)
Definition estado_unlisted (d : doc) : Prop :=
  ∃ s, d !! "estado" = Some (VStr s) ∧
       s ∉ ["pendiente"; "aprobado"; "rechazado"; "inspeccion"].

(** One validator, for the examples: it reads a document field by field,
    each value under the type the model declares it, and coerces
    nothing.  Of the defaults it knows [None] for the optional fields and
    "pendiente" for [estado]; every other field must be there. *)
Definition invalid {A} : result A := Raise (OtherError "ValidationError").

Definition read_str (d : doc) (k : string) : result string :=
  match d !! k with Some (VStr s) => Ok s | _ => invalid end.

Definition read_opt_str (d : doc) (k : string) : result (option string) :=
  match d !! k with
  | Some (VStr s) => Ok (Some s)
  | Some VNone | None => Ok None
  | _ => invalid
  end.

Definition read_int (d : doc) (k : string) : result Z :=
  match d !! k with Some (VInt n) => Ok n | _ => invalid end.

Definition read_float (d : doc) (k : string) : result Z :=
  match d !! k with Some (VFloat x) => Ok x | _ => invalid end.

Definition read_bool (d : doc) (k : string) : result bool :=
  match d !! k with Some (VBool b) => Ok b | _ => invalid end.

Definition read_list (d : doc) (k : string) : result (list string) :=
  match d !! k with Some (VList l) => Ok l | _ => invalid end.

Definition read_datetime (d : doc) (k : string) : result Z :=
  match d !! k with Some (VDatetime t) => Ok t | _ => invalid end.

Definition read_opt_datetime (d : doc) (k : string) : result (option Z) :=
  match d !! k with
  | Some (VDatetime t) => Ok (Some t)
  | Some VNone | None => Ok None
  | _ => invalid
  end.

Definition read_titular_tipo (d : doc) : result TitularTipo :=
  match d !! "titular_tipo" with
  | Some (VStr s) =>
      if bool_decide (s = "fisica") then Ok fisica
      else if bool_decide (s = "juridica") then Ok juridica
      else invalid
  | _ => invalid
  end.

Definition read_estado (d : doc) : result Estado :=
  match d !! "estado" with
  | Some (VStr s) =>
      if bool_decide (s = "pendiente") then Ok pendiente
      else if bool_decide (s = "aprobado") then Ok aprobado
      else if bool_decide (s = "rechazado") then Ok rechazado
      else if bool_decide (s = "inspeccion") then Ok inspeccion
      else invalid
  | None => Ok pendiente
  | _ => invalid
  end.

Notation "'let?' x := r 'in' k" := (and_then r (λ x, k))
  (at level 10, x name, r at level 99, k at level 200, only parsing).

Definition AFAPCreate_of_doc (d : doc) : result AFAPCreate.t :=
  let? solicitante_nombre := read_str d "solicitante_nombre" in
  let? solicitante_apellido := read_str d "solicitante_apellido" in
  let? solicitante_cuit_cuil := read_str d "solicitante_cuit_cuil" in
  let? solicitante_telefono := read_str d "solicitante_telefono" in
  let? solicitante_email := read_str d "solicitante_email" in
  let? titular_tipo := read_titular_tipo d in
  let? titular_nombre := read_opt_str d "titular_nombre" in
  let? titular_cuit := read_opt_str d "titular_cuit" in
  let? cuenta_abl := read_str d "cuenta_abl" in
  let? domicilio_calle := read_str d "domicilio_calle" in
  let? domicilio_altura := read_str d "domicilio_altura" in
  let? domicilio_piso := read_opt_str d "domicilio_piso" in
  let? domicilio_depto := read_opt_str d "domicilio_depto" in
  let? domicilio_local := read_opt_str d "domicilio_local" in
  let? domicilio_localidad := read_str d "domicilio_localidad" in
  let? rubro_tipo := read_str d "rubro_tipo" in
  let? rubro_subrubro := read_str d "rubro_subrubro" in
  let? rubro_descripcion := read_str d "rubro_descripcion" in
  let? metros_cuadrados := read_float d "metros_cuadrados" in
  let? techos_cielorasos := read_str d "techos_cielorasos" in
  let? pisos_material := read_str d "pisos_material" in
  let? tiene_sanitarios := read_bool d "tiene_sanitarios" in
  let? sanitarios_acceso_directo := read_bool d "sanitarios_acceso_directo" in
  let? sanitarios_antecamara := read_bool d "sanitarios_antecamara" in
  let? sanitarios_lavabos_m := read_int d "sanitarios_lavabos_m" in
  let? sanitarios_retretes_m := read_int d "sanitarios_retretes_m" in
  let? sanitarios_lavabos_f := read_int d "sanitarios_lavabos_f" in
  let? sanitarios_retretes_f := read_int d "sanitarios_retretes_f" in
  let? sanitarios_migitorios := read_int d "sanitarios_migitorios" in
  let? sanitarios_discapacitados := read_bool d "sanitarios_discapacitados" in
  let? cantidad_trabajadores := read_int d "cantidad_trabajadores" in
  let? documentos_urls := read_list d "documentos_urls" in
  Ok (AFAPCreate.mk solicitante_nombre solicitante_apellido
        solicitante_cuit_cuil solicitante_telefono solicitante_email
        titular_tipo titular_nombre titular_cuit cuenta_abl domicilio_calle
        domicilio_altura domicilio_piso domicilio_depto domicilio_local
        domicilio_localidad rubro_tipo rubro_subrubro rubro_descripcion
        metros_cuadrados techos_cielorasos pisos_material tiene_sanitarios
        sanitarios_acceso_directo sanitarios_antecamara sanitarios_lavabos_m
        sanitarios_retretes_m sanitarios_lavabos_f sanitarios_retretes_f
        sanitarios_migitorios sanitarios_discapacitados cantidad_trabajadores
        documentos_urls).

Definition AFAP_of_doc : Validator := λ d,
  let? estado := read_estado d in
  let? base := AFAPCreate_of_doc d in
  let? id := read_str d "id" in
  let? numero_afap := read_int d "numero_afap" in
  let? user_id := read_str d "user_id" in
  let? fecha_solicitud := read_datetime d "fecha_solicitud" in
  let? fecha_vencimiento := read_opt_datetime d "fecha_vencimiento" in
  let? observaciones := read_opt_str d "observaciones" in
  let? inspector_asignado := read_opt_str d "inspector_asignado" in
  Ok (AFAP.mk base id numero_afap user_id estado fecha_solicitud
              fecha_vencimiento observaciones inspector_asignado).

(** ** Sample data *)

Module Sample.
Definition payload : AFAPCreate.t :=
  AFAPCreate.mk "Ana" "Martinez" "20111222333" "+54 11 1112-2233"
    "comerciante@email.com" fisica (Some "Ana Martinez")
    (Some "20111222333") "87654321" "Av. San Martin" "500" None None
    (Some "Local 2") "Moron" "Comercio Minorista" "Indumentaria"
    "Boutique de ropa" 4638144666238189568 "Cielorraso de yeso"
    "Ceramico" true false false 0 0 0 0 0 false 2 [].

Definition juan : User.t :=
  User.mk "ciudadano@argentina.gob.ar" "20123456789" "Juan" "Perez"
          "+54 11 1234-5678" ciudadano "user-1" 0.
Definition maria : User.t :=
  User.mk "inspector@argentina.gob.ar" "20987654321" "Maria" "Gonzalez"
          "+54 11 9876-5432" inspector "user-2" 0.
Definition carlos : User.t :=
  User.mk "admin@argentina.gob.ar" "20555555555" "Carlos" "Rodriguez"
          "+54 11 5555-5555" administrador "user-3" 0.
Definition ana : User.t :=
  User.mk "comerciante@email.com" "20111222333" "Ana" "Martinez"
          "+54 11 1112-2233" ciudadano "user-4" 0.

(** The document of a user in [db.users]. *)
Definition user_doc (u : User.t) : doc :=
  list_to_map
    [ ("id", VStr (User.id u)); ("email", VStr (User.email u));
      ("cuit_cuil", VStr (User.cuit_cuil u));
      ("nombre", VStr (User.nombre u));
      ("apellido", VStr (User.apellido u));
      ("telefono", VStr (User.telefono u));
      ("role", VStr (role_str (User.role u)));
      ("hashed_password", VStr "$2b$12$demo");
      ("created_at", VIso (User.created_at u)) ].

Definition all_users : list doc :=
  [user_doc juan; user_doc maria; user_doc carlos; user_doc ana].

(** Two creates by Ana, as calls that may interleave. *)
Definition calls : list CreateCall :=
  [ mkCreateCall payload ana 1000 1001 "afap-a";
    mkCreateCall payload ana 2000 2001 "afap-b" ].

(** A world with the four users and no permit. *)
Definition w0 : World := mkWorld (mkDb [] all_users [] []) [] [].

(** Ana files one permit. *)
Definition w1 : World :=
  (create_afap payload ana 1000 1001 "afap-a" w0).2.

(** The permit as it is stored. *)
Definition d1 : doc :=
  stored_afap (new_afap payload ana 1000 1001 "afap-a" 1001)
              (1000 + timedelta_days 30).

(** What [update_afap_estado] reads of Ana's record. *)
Definition ana_contact : doc :=
  project (Some ["email"; "nombre"; "apellido"]) (user_doc ana).

(** Maria approves it. *)
Definition w2 : World :=
  (update_afap_estado EmailService.notifier "afap-a" "aprobado" None
                      maria w1).2.

(** Ana files a permit, Maria approves it, Juan files another. *)
Definition requests : list Request :=
  [ ReqCreate payload ana 1000 1001 "afap-a";
    ReqUpdateEstado "afap-a" "aprobado" None maria;
    ReqCreate payload juan 2000 2001 "afap-b" ].

(** The n-th of a run of permits filed by Ana. *)
Definition permit (n : nat) : doc :=
  stored_afap
    (new_afap payload ana 1000 1001 ("afap-" +:+ pretty n)
              (1001 + Z.of_nat n))
    (1000 + timedelta_days 30).

(** A registry of 1001 permits. *)
Definition w_big : World :=
  mkWorld (mkDb (permit <$> seq 0 1001) all_users [] []) [] [].

(** The n-th of a run of inspections of the first permit, by Maria. *)
Definition inspeccion (n : nat) : doc :=
  list_to_map
    [ ("id", VStr ("insp-" +:+ pretty n)); ("afap_id", VStr "afap-0");
      ("inspector_id", VStr "user-2"); ("fecha_programada", VIso 5000);
      ("observaciones", VNone); ("estado", VStr "programada");
      ("fecha_realizada", VNone); ("resultado", VNone); ("notas", VNone);
      ("created_at", VIso 4000) ].

(** One permit and 1001 inspections of it. *)
Definition w_inspected : World :=
  mkWorld (mkDb [permit 0] all_users (inspeccion <$> seq 0 1001) []) [] [].

(** One permit and three inspections of it. *)
Definition w_few : World :=
  mkWorld (mkDb [permit 0] all_users (inspeccion <$> seq 0 3) []) [] [].

(** A renderer that yields two bytes. *)
Definition renderer : Renderer := λ _, Ok [Byte.x25; Byte.x50].

(** Ana's permit, set by Carlos to a state outside the four of the
    model. *)
Definition w_archivado : World :=
  (update_afap_estado EmailService.notifier "afap-a" "archivado" None
                      carlos w1).2.
End Sample.

(** * More of the handlers *)

(** The document [download_certificado] appends to [download_logs]. *)
Definition download_log_doc (afap_id : string) (n : Z) (u : User.t)
    (utcnow : Z) (uuid : string) : doc :=
  <["timestamp" := VIso utcnow]>
    (DownloadLog_model_dump
       (DownloadLog.mk uuid afap_id n (User.id u)
          (User.nombre u +:+ " " +:+ User.apellido u) (User.email u)
          utcnow None)).

(** The requester may fetch the certificate of permit [d]: anyone but a
    ciudadano, and the ciudadano it is filed under. *)
Definition may_fetch (u : User.t) (d : doc) : Prop :=
  User.role u = ciudadano → d !! "user_id" = Some (VStr (User.id u)).

#[global] Instance may_fetch_dec u d : Decision (may_fetch u d).
Proof. unfold may_fetch. apply _. Defined.

(** An exception other than [HTTPException]. *)
Definition plain_exn (e : exn) : Prop :=
  match e with
  | HTTPException _ _ => False
  | _ => True
  end.

(** The public view of a permit that [create_afap] stored as [a], its
    state and observation as they are now. *)
Definition public_view (a : AFAP.t) (venc : Z) (estado : string)
    (observaciones : value) : json :=
  let p := AFAP.base a in
  [ ("id", VStr (AFAP.id a));
    ("numero_afap", VInt (AFAP.numero_afap a));
    ("estado", VStr estado);
    ("titular_nombre", opt_str (AFAPCreate.titular_nombre p));
    ("titular_cuit", opt_str (AFAPCreate.titular_cuit p));
    ("domicilio_calle", VStr (AFAPCreate.domicilio_calle p));
    ("domicilio_altura", VStr (AFAPCreate.domicilio_altura p));
    ("domicilio_local", opt_str (AFAPCreate.domicilio_local p));
    ("domicilio_localidad", VStr (AFAPCreate.domicilio_localidad p));
    ("rubro_tipo", VStr (AFAPCreate.rubro_tipo p));
    ("rubro_descripcion", VStr (AFAPCreate.rubro_descripcion p));
    ("metros_cuadrados", VFloat (AFAPCreate.metros_cuadrados p));
    ("fecha_solicitud", VIso (AFAP.fecha_solicitud a));
    ("fecha_vencimiento", VIso venc);
    ("observaciones", observaciones) ].

(** The observation a permit shows after a status change with [obs]. *)
Definition observaciones_after (obs : option string) (before : value)
  : value :=
  match obs with
  | Some o => if bool_decide (o = "") then before else VStr o
  | None => before
  end.

(** The number the next permit gets on a registry served one request at
    a time: one more than the greatest on file, 1001 when there is none. *)
Definition next_number_of (c : list doc) : Z :=
  match numeros c with
  | [] => 1001
  | n :: ns => foldr Z.max n ns + 1
  end.

(** ** server.py: reading one permit *)

Definition get_afap (AFAP_validate : Validator) (afap_id : string)
    (current_user : User.t) : M AFAP.t :=
  let* afap := db_find_one c_afap [("id", Eq (VStr afap_id))] None in
  match afap with
  | None => raise (HTTPException 404 "AFAP no encontrado")
  | Some afap =>
  if negb (truthy_doc afap)
  then raise (HTTPException 404 "AFAP no encontrado")
  else
  let* not_owner :=
    if bool_decide (User.role current_user = ciudadano)
    then let* owner := lift (dict_item afap "user_id") in
         ret (bool_decide (owner ≠ VStr (User.id current_user)))
    else ret false in
  if (not_owner : bool)
  then raise (HTTPException 403 "No autorizado")
  else
  let* afap := lift (afap_dates afap) in
  lift (AFAP_validate afap)
  end.

(** ** models.py and server.py: scheduling an inspection *)

Module InspeccionCreate.
Record t := mk {
  afap_id : string;
  inspector_id : string;
  fecha_programada : Z;
  observaciones : option string
}.
End InspeccionCreate.

(** The [Literal]s of [Inspeccion.estado] and [Inspeccion.resultado]. *)
Inductive EstadoInspeccion := programada | completada | cancelada.

Definition estado_inspeccion_str (e : EstadoInspeccion) : string :=
  match e with
  | programada => "programada"
  | completada => "completada"
  | cancelada => "cancelada"
  end.

Inductive Resultado := res_aprobado | res_rechazado | requiere_correccion.

Definition resultado_str (r : Resultado) : string :=
  match r with
  | res_aprobado => "aprobado"
  | res_rechazado => "rechazado"
  | requiere_correccion => "requiere_correccion"
  end.

Module Inspeccion.
Record t := mk {
  base : InspeccionCreate.t;
  id : string;
  estado : EstadoInspeccion;
  fecha_realizada : option Z;
  resultado : option Resultado;
  notas : option string;
  created_at : Z
}.
End Inspeccion.

(** [Inspeccion.model_dump()]. *)
Definition Inspeccion_model_dump (i : Inspeccion.t) : doc :=
  let b := Inspeccion.base i in
  list_to_map
    [ ("afap_id", VStr (InspeccionCreate.afap_id b));
      ("inspector_id", VStr (InspeccionCreate.inspector_id b));
      ("fecha_programada", VDatetime (InspeccionCreate.fecha_programada b));
      ("observaciones", opt_str (InspeccionCreate.observaciones b));
      ("id", VStr (Inspeccion.id i));
      ("estado", VStr (estado_inspeccion_str (Inspeccion.estado i)));
      ("fecha_realizada", opt_datetime (Inspeccion.fecha_realizada i));
      ("resultado",
       opt_str (resultado_str <$> Inspeccion.resultado i));
      ("notas", opt_str (Inspeccion.notas i));
      ("created_at", VDatetime (Inspeccion.created_at i)) ].

(** [create_inspeccion].  [uuid] and [utcnow] are the id and the
    [created_at] that [Inspeccion] draws for itself. *)
Definition create_inspeccion (inspeccion_data : InspeccionCreate.t)
    (current_user : User.t) (utcnow : Z) (uuid : string) : M Inspeccion.t :=
  if negb (bool_decide (User.role current_user ∈ [inspector; administrador]))
  then raise (HTTPException 403 "No autorizado")
  else
  let inspeccion :=
    Inspeccion.mk inspeccion_data uuid programada None None None utcnow in
  let inspeccion_dict := Inspeccion_model_dump inspeccion in
  let* fp := lift (isoformat_item inspeccion_dict "fecha_programada") in
  let inspeccion_dict := <["fecha_programada" := fp]> inspeccion_dict in
  let* ca := lift (isoformat_item inspeccion_dict "created_at") in
  let inspeccion_dict := <["created_at" := ca]> inspeccion_dict in
  let* inspeccion_dict :=
    if truthy (dict_get inspeccion_dict "fecha_realizada")
    then let* fr := lift (isoformat_item inspeccion_dict "fecha_realizada") in
         ret (<["fecha_realizada" := fr]> inspeccion_dict)
    else ret inspeccion_dict in
  db_insert_one c_inspecciones inspeccion_dict ;;;
  ret inspeccion.

(** ** server.py: the download history of a permit *)

(** The instant under a field that holds an ISO date: the key of a sort
    on that field.  A document without one there is ordered below those
    that have one. *)
Definition iso_field (f : string) (d : doc) : option Z :=
  match d !! f with
  | Some (VIso t) => Some t
  | _ => None
  end.

(** [a] is not before [b] in a descending sort on [key]. *)
Definition key_ge (key : doc → option Z) (a b : doc) : Prop :=
  key_ltb (key a) (key b) = false.

#[global] Instance key_ge_dec key a b : Decision (key_ge key a b).
Proof. unfold key_ge. apply _. Defined.

(** [sort(f, -1)]: the documents by descending key. *)
Definition sort_desc (key : doc → option Z) (c : list doc) : list doc :=
  merge_sort (key_ge key) c.

(** [find(q, p).sort(f, -1).to_list(n)], on ISO dates. *)
Definition db_find_sorted_to_list (c : Coll) (q : query) (f : string)
    (n : nat) : M (list doc) :=
  λ w, (Ok (to_list n (sort_desc (iso_field f) (find q (coll c (db w))))), w).

Definition log_dates (d : doc) : result doc :=
  fromisoformat_field "timestamp" d.

Definition get_download_history (afap_id : string) (current_user : User.t)
  : M (list doc) :=
  if bool_decide (User.role current_user ≠ administrador)
  then raise (HTTPException 403 "No autorizado")
  else
  let* logs :=
    db_find_sorted_to_list c_download_logs [("afap_id", Eq (VStr afap_id))]
                           "timestamp" 100 in
  lift (for_each log_dates logs).

(** ** server.py: the dashboard *)

(** [count_documents(q)]. *)
Definition db_count_documents (c : Coll) (q : query) : M Z :=
  λ w, (Ok (Z.of_nat (length (find q (coll c (db w))))), w).

(** The object [get_dashboard_stats] returns, its three nested objects
    laid flat. *)
Record DashboardStats := mkDashboardStats {
  total_afaps : Z;
  pendientes : Z;
  aprobados : Z;
  rechazados : Z;
  en_inspeccion : Z;
  inspecciones_programadas : Z;
  inspecciones_completadas : Z;
  total_usuarios : Z;
  recent_afaps : list doc
}.

(** [get_dashboard_stats].  The [limit(5).to_list(5)] of the recent
    permits is one cut at five. *)
Definition get_dashboard_stats (current_user : User.t) : M DashboardStats :=
  if negb (bool_decide (User.role current_user ∈ [inspector; administrador]))
  then raise (HTTPException 403 "No autorizado")
  else
  let* total_afaps := db_count_documents c_afap [] in
  let* pendientes :=
    db_count_documents c_afap [("estado", Eq (VStr "pendiente"))] in
  let* aprobados :=
    db_count_documents c_afap [("estado", Eq (VStr "aprobado"))] in
  let* rechazados :=
    db_count_documents c_afap [("estado", Eq (VStr "rechazado"))] in
  let* en_inspeccion :=
    db_count_documents c_afap [("estado", Eq (VStr "inspeccion"))] in
  let* inspecciones_programadas :=
    db_count_documents c_inspecciones [("estado", Eq (VStr "programada"))] in
  let* inspecciones_completadas :=
    db_count_documents c_inspecciones [("estado", Eq (VStr "completada"))] in
  let* total_usuarios := db_count_documents c_users [] in
  let* recent_afaps :=
    db_find_sorted_to_list c_afap [] "fecha_solicitud" 5 in
  let* recent_afaps := lift (for_each afap_dates recent_afaps) in
  ret (mkDashboardStats total_afaps pendientes aprobados rechazados
         en_inspeccion inspecciones_programadas inspecciones_completadas
         total_usuarios recent_afaps).

(** ** models.py and server.py: registration *)

Module UserCreate.
Record t := mk {
  email : string;
  cuit_cuil : string;
  nombre : string;
  apellido : string;
  telefono : string;
  role : Role;
  password : string
}.
End UserCreate.

Module UserInDB.
Record t := mk {
  user : User.t;
  hashed_password : string
}.
End UserInDB.

(** [UserInDB.model_dump()]. *)
Definition UserInDB_model_dump (u : UserInDB.t) : doc :=
  let b := UserInDB.user u in
  list_to_map
    [ ("email", VStr (User.email b));
      ("cuit_cuil", VStr (User.cuit_cuil b));
      ("nombre", VStr (User.nombre b));
      ("apellido", VStr (User.apellido b));
      ("telefono", VStr (User.telefono b));
      ("role", VStr (role_str (User.role b)));
      ("id", VStr (User.id b));
      ("created_at", VDatetime (User.created_at b));
      ("hashed_password", VStr (UserInDB.hashed_password u)) ].

Module Token.
Record t := mk {
  access_token : string;
  token_type : string;
  user : User.t
}.
End Token.

(** What [auth.py] supplies to [register]: the password hash, the signed
    token for a subject and a lifetime in minutes, and the configured
    lifetime. *)
Record Auth := mkAuth {
  get_password_hash : string → string;
  create_access_token : string → Z → string;
  ACCESS_TOKEN_EXPIRE_MINUTES : Z
}.

(** [register].  [uuid] and [utcnow] are the id and the [created_at] that
    [UserInDB] draws for itself. *)
Definition register (A : Auth) (user_data : UserCreate.t) (utcnow : Z)
    (uuid : string) : M Token.t :=
  let* existing_user :=
    db_find_one c_users
      [("cuit_cuil", Eq (VStr (UserCreate.cuit_cuil user_data)))] None in
  if negb (not_found existing_user)
  then raise (HTTPException 400 "El CUIT/CUIL ya está registrado")
  else
  let* existing_email :=
    db_find_one c_users
      [("email", Eq (VStr (UserCreate.email user_data)))] None in
  if negb (not_found existing_email)
  then raise (HTTPException 400 "El email ya está registrado")
  else
  let hashed_password :=
    get_password_hash A (UserCreate.password user_data) in
  let user :=
    User.mk (UserCreate.email user_data) (UserCreate.cuit_cuil user_data)
            (UserCreate.nombre user_data) (UserCreate.apellido user_data)
            (UserCreate.telefono user_data) (UserCreate.role user_data)
            uuid utcnow in
  let user_in_db := UserInDB.mk user hashed_password in
  let user_dict := UserInDB_model_dump user_in_db in
  let* ca := lift (isoformat_item user_dict "created_at") in
  let user_dict := <["created_at" := ca]> user_dict in
  db_insert_one c_users user_dict ;;;
  let access_token :=
    create_access_token A (User.cuit_cuil user)
                        (ACCESS_TOKEN_EXPIRE_MINUTES A) in
  ret (Token.mk access_token "bearer" user).

(** The document [create_inspeccion] inserts. *)
Definition stored_inspeccion (data : InspeccionCreate.t) (utcnow : Z)
    (uuid : string) : doc :=
  <["created_at" := VIso utcnow]>
    (<["fecha_programada" := VIso (InspeccionCreate.fecha_programada data)]>
       (Inspeccion_model_dump
          (Inspeccion.mk data uuid programada None None None utcnow))).

(** A validator that accepts nothing. *)
Definition rejecting_validator : Validator := λ _, Raise (OtherError "ValidationError").

(** The requester may see the inspection: an inspector those assigned to
    them, an administrador all, a ciudadano those of the first [cap]
    permits of theirs. *)
Definition may_see (cap : nat) (u : User.t) (permits : list doc)
    (i : doc) : Prop :=
  match User.role u with
  | inspector => assigned_to (User.id u) i
  | administrador => True
  | ciudadano => inspects (take cap (filter (owned_by (User.id u)) permits)) i
  end.

#[global] Instance may_see_dec cap u permits i :
  Decision (may_see cap u permits i).
Proof. unfold may_see. destruct (User.role u); apply _. Defined.

(** Maria schedules an inspection of a permit that is not on file. *)
Definition visita : InspeccionCreate.t :=
  InspeccionCreate.mk "afap-zzz" "user-2" 7000 None.

(** The entry of the download log is of this permit. *)
Definition for_permit (afap_id : string) (d : doc) : Prop :=
  d !! "afap_id" = Some (VStr afap_id).

#[global] Instance for_permit_dec afap_id d : Decision (for_permit afap_id d).
Proof. unfold for_permit. apply _. Defined.

(** The field holds an ISO date, as the handlers write it. *)
Definition has_iso (k : string) (d : doc) : Prop := is_Some (iso_field k d).

#[global] Instance has_iso_dec k d : Decision (has_iso k d).
Proof. unfold has_iso. apply _. Defined.

(** The permit is in this state. *)
Definition estado_is (s : string) (d : doc) : Prop :=
  d !! "estado" = Some (VStr s).

#[global] Instance estado_is_dec s d : Decision (estado_is s d).
Proof. unfold estado_is. apply _. Defined.

(** The permit is in none of the four states the dashboard counts. *)
Definition uncounted (d : doc) : Prop :=
  ¬ estado_is "pendiente" d ∧ ¬ estado_is "aprobado" d
  ∧ ¬ estado_is "rechazado" d ∧ ¬ estado_is "inspeccion" d.

#[global] Instance uncounted_dec d : Decision (uncounted d).
Proof. unfold uncounted. apply _. Defined.

(** Maria sets Ana's permit to a state outside the four of the model. *)
Definition w_vencido : World :=
  (update_afap_estado EmailService.notifier "afap-a" "vencido" None
                      Sample.maria Sample.w1).2.

(** ** What [register] stores *)

(** The user [register] builds from the request. *)
Definition registered (user_data : UserCreate.t) (utcnow : Z) (uuid : string)
  : User.t :=
  User.mk (UserCreate.email user_data) (UserCreate.cuit_cuil user_data)
          (UserCreate.nombre user_data) (UserCreate.apellido user_data)
          (UserCreate.telefono user_data) (UserCreate.role user_data)
          uuid utcnow.

(** The record [register] inserts. *)
Definition stored_user (A : Auth) (user_data : UserCreate.t) (utcnow : Z)
    (uuid : string) : doc :=
  <["created_at" := VIso utcnow]>
    (UserInDB_model_dump
       (UserInDB.mk (registered user_data utcnow uuid)
                    (get_password_hash A (UserCreate.password user_data)))).

(** Every record holds a CUIT/CUIL and an email, and no two records share
    either. *)
Definition users_unique (c : list doc) : Prop :=
  Forall (has_str "cuit_cuil") c ∧ Forall (has_str "email") c ∧
  NoDup (field_of "cuit_cuil" c) ∧ NoDup (field_of "email" c).

#[global] Instance users_unique_dec c : Decision (users_unique c).
Proof. unfold users_unique. apply _. Defined.

(** A registration request with the instant and the id drawn for it. *)
Record RegisterCall := mkRegisterCall {
  rc_data : UserCreate.t;
  rc_utcnow : Z;
  rc_uuid : string
}.

(** Registrations served one after another; a refused one changes
    nothing. *)
Definition register_all (A : Auth) (calls : list RegisterCall) (w : World)
  : World :=
  foldl (λ w c, (register A (rc_data c) (rc_utcnow c) (rc_uuid c) w).2)
        w calls.

(** A stand-in for [auth.py]. *)
Definition demo_auth : Auth :=
  mkAuth (λ p, "$2b$12$" +:+ p) (λ sub _, "jwt." +:+ sub) 1440.

(** Three requests: a new user asking for the role of administrador,
    then one with the same CUIT/CUIL, then one with the same email. *)
Definition eva : UserCreate.t :=
  UserCreate.mk "eva@email.com" "27000111222" "Eva" "Luna"
                "+54 11 0000-0001" administrador "secreto".
Definition eva_cuit : UserCreate.t :=
  UserCreate.mk "otra@email.com" "27000111222" "Eva" "Sol"
                "+54 11 0000-0002" ciudadano "clave".
Definition eva_email : UserCreate.t :=
  UserCreate.mk "eva@email.com" "27999888777" "Eva" "Mar"
                "+54 11 0000-0003" ciudadano "clave".

Definition registrations : list RegisterCall :=
  [ mkRegisterCall eva 9000 "user-5";
    mkRegisterCall eva_cuit 9001 "user-6";
    mkRegisterCall eva_email 9002 "user-7" ].

(** The world once the first of them has been served. *)
Definition w_eva : World :=
  (register demo_auth eva 9000 "user-5" Sample.w0).2.

(** * Properties *)

(** ** Lookups in dumped and projected documents *)

Lemma project_lookup fs (d : doc) k :
  project (Some fs) d !! k = if bool_decide (k ∈ fs) then d !! k else None.
Proof.
  unfold project. case_bool_decide.
  - destruct (d !! k) eqn:E.
    + apply map_lookup_filter_Some. done.
    + apply map_lookup_filter_None. left. done.
  - apply map_lookup_filter_None. right. intros v _ . done.
Qed.

Lemma dump_fecha_solicitud a :
  AFAP_model_dump a !! "fecha_solicitud"
  = Some (VDatetime (AFAP.fecha_solicitud a)).
Proof. vm_compute. reflexivity. Qed.

Lemma dump_fecha_vencimiento a :
  AFAP_model_dump a !! "fecha_vencimiento"
  = Some (opt_datetime (AFAP.fecha_vencimiento a)).
Proof. vm_compute. reflexivity. Qed.

Lemma dump_numero_afap a :
  AFAP_model_dump a !! "numero_afap" = Some (VInt (AFAP.numero_afap a)).
Proof. vm_compute. reflexivity. Qed.

Lemma dump_estado a :
  AFAP_model_dump a !! "estado" = Some (VStr (estado_str (AFAP.estado a))).
Proof. vm_compute. reflexivity. Qed.

Lemma dump_user_id a :
  AFAP_model_dump a !! "user_id" = Some (VStr (AFAP.user_id a)).
Proof. vm_compute. reflexivity. Qed.

Lemma numero_of_stored a venc :
  numero_of (stored_afap a venc) = Some (AFAP.numero_afap a).
Proof.
  unfold numero_of, int_field, stored_afap.
  rewrite !lookup_insert_ne by done.
  by rewrite dump_numero_afap.
Qed.

(** ** The greatest permit number *)

Lemma first_max_nil key c : first_max key c = None ↔ c = [].
Proof.
  destruct c as [|d c]; simpl; [done|].
  split; [|done]. destruct (first_max key c); [destruct (key_ltb _ _)|]; done.
Qed.

Lemma first_max_elem key c d : first_max key c = Some d → d ∈ c.
Proof.
  revert d. induction c as [|x c IH]; simpl; intros d; [done|].
  destruct (first_max key c) as [d'|] eqn:E.
  - destruct (key_ltb (key x) (key d')); intros [= <-].
    + right. by apply IH.
    + left.
  - intros [= <-]. left.
Qed.

Lemma first_max_ge key c d d' :
  first_max key c = Some d → d' ∈ c → key_ltb (key d) (key d') = false.
Proof.
  revert d. induction c as [|x c IH]; simpl; intros d Hm Hin.
  { by apply elem_of_nil in Hin. }
  destruct (first_max key c) as [m|] eqn:E.
  - destruct (key_ltb (key x) (key m)) eqn:Hlt; injection Hm as <-.
    + apply elem_of_cons in Hin as [->|Hin]; [|by apply IH].
      destruct (key x), (key m); simpl in *; try done. lia.
    + apply elem_of_cons in Hin as [->|Hin].
      * destruct (key x); simpl; [lia|done].
      * specialize (IH m eq_refl Hin).
        destruct (key x), (key m), (key d'); simpl in *; try done; lia.
  - injection Hm as <-. apply first_max_nil in E as ->.
    apply list_elem_of_singleton in Hin as ->.
    destruct (key x); simpl; [lia|done].
Qed.

Lemma numeros_cons d c :
  numeros (d :: c)
  = match numero_of d with Some n => n :: numeros c | None => numeros c end.
Proof. unfold numeros. simpl. destruct (numero_of d); done. Qed.

Lemma numeros_app c c' : numeros (c ++ c') = numeros c ++ numeros c'.
Proof. unfold numeros. apply omap_app. Qed.

Lemma elem_of_numeros n c : n ∈ numeros c ↔ ∃ d, d ∈ c ∧ numero_of d = Some n.
Proof. unfold numeros. rewrite list_elem_of_omap. done. Qed.

Lemma numbered_prior_max c :
  numbered c → c ≠ [] → ∃ m, prior_max c m.
Proof.
  induction c as [|d c IH]; intros Hn Hne; [done|].
  apply Forall_cons in Hn as [[n Hd] Hn].
  destruct c as [|d' c'].
  - exists n. unfold prior_max. rewrite numeros_cons, Hd. simpl.
    split; [set_solver|]. intros k Hk. apply list_elem_of_singleton in Hk. lia.
  - destruct (IH Hn) as (m & Hin & Hmax); [done|].
    exists (Z.max n m). unfold prior_max. rewrite numeros_cons, Hd. split.
    + destruct (Z.max_spec n m) as [[_ ->]|[_ ->]]; [by right|by left].
    + intros k Hk. apply elem_of_cons in Hk as [->|Hk]; [lia|].
      specialize (Hmax k Hk). lia.
Qed.

(** ** [create_afap] *)

Lemma next_number_empty w :
  afap (db w) = [] → create_afap_next_number w = (Ok 1001, w).
Proof.
  intros H. unfold create_afap_next_number, bind, db_find_one_sorted_desc,
    find_one_sorted_desc. simpl. rewrite H. done.
Qed.

Lemma next_number_max w m :
  prior_max (afap (db w)) m → create_afap_next_number w = (Ok (m + 1), w).
Proof.
  intros [Hin Hmax].
  apply elem_of_numeros in Hin as (d & Hd & Hn).
  unfold create_afap_next_number, bind, db_find_one_sorted_desc,
    find_one_sorted_desc. simpl.
  destruct (first_max (int_field "numero_afap") (afap (db w))) as [x|] eqn:E.
  2:{ apply first_max_nil in E. rewrite E in Hd. by apply elem_of_nil in Hd. }
  pose proof (first_max_elem _ _ _ E) as Hx.
  pose proof (first_max_ge _ _ _ _ E Hd) as Hge.
  unfold numero_of in Hn. rewrite Hn in Hge.
  destruct (int_field "numero_afap" x) as [k|] eqn:Hk; [|done].
  simpl in Hge.
  assert (k = m) as ->.
  { assert (k ≤ m). { apply Hmax, elem_of_numeros. eauto. }
    assert (m ≤ k) by lia. lia. }
  unfold int_field in Hk.
  destruct (x !! "numero_afap") as [[]|] eqn:Hx'; try done.
  injection Hk as ->.
  simpl.
  assert (project (Some ["numero_afap"]) x !! "numero_afap" = Some (VInt m))
    as Hp.
  { rewrite project_lookup. rewrite bool_decide_true; [done|]. set_solver. }
  unfold project in Hp. unfold truthy_doc. rewrite bool_decide_false.
  2:{ intros He. rewrite He in Hp. done. }
  simpl. unfold lift, dict_item. rewrite Hp. done.
Qed.

Lemma create_afap_store_spec p u now utcnow uuid n w :
  create_afap_store p u now utcnow uuid n w =
  (Ok (new_afap p u now utcnow uuid n),
   mkWorld (set_coll c_afap
              (afap (db w) ++
                 [stored_afap (new_afap p u now utcnow uuid n)
                              (now + timedelta_days 30)])
              (db w))
           (log w) (dispatched w)).
Proof.
  unfold create_afap_store, bind, lift, isoformat_item.
  rewrite dump_fecha_solicitud.
  rewrite lookup_insert_ne by done.
  rewrite dump_fecha_vencimiento.
  reflexivity.
Qed.

(** ** Evaluation of handlers *)

Lemma bind_ok {A B} (m : M A) (k : A → M B) w a w' :
  m w = (Ok a, w') → bind m k w = k a w'.
Proof. unfold bind. by intros ->. Qed.

Lemma bind_raise {A B} (m : M A) (k : A → M B) w e w' :
  m w = (Raise e, w') → bind m k w = (Raise e, w').
Proof. unfold bind. by intros ->. Qed.

Section keeps.
Context {X : Type} (g : Db → X).

Lemma keeps_ret {A} (a : A) : keeps g (ret a).
Proof. by intros w. Qed.

Lemma keeps_raise {A} e : keeps g (@raise A e).
Proof. by intros w. Qed.

Lemma keeps_lift {A} (r : result A) : keeps g (lift r).
Proof. by intros w. Qed.

Lemma keeps_logger l m : keeps g (logger l m).
Proof. by intros w. Qed.

Lemma keeps_call_notifier d out : keeps g (call_notifier d out).
Proof. by intros w. Qed.

Lemma keeps_find_one c q p : keeps g (db_find_one c q p).
Proof. by intros w. Qed.

Lemma keeps_find_one_sorted_desc c f p :
  keeps g (db_find_one_sorted_desc c f p).
Proof. by intros w. Qed.

Lemma keeps_find_to_list c q p n : keeps g (db_find_to_list c q p n).
Proof. by intros w. Qed.

Lemma keeps_bind {A B} (m : M A) (k : A → M B) :
  keeps g m → (∀ a, keeps g (k a)) → keeps g (bind m k).
Proof.
  intros Hm Hk w. unfold bind. specialize (Hm w).
  destruct (m w) as [[a|e] w']; simpl in *; [|done].
  by rewrite Hk.
Qed.

Lemma keeps_try_except {A} (m : M A) (h : exn → M A) :
  keeps g m → (∀ e, keeps g (h e)) → keeps g (try_except m h).
Proof.
  intros Hm Hh w. unfold try_except. specialize (Hm w).
  destruct (m w) as [[a|e] w']; simpl in *; [done|].
  by rewrite Hh.
Qed.
End keeps.

Lemma keeps_insert_download_log d : keeps afap (db_insert_one c_download_logs d).
Proof. by intros w. Qed.

(** Splits a computation along its structure. *)
Ltac keeps_step :=
  lazymatch goal with
  | |- keeps _ (bind _ _) => apply keeps_bind; [|intros ?]
  | |- keeps _ (try_except _ _) => apply keeps_try_except; [|intros ?]
  | |- keeps _ (ret _) => apply keeps_ret
  | |- keeps _ (raise _) => apply keeps_raise
  | |- keeps _ (lift _) => apply keeps_lift
  | |- keeps _ (logger _ _) => apply keeps_logger
  | |- keeps _ (call_notifier _ _) => apply keeps_call_notifier
  | |- keeps _ (db_find_one _ _ _) => apply keeps_find_one
  | |- keeps _ (db_find_to_list _ _ _ _) => apply keeps_find_to_list
  | |- keeps afap (db_insert_one c_download_logs _) =>
      apply keeps_insert_download_log
  | |- keeps _ (if ?b then _ else _) => destruct b
  | |- keeps _ (match ?x with _ => _ end) => destruct x
  end.
Ltac keeps_tac := repeat keeps_step.

Lemma keeps_notify_solicitante {X} (g : Db → X) N afap_actual old_estado
    estado observaciones user_solicitante :
  keeps g (notify_solicitante N afap_actual old_estado estado observaciones
                              user_solicitante).
Proof. unfold notify_solicitante. keeps_tac. Qed.

Lemma keeps_download_certificado R afap_id u utcnow uuid :
  keeps afap (download_certificado R afap_id u utcnow uuid).
Proof. unfold download_certificado. keeps_tac. Qed.

Lemma keeps_verificar {X} (g : Db → X) afap_id :
  keeps g (verificar_certificado_publico afap_id).
Proof. unfold verificar_certificado_publico. keeps_tac. Qed.

(** ** [update_one] *)

Lemma find_head_split q c d :
  head (find q c) = Some d →
  ∃ l1 l2, c = l1 ++ d :: l2 ∧ Forall (λ x, matches q x = false) l1 ∧
           matches q d = true.
Proof.
  unfold find. induction c as [|x c IH]; simpl; [done|].
  destruct (matches q x) eqn:Hx; simpl.
  - intros [= ->]. exists [], c. by repeat split.
  - intros H. destruct (IH H) as (l1 & l2 & -> & Hl1 & Hd).
    exists (x :: l1), l2. repeat split; [|done]. by constructor.
Qed.

Lemma find_head_app q l1 d l2 :
  Forall (λ x, matches q x = false) l1 → matches q d = true →
  head (find q (l1 ++ d :: l2)) = Some d.
Proof.
  unfold find. induction 1 as [|x l1 Hx _ IH]; simpl; intros Hd.
  - by rewrite Hd.
  - rewrite Hx. by apply IH.
Qed.

Lemma find_head_None q c :
  head (find q c) = None → Forall (λ x, matches q x = false) c.
Proof.
  unfold find. induction c as [|x c IH]; simpl; [by constructor|].
  destruct (matches q x) eqn:Hx; simpl; [done|].
  intros H. constructor; auto.
Qed.

Lemma update_one_split q u l1 d l2 :
  Forall (λ x, matches q x = false) l1 → matches q d = true →
  update_one q u (l1 ++ d :: l2) = (l1 ++ (u ∪ d) :: l2, 1).
Proof.
  induction 1 as [|x l1 Hx _ IH]; simpl; intros Hd.
  - by rewrite Hd.
  - rewrite Hx, (IH Hd). done.
Qed.

Lemma update_one_none q u c :
  Forall (λ x, matches q x = false) c → update_one q u c = (c, 0).
Proof.
  induction 1 as [|x c Hx _ IH]; simpl; [done|]. by rewrite Hx, IH.
Qed.

Lemma update_data_estado e o : update_data e o !! "estado" = Some (VStr e).
Proof.
  unfold update_data. destruct o as [s|]; [destruct (truthy (VStr s))|];
    by simplify_map_eq.
Qed.

Lemma update_data_other e o k :
  k ≠ "estado" → k ≠ "observaciones" → update_data e o !! k = None.
Proof.
  intros. unfold update_data.
  destruct o as [s|]; [destruct (truthy (VStr s))|]; by simplify_map_eq.
Qed.

Lemma updated_other e o (d : doc) k :
  k ≠ "estado" → k ≠ "observaciones" → (update_data e o ∪ d) !! k = d !! k.
Proof. intros. apply lookup_union_r. by apply update_data_other. Qed.

Lemma updated_estado e o (d : doc) :
  (update_data e o ∪ d) !! "estado" = Some (VStr e).
Proof. apply lookup_union_Some_l, update_data_estado. Qed.

Lemma matches_id_updated id e o d :
  matches [("id", Eq (VStr id))] (update_data e o ∪ d)
  = matches [("id", Eq (VStr id))] d.
Proof. unfold matches. simpl. by rewrite updated_other. Qed.

Lemma matches_id_truthy id d :
  matches [("id", Eq (VStr id))] d = true → truthy_doc d = true.
Proof.
  unfold matches, truthy_doc. simpl. intros H.
  rewrite bool_decide_false; [done|]. intros ->.
  rewrite lookup_empty in H. done.
Qed.

Lemma numero_of_updated e o d : numero_of (update_data e o ∪ d) = numero_of d.
Proof. unfold numero_of, int_field. by rewrite updated_other. Qed.

(** ** [update_afap_estado] *)

Lemma role_not_staff u :
  bool_decide (User.role u ∈ [inspector; administrador]) = false
  ↔ User.role u = ciudadano.
Proof.
  destruct (User.role u); split; intros H; try done;
    apply bool_decide_eq_false in H; exfalso; apply H; set_solver.
Qed.

Lemma role_staff u :
  User.role u ≠ ciudadano →
  bool_decide (User.role u ∈ [inspector; administrador]) = true.
Proof.
  intros H. apply bool_decide_eq_true.
  destruct (User.role u); [done|set_solver..].
Qed.

Lemma update_afap_estado_forbidden N afap_id estado obs u w :
  User.role u = ciudadano →
  update_afap_estado N afap_id estado obs u w
  = (Raise (HTTPException 403 "No autorizado"), w).
Proof.
  intros H. apply role_not_staff in H.
  unfold update_afap_estado. rewrite H. done.
Qed.

Lemma update_afap_estado_found N afap_id estado obs u w d :
  User.role u ≠ ciudadano →
  find_one [("id", Eq (VStr afap_id))] None (afap (db w)) = Some d →
  ∃ l1 l2,
    afap (db w) = l1 ++ d :: l2 ∧
    Forall (λ x, matches [("id", Eq (VStr afap_id))] x = false) l1 ∧
    matches [("id", Eq (VStr afap_id))] d = true ∧
    update_afap_estado N afap_id estado obs u w
    = after_update N d estado obs
        (mkWorld (set_coll c_afap
                    (l1 ++ (update_data estado obs ∪ d) :: l2) (db w))
                 (log w) (dispatched w)).
Proof.
  intros Hrole Hfind.
  unfold find_one in Hfind. simpl in Hfind.
  destruct (head (find _ _)) as [d'|] eqn:Hhead; [|done].
  injection Hfind as ->.
  destruct (find_head_split _ _ _ Hhead) as (l1 & l2 & Hc & Hl1 & Hd).
  exists l1, l2. repeat split; try done.
  unfold update_afap_estado. rewrite (role_staff _ Hrole). simpl.
  erewrite bind_ok.
  2:{ unfold db_find_one, find_one. simpl. rewrite Hhead. reflexivity. }
  simpl. rewrite (matches_id_truthy _ _ Hd). simpl.
  erewrite bind_ok.
  2:{ unfold db_update_one. simpl. rewrite Hc.
      rewrite (update_one_split _ _ _ _ _ Hl1 Hd). reflexivity. }
  simpl. reflexivity.
Qed.

(** ** The notifications *)

Lemma try_logged_returns (body : M unit) (f : exn → Message) :
  returns_tt (try_except body (λ e, logger ERROR (f e))).
Proof.
  intros w. unfold try_except. destruct (body w) as [[[]|e] w']; done.
Qed.

Lemma returns_tt_bind (m : M unit) (k : unit → M unit) :
  returns_tt m → returns_tt (k tt) → returns_tt (bind m k).
Proof.
  intros Hm Hk w. unfold bind. specialize (Hm w).
  destruct (m w) as [[[]|e] w']; simpl in *; [apply Hk|done].
Qed.

Lemma returns_tt_ret : returns_tt (ret tt).
Proof. by intros w. Qed.

(** The two guarded calls of [notify_solicitante], once the owner's
    fields have been read. *)
Lemma notify_calls_return N d old estado obs nombre apellido email :
  returns_tt
    ((if bool_decide (estado = "aprobado")
         && bool_decide (old ≠ VStr "aprobado")
      then
        try_except
          (let* numero := lift (dict_item d "numero_afap") in
           call_notifier
             (CertificateEmail email [Fmt nombre; Lit " "; Fmt apellido]
                               numero d)
             (send_certificate_email N email
                [Fmt nombre; Lit " "; Fmt apellido] numero d) ;;;
           logger INFO (CertificateEmailSent numero))
          (λ e, logger ERROR (ErrorSendingCertificateEmail e))
      else ret tt) ;;;
     try_except
       (let* numero := lift (dict_item d "numero_afap") in
        call_notifier
          (StatusNotification email [Fmt nombre; Lit " "; Fmt apellido]
                              numero old estado obs)
          (send_status_notification N email
             [Fmt nombre; Lit " "; Fmt apellido] numero old estado obs))
       (λ e, logger ERROR (ErrorSendingStatusNotification e))).
Proof.
  apply returns_tt_bind.
  - destruct (_ && _); [apply try_logged_returns|apply returns_tt_ret].
  - apply try_logged_returns.
Qed.

Lemma lift_item_ok (d : doc) k v w :
  d !! k = Some v → lift (dict_item d k) w = (Ok v, w).
Proof. unfold lift, dict_item. by intros ->. Qed.

Lemma lift_item_raise (d : doc) k w :
  d !! k = None → lift (dict_item d k) w = (Raise (KeyError k), w).
Proof. unfold lift, dict_item. by intros ->. Qed.

(** Runs the next [d[k]] of a handler, given what [d] holds at [k]. *)
Ltac item_ok H :=
  erewrite (bind_ok (lift _))
    by (unfold lift, dict_item; rewrite ?H; reflexivity).
Ltac item_raise H :=
  erewrite (bind_raise (lift _))
    by (unfold lift, dict_item; rewrite ?H; reflexivity).

(** The outcome of the notification block is decided by the owner's
    record alone: not by the notifier, nor by the world it runs in. *)
Lemma notify_result N d old estado obs us w :
  (notify_solicitante N d old estado obs us w).1 = notify_outcome us.
Proof.
  unfold notify_solicitante, notify_outcome.
  destruct (negb (not_found us)); [|done].
  unfold dict_item.
  destruct (default ∅ us !! "nombre") as [nombre|] eqn:Hn.
  2:{ by item_raise Hn. }
  item_ok Hn.
  destruct (default ∅ us !! "apellido") as [apellido|] eqn:Ha.
  2:{ by item_raise Ha. }
  item_ok Ha.
  destruct (default ∅ us !! "email") as [email|] eqn:He.
  2:{ by item_raise He. }
  item_ok He.
  exact (notify_calls_return N d old estado obs nombre apellido email w).
Qed.

Lemma notify_returns N d old estado obs us :
  (∀ u, us = Some u → truthy_doc u = true → contactable u) →
  returns_tt (notify_solicitante N d old estado obs us).
Proof.
  intros Hus w. unfold notify_solicitante.
  destruct us as [u|]; simpl; [|done].
  destruct (truthy_doc u) eqn:Ht; simpl; [|done].
  destruct (Hus u eq_refl Ht) as ([nombre Hn] & [apellido Ha] & [email He]).
  item_ok Hn. item_ok Ha. item_ok He.
  apply notify_calls_return.
Qed.

Lemma keeps_after_update {X} (g : Db → X) N d estado obs :
  keeps g (after_update N d estado obs).
Proof.
  unfold after_update. keeps_tac. apply keeps_notify_solicitante.
Qed.

(** The response of [update_afap_estado] for permit [d]. *)
Lemma after_update_result N d estado obs w :
  (after_update N d estado obs w).1 =
  and_then (dict_item d "user_id") (λ _,
  and_then (notify_outcome (owner_record d w)) (λ _,
    Ok [ ("message", VStr "Estado actualizado correctamente");
         ("old_estado", dict_get d "estado");
         ("new_estado", VStr estado);
         ("email_sent", VBool (bool_decide (is_Some (owner_record d w)))) ])).
Proof.
  unfold after_update, owner_record, dict_item.
  destruct (d !! "user_id") as [owner|] eqn:Ho.
  2:{ by item_raise Ho. }
  item_ok Ho. simpl.
  erewrite bind_ok by reflexivity.
  unfold bind.
  pose proof (notify_result N d (dict_get d "estado") estado obs
    (find_one [("id", Eq owner)] (Some ["email"; "nombre"; "apellido"])
              (users (db w))) w) as Hr.
  destruct (notify_solicitante _ _ _ _ _ _ _) as [[[]|e] w'];
    simpl in Hr; rewrite <- Hr; done.
Qed.

Lemma contactable_project u :
  contactable u → contactable (project (Some ["email"; "nombre"; "apellido"]) u).
Proof.
  intros (Hn & Ha & He). unfold contactable.
  rewrite !project_lookup. repeat split; (rewrite bool_decide_true; [done|set_solver]).
Qed.

Lemma find_one_Forall (P : doc → Prop) q c d :
  Forall P c → find_one q None c = Some d → P d.
Proof.
  intros Hc. unfold find_one. simpl.
  destruct (head (find q c)) as [x|] eqn:Hh; [|done]. intros [= <-].
  apply head_Some_elem_of in Hh.
  unfold find in Hh. apply list_elem_of_In, filter_In in Hh as [Hh _].
  apply list_elem_of_In in Hh.
  by eapply Forall_forall in Hc.
Qed.

Lemma owner_record_contactable d w us :
  Forall contactable (users (db w)) → owner_record d w = Some us →
  contactable us.
Proof.
  intros Hu. unfold owner_record, find_one.
  destruct (d !! "user_id") as [owner|]; [|done].
  destruct (head (find _ _)) as [x|] eqn:Hh; [|done]. simpl. intros [= <-].
  apply contactable_project.
  apply (find_one_Forall contactable [("id", Eq owner)] (users (db w))); [done|].
  unfold find_one. by rewrite Hh.
Qed.

Lemma notify_outcome_ok us :
  (∀ u, us = Some u → contactable u) → notify_outcome us = Ok tt.
Proof.
  intros H. unfold notify_outcome.
  destruct us as [u|]; simpl; [|done].
  destruct (truthy_doc u); simpl; [|done].
  destruct (H u eq_refl) as ([? Hn] & [? Ha] & [? He]).
  unfold dict_item. by rewrite Hn, Ha, He.
Qed.

(** The whole of [update_afap_estado] for an inspector or administrador and a permit that
    exists: the permit is updated in place, and the response follows. *)
Lemma update_afap_estado_commits N afap_id estado obs u w d :
  User.role u ≠ ciudadano →
  find_one [("id", Eq (VStr afap_id))] None (afap (db w)) = Some d →
  let out := update_afap_estado N afap_id estado obs u w in
  (∃ l1 l2,
     afap (db w) = l1 ++ d :: l2 ∧
     afap (db out.2) = l1 ++ (update_data estado obs ∪ d) :: l2) ∧
  find_one [("id", Eq (VStr afap_id))] None (afap (db out.2))
  = Some (update_data estado obs ∪ d) ∧
  users (db out.2) = users (db w) ∧
  out.1 = (after_update N d estado obs w).1.
Proof.
  intros Hrole Hfind out. subst out.
  destruct (update_afap_estado_found N afap_id estado obs u w d Hrole Hfind)
    as (l1 & l2 & Hc & Hl1 & Hd & ->).
  set (w1 := mkWorld _ _ _).
  assert (db (after_update N d estado obs w1).2 = db w1) as Hdb.
  { apply (keeps_after_update (λ x, x)). }
  rewrite Hdb. simpl. repeat split.
  - eexists _, _. split; [exact Hc|reflexivity].
  - unfold find_one. simpl. rewrite find_head_app; [done..|].
    by rewrite matches_id_updated.
  - rewrite !after_update_result. unfold owner_record. subst w1. simpl.
    by destruct (db w).
Qed.

Lemma staff_not_ciudadano u :
  User.role u ∈ [inspector; administrador] → User.role u ≠ ciudadano.
Proof.
  intros H E. rewrite E in H.
  apply elem_of_cons in H as [H|H]; [done|].
  by apply list_elem_of_singleton in H.
Qed.

Lemma not_staff_ciudadano u :
  User.role u ∉ [inspector; administrador] → User.role u = ciudadano.
Proof.
  intros H. destruct (User.role u); [done|..]; exfalso; apply H.
  - left.
  - right. left.
Qed.

Lemma after_update_ok N d estado obs w :
  is_Some (d !! "user_id") → Forall contactable (users (db w)) →
  (after_update N d estado obs w).1 =
  Ok [ ("message", VStr "Estado actualizado correctamente");
       ("old_estado", dict_get d "estado");
       ("new_estado", VStr estado);
       ("email_sent", VBool (bool_decide (is_Some (owner_record d w)))) ].
Proof.
  intros [owner Ho] Hu. rewrite after_update_result.
  unfold dict_item. rewrite Ho. simpl.
  rewrite notify_outcome_ok; [done|].
  intros us Hus. by eapply owner_record_contactable.
Qed.

(** C4.  [update_afap_estado] raises 403 for every requester whose role is
    neither inspector nor administrador, whatever the permit id.  For an
    inspector or administrador and a permit that exists, the permit is
    stored with the requested [estado], whatever it held before; and the
    call returns its response whenever the permit carries its [user_id]
    and the user records carry the fields the notifications read. *)
Theorem update_afap_estado_access N afap_id estado obs u w :
  (User.role u ∉ [inspector; administrador] →
   update_afap_estado N afap_id estado obs u w
   = (Raise (HTTPException 403 "No autorizado"), w)) ∧
  (User.role u ∈ [inspector; administrador] →
   ∀ d, find_one [("id", Eq (VStr afap_id))] None (afap (db w)) = Some d →
     let out := update_afap_estado N afap_id estado obs u w in
     find_one [("id", Eq (VStr afap_id))] None (afap (db out.2))
     = Some (update_data estado obs ∪ d) ∧
     (update_data estado obs ∪ d) !! "estado" = Some (VStr estado) ∧
     (is_Some (d !! "user_id") → Forall contactable (users (db w)) →
      ∃ resp, out.1 = Ok resp)).
Proof.
  split.
  - intros H. by apply update_afap_estado_forbidden, not_staff_ciudadano.
  - intros H d Hd out.
    destruct (update_afap_estado_commits N afap_id estado obs u w d
                (staff_not_ciudadano _ H) Hd) as (_ & Hf & _ & Hr).
    fold out in Hf, Hr. repeat split; [done|apply updated_estado|].
    intros Ho Hu. rewrite Hr, after_update_ok by done. eauto.
Qed.

Lemma update_afap_estado_access_witness :
  update_afap_estado EmailService.notifier "afap-a" "rechazado" None
                     Sample.juan Sample.w1
  = (Raise (HTTPException 403 "No autorizado"), Sample.w1) ∧
  let out := update_afap_estado EmailService.notifier "afap-a" "rechazado"
                                None Sample.maria Sample.w1 in
  find_one [("id", Eq (VStr "afap-a"))] None (afap (db out.2))
  = Some (update_data "rechazado" None ∪ Sample.d1) ∧
  (update_data "rechazado" None ∪ Sample.d1) !! "estado"
  = Some (VStr "rechazado") ∧
  ∃ resp, out.1 = Ok resp.
Proof.
  split.
  - apply (update_afap_estado_access EmailService.notifier "afap-a"
             "rechazado" None Sample.juan Sample.w1).
    compute_done.
  - destruct (update_afap_estado_access EmailService.notifier "afap-a"
                "rechazado" None Sample.maria Sample.w1) as [_ H].
    assert (User.role Sample.maria ∈ [inspector; administrador]) as Hr
      by compute_done.
    assert (find_one [("id", Eq (VStr "afap-a"))] None
                     (afap (db Sample.w1)) = Some Sample.d1) as Hd
      by compute_done.
    destruct (H Hr Sample.d1 Hd) as (H1 & H2 & H3).
    split; [exact H1|]. split; [exact H2|].
    apply H3; compute_done.
Defined.

(** C10.  [update_afap_estado] does not validate the new state: whatever
    string [estado] is, in the lifecycle set of [AFAP.estado] or not, a
    call by an inspector or administrador on a permit that exists returns
    its response with that string as [new_estado], and the permit is
    stored with exactly that string as its [estado]. *)
Theorem update_afap_estado_any_string N afap_id (estado : string) obs u w d :
  User.role u ∈ [inspector; administrador] →
  find_one [("id", Eq (VStr afap_id))] None (afap (db w)) = Some d →
  is_Some (d !! "user_id") →
  Forall contactable (users (db w)) →
  ∃ email_sent w' d',
    update_afap_estado N afap_id estado obs u w
    = (Ok [ ("message", VStr "Estado actualizado correctamente");
            ("old_estado", dict_get d "estado");
            ("new_estado", VStr estado);
            ("email_sent", VBool email_sent) ], w') ∧
    find_one [("id", Eq (VStr afap_id))] None (afap (db w')) = Some d' ∧
    d' !! "estado" = Some (VStr estado) ∧
    ∀ k, k ≠ "estado" → k ≠ "observaciones" → d' !! k = d !! k.
Proof.
  intros Hrole Hd Ho Hu.
  destruct (update_afap_estado_commits N afap_id estado obs u w d
              (staff_not_ciudadano _ Hrole) Hd) as (_ & Hf & _ & Hr).
  rewrite after_update_ok in Hr by done.
  destruct (update_afap_estado N afap_id estado obs u w) as [r w'] eqn:E.
  simpl in *. subst r.
  exists (bool_decide (is_Some (owner_record d w))), w',
    (update_data estado obs ∪ d).
  repeat split; [exact Hf|apply updated_estado|].
  intros k ? ?. by apply updated_other.
Qed.

Lemma update_afap_estado_any_string_witness :
  (∀ e : Estado, estado_str e ≠ "archivado") ∧
  ∃ email_sent w' d',
    update_afap_estado EmailService.notifier "afap-a" "archivado" None
                       Sample.carlos Sample.w1
    = (Ok [ ("message", VStr "Estado actualizado correctamente");
            ("old_estado", dict_get Sample.d1 "estado");
            ("new_estado", VStr "archivado");
            ("email_sent", VBool email_sent) ], w') ∧
    find_one [("id", Eq (VStr "afap-a"))] None (afap (db w')) = Some d' ∧
    d' !! "estado" = Some (VStr "archivado") ∧
    ∀ k, k ≠ "estado" → k ≠ "observaciones" → d' !! k = Sample.d1 !! k.
Proof.
  split; [by intros []|].
  apply (update_afap_estado_any_string EmailService.notifier "afap-a"
           "archivado" None Sample.carlos Sample.w1 Sample.d1);
    compute_done.
Defined.

(** ** What the notification block hands out and logs *)

Lemma notify_world N d old estado obs u w nombre apellido email numero :
  truthy_doc u = true →
  u !! "nombre" = Some nombre →
  u !! "apellido" = Some apellido →
  u !! "email" = Some email →
  d !! "numero_afap" = Some numero →
  let name := [Fmt nombre; Lit " "; Fmt apellido] in
  let cert := send_certificate_email N email name numero d in
  let stat := send_status_notification N email name numero old estado obs in
  let w' := (notify_solicitante N d old estado obs (Some u) w).2 in
  dispatched w' =
    dispatched w
    ++ (if approving old estado
        then [CertificateEmail email name numero d] else [])
    ++ [StatusNotification email name numero old estado obs] ∧
  log w' =
    log w
    ++ (if approving old estado
        then cert.1 ++ certificate_log_line numero cert.2 else [])
    ++ stat.1 ++ status_log_line stat.2.
Proof.
  intros Ht Hn Ha He Hnum name cert stat.
  unfold notify_solicitante. simpl. rewrite Ht. simpl.
  item_ok Hn. item_ok Ha. item_ok He.
  fold name. fold (approving old estado).
  unfold bind, try_except, lift, dict_item, call_notifier, logger, ret.
  rewrite Hnum. fold cert stat.
  destruct (approving old estado), cert as [lc [[]|ec]], stat as [ls [[]|es]];
    simpl; rewrite ?app_nil_r, <- ?app_assoc; done.
Qed.

Lemma owner_record_user_id d w us :
  owner_record d w = Some us → is_Some (d !! "user_id").
Proof. unfold owner_record. destruct (d !! "user_id"); [eauto|done]. Qed.

Lemma update_afap_estado_run N afap_id estado obs u w d :
  User.role u ≠ ciudadano →
  find_one [("id", Eq (VStr afap_id))] None (afap (db w)) = Some d →
  update_afap_estado N afap_id estado obs u w
  = after_update N d estado obs (updated_world afap_id estado obs w).
Proof.
  intros Hrole Hfind.
  destruct (update_afap_estado_found N afap_id estado obs u w d Hrole Hfind)
    as (l1 & l2 & Hc & Hl1 & Hd & ->).
  unfold updated_world. rewrite Hc.
  by rewrite (update_one_split _ _ _ _ _ Hl1 Hd).
Qed.

Lemma owner_record_updated d afap_id estado obs w :
  owner_record d (updated_world afap_id estado obs w) = owner_record d w.
Proof. unfold owner_record, updated_world. simpl. by destruct (db w). Qed.

Lemma after_update_world N d estado obs w us :
  owner_record d w = Some us →
  (after_update N d estado obs w).2
  = (notify_solicitante N d (dict_get d "estado") estado obs (Some us) w).2.
Proof.
  intros Hus. unfold after_update.
  unfold owner_record in Hus.
  destruct (d !! "user_id") as [owner|] eqn:Ho; [|done].
  item_ok Ho.
  erewrite bind_ok by (unfold db_find_one; cbn [coll]; rewrite Hus; reflexivity).
  unfold bind, ret. by destruct (notify_solicitante _ _ _ _ _ _ _) as [[[]|] ?].
Qed.

(** C6.  For a call by an inspector or administrador on a permit that
    carries its [numero_afap] and whose owner's record is on file with its
    name and address, as they are in every store the handlers build
    ([owners_on_file]): the call returns its response; it hands out
    exactly one status-changed notification to the owner's address,
    preceded by exactly one certificate notification when the new state is
    "aprobado" and the old one is not; it logs an error line for each of
    the two that raises; and neither the response nor the database depends
    on what the notifier does. *)
Theorem update_afap_estado_notifies N afap_id estado obs u w d us
    nombre apellido email numero :
  User.role u ∈ [inspector; administrador] →
  find_one [("id", Eq (VStr afap_id))] None (afap (db w)) = Some d →
  d !! "numero_afap" = Some numero →
  owner_record d w = Some us →
  truthy_doc us = true →
  us !! "nombre" = Some nombre →
  us !! "apellido" = Some apellido →
  us !! "email" = Some email →
  let old := dict_get d "estado" in
  let name := [Fmt nombre; Lit " "; Fmt apellido] in
  let sent :=
    (if approving old estado
     then [CertificateEmail email name numero d] else [])
    ++ [StatusNotification email name numero old estado obs] in
  let cert := send_certificate_email N email name numero d in
  let stat := send_status_notification N email name numero old estado obs in
  let out := update_afap_estado N afap_id estado obs u w in
  out.1 = Ok [ ("message", VStr "Estado actualizado correctamente");
               ("old_estado", old);
               ("new_estado", VStr estado);
               ("email_sent", VBool true) ] ∧
  dispatched out.2 = dispatched w ++ sent ∧
  length (List.filter is_status_notification sent) = 1%nat ∧
  length (List.filter is_certificate_email sent)
  = (if approving old estado then 1%nat else 0%nat) ∧
  log out.2 =
    log w
    ++ (if approving old estado
        then cert.1 ++ certificate_log_line numero cert.2 else [])
    ++ stat.1 ++ status_log_line stat.2 ∧
  ∀ N', let out' := update_afap_estado N' afap_id estado obs u w in
        out'.1 = out.1 ∧ db out'.2 = db out.2.
Proof.
  intros Hrole Hd Hnum Hus Ht Hn Ha He old name sent cert stat out.
  pose proof (staff_not_ciudadano _ Hrole) as Hr.
  assert (∀ M, update_afap_estado M afap_id estado obs u w
               = after_update M d estado obs
                   (updated_world afap_id estado obs w)) as Hrun.
  { intros M. by apply update_afap_estado_run. }
  assert (owner_record d (updated_world afap_id estado obs w) = Some us)
    as Hus' by by rewrite owner_record_updated.
  subst out. rewrite Hrun.
  destruct (notify_world N d old estado obs us
              (updated_world afap_id estado obs w)
              nombre apellido email numero Ht Hn Ha He Hnum) as [Hsent Hlog].
  rewrite (after_update_world _ _ _ _ _ _ Hus').
  repeat split.
  - rewrite after_update_result, Hus'.
    destruct (owner_record_user_id _ _ _ Hus) as [owner Ho].
    unfold dict_item at 1. unfold notify_outcome. rewrite Ho. simpl.
    rewrite Ht. simpl. unfold dict_item. by rewrite Hn, Ha, He.
  - exact Hsent.
  - subst sent. by destruct (approving old estado).
  - subst sent. by destruct (approving old estado).
  - exact Hlog.
  - simpl. by rewrite Hrun, !after_update_result.
  - simpl. rewrite Hrun.
    rewrite <- (after_update_world _ _ _ _ _ _ Hus').
    by rewrite !(keeps_after_update (λ x, x)).
Qed.

Lemma update_afap_estado_notifies_witness :
  let old := dict_get Sample.d1 "estado" in
  let name := [Fmt (VStr "Ana"); Lit " "; Fmt (VStr "Martinez")] in
  let sent :=
    (if approving old "aprobado"
     then [CertificateEmail (VStr "comerciante@email.com") name (VInt 1001)
                            Sample.d1]
     else [])
    ++ [StatusNotification (VStr "comerciante@email.com") name (VInt 1001)
                           old "aprobado" None] in
  let out := update_afap_estado failing_notifier "afap-a" "aprobado" None
                                Sample.maria Sample.w1 in
  approving old "aprobado" = true ∧
  out.1 = Ok [ ("message", VStr "Estado actualizado correctamente");
               ("old_estado", old);
               ("new_estado", VStr "aprobado");
               ("email_sent", VBool true) ] ∧
  dispatched out.2 = dispatched Sample.w1 ++ sent ∧
  (update_afap_estado EmailService.notifier "afap-a" "aprobado" None
                      Sample.maria Sample.w1).1 = out.1.
Proof.
  intros old name sent out.
  split; [compute_done|].
  destruct (update_afap_estado_notifies failing_notifier "afap-a"
    "aprobado" None Sample.maria Sample.w1 Sample.d1 Sample.ana_contact
    (VStr "Ana") (VStr "Martinez") (VStr "comerciante@email.com")
    (VInt 1001)) as (H1 & H2 & _ & _ & _ & H4); [compute_done..|].
  split; [exact H1|]. split; [exact H2|].
  exact (proj1 (H4 EmailService.notifier)).
Defined.

(** ** Numbering *)

Lemma create_afap_spec p u now utcnow uuid w :
  numbered (afap (db w)) →
  ∃ n,
    create_afap p u now utcnow uuid w
    = (Ok (new_afap p u now utcnow uuid n),
       mkWorld (set_coll c_afap
                  (afap (db w) ++
                     [stored_afap (new_afap p u now utcnow uuid n)
                                  (now + timedelta_days 30)])
                  (db w))
               (log w) (dispatched w)) ∧
    (afap (db w) = [] → n = 1001) ∧
    (∀ m, prior_max (afap (db w)) m → n = m + 1) ∧
    (∀ k, k ∈ numeros (afap (db w)) → k < n).
Proof.
  intros Hnum. unfold create_afap.
  destruct (afap (db w)) as [|d0 c0] eqn:Hc.
  - exists 1001. erewrite bind_ok by (by apply next_number_empty).
    rewrite create_afap_store_spec, Hc. split; [done|]. split; [done|]. split.
    + intros m [Hm _]. by apply elem_of_nil in Hm.
    + intros k Hk. by apply elem_of_nil in Hk.
  - destruct (numbered_prior_max (d0 :: c0) Hnum) as [m Hm]; [done|].
    exists (m + 1).
    erewrite bind_ok by (apply next_number_max; rewrite Hc; exact Hm).
    rewrite create_afap_store_spec, Hc. split; [done|]. split; [done|]. split.
    + intros m' Hm'. destruct Hm as [Hin Hmax], Hm' as [Hin' Hmax'].
      specialize (Hmax _ Hin'). specialize (Hmax' _ Hin). lia.
    + intros k Hk. destruct Hm as [_ Hmax]. specialize (Hmax _ Hk). lia.
Qed.

(** C7.  On a registry whose permits are numbered, [create_afap] returns a
    permit whose [estado] is "pendiente", whose [user_id] is the id of the
    creating user, whose [fecha_vencimiento] is the clock reading of the
    call plus 30 days, and whose [numero_afap] is the greatest number of
    the registry plus one (1001 on an empty registry); the permit is
    stored with these values, after the permits already there. *)
Theorem create_afap_returns p u now utcnow uuid w :
  numbered (afap (db w)) →
  ∃ a w',
    create_afap p u now utcnow uuid w = (Ok a, w') ∧
    AFAP.estado a = pendiente ∧
    AFAP.user_id a = User.id u ∧
    AFAP.fecha_vencimiento a = Some (now + timedelta_days 30) ∧
    timedelta_days 30 = 30 * 24 * 60 * 60 * 1000000 ∧
    (∀ m, prior_max (afap (db w)) m → AFAP.numero_afap a = m + 1) ∧
    (afap (db w) = [] → AFAP.numero_afap a = 1001) ∧
    ∃ d,
      afap (db w') = afap (db w) ++ [d] ∧
      d !! "estado" = Some (VStr "pendiente") ∧
      d !! "numero_afap" = Some (VInt (AFAP.numero_afap a)) ∧
      d !! "user_id" = Some (VStr (User.id u)) ∧
      d !! "fecha_vencimiento" = Some (VIso (now + timedelta_days 30)).
Proof.
  intros Hnum.
  destruct (create_afap_spec p u now utcnow uuid w Hnum)
    as (n & Hrun & Hempty & Hmax & _).
  eexists _, _. split; [exact Hrun|].
  do 4 (split; [done|]). split; [exact Hmax|]. split; [exact Hempty|].
  eexists. split; [reflexivity|].
  unfold stored_afap. split; [|split; [|split]].
  - rewrite !lookup_insert_ne by done. by rewrite dump_estado.
  - rewrite !lookup_insert_ne by done. by rewrite dump_numero_afap.
  - rewrite !lookup_insert_ne by done. by rewrite dump_user_id.
  - by rewrite lookup_insert_eq.
Qed.

Lemma create_afap_returns_witness :
  prior_max (afap (db Sample.w1)) 1001 ∧
  ∃ a w',
    create_afap Sample.payload Sample.juan 5000 5001 "afap-c" Sample.w1
    = (Ok a, w') ∧
    AFAP.estado a = pendiente ∧
    AFAP.user_id a = "user-1" ∧
    AFAP.fecha_vencimiento a = Some (5000 + timedelta_days 30) ∧
    AFAP.numero_afap a = 1002.
Proof.
  assert (prior_max (afap (db Sample.w1)) 1001) as Hmax.
  { assert (numeros (afap (db Sample.w1)) = [1001]) as E by compute_done.
    unfold prior_max. rewrite E. split; [by left|].
    intros n Hn. apply list_elem_of_singleton in Hn. lia. }
  split; [exact Hmax|].
  destruct (create_afap_returns Sample.payload Sample.juan 5000 5001
              "afap-c" Sample.w1)
    as (a & w' & Hrun & He & Hu & Hv & _ & Hn & _).
  { unfold numbered. apply (bool_decide_unpack _). vm_compute. exact I. }
  exists a, w'.
  split; [exact Hrun|]. split; [exact He|]. split; [exact Hu|].
  split; [exact Hv|]. exact (Hn 1001 Hmax).
Defined.

Lemma numbered_app c c' : numbered (c ++ c') ↔ numbered c ∧ numbered c'.
Proof. unfold numbered. apply Forall_app. Qed.

Lemma registry_ok_snoc c d n :
  registry_ok c → numero_of d = Some n →
  (∀ k, k ∈ numeros c → k < n) → registry_ok (c ++ [d]).
Proof.
  intros [Hnum Hsort] Hd Hlt. split.
  - apply numbered_app. split; [done|]. constructor; [eauto|constructor].
  - rewrite numeros_app, (numeros_cons d []), Hd.
    apply StronglySorted_app_2; [|done|repeat constructor].
    intros x1 x2 H1 H2. apply list_elem_of_singleton in H2 as ->. auto.
Qed.

Lemma numero_of_update_one q e o c :
  numero_of <$> (update_one q (update_data e o) c).1 = numero_of <$> c.
Proof.
  induction c as [|d c IH]; simpl; [done|].
  destruct (matches q d).
  - simpl. by rewrite numero_of_updated.
  - destruct (update_one q (update_data e o) c) as [c' n]. simpl in *.
    by f_equal.
Qed.

Lemma numeros_fmap c : numeros c = omap id (numero_of <$> c).
Proof.
  induction c as [|d c IH]; [done|].
  rewrite numeros_cons, IH. simpl. by destruct (numero_of d).
Qed.

Lemma numbered_fmap c : numbered c ↔ Forall is_Some (numero_of <$> c).
Proof. unfold numbered. by rewrite Forall_fmap. Qed.

Lemma registry_ok_ext c c' :
  numero_of <$> c' = numero_of <$> c → registry_ok c → registry_ok c'.
Proof.
  intros E [Hn Hs]. split.
  - apply (proj2 (numbered_fmap c')). rewrite E.
    by apply (proj1 (numbered_fmap c)).
  - rewrite numeros_fmap, E, <- numeros_fmap. done.
Qed.

(** What [update_afap_estado] leaves of the registry: the same permits
    under the same numbers, in the same order. *)
Lemma update_afap_estado_numbers N afap_id estado obs u w :
  numero_of <$> afap (db (update_afap_estado N afap_id estado obs u w).2)
  = numero_of <$> afap (db w).
Proof.
  destruct (decide (User.role u = ciudadano)) as [Hc|Hc].
  { by rewrite update_afap_estado_forbidden. }
  destruct (find_one [("id", Eq (VStr afap_id))] None (afap (db w)))
    as [d|] eqn:Hd.
  - rewrite (update_afap_estado_run N _ _ _ _ _ d Hc Hd).
    rewrite (keeps_after_update afap). unfold updated_world. simpl.
    apply numero_of_update_one.
  - unfold update_afap_estado. rewrite (role_staff _ Hc). simpl.
    erewrite bind_ok by (unfold db_find_one; cbn [coll]; rewrite Hd;
                         reflexivity).
    done.
Qed.

Lemma serve_registry N R r w :
  registry_ok (afap (db w)) →
  let c := afap (db w) in
  let c' := afap (db (serve N R r w)) in
  registry_ok c' ∧
  ∃ added,
    numeros c' = numeros c ++ added ∧
    length added = (if is_create r then 1%nat else 0%nat) ∧
    ∀ n k, n ∈ added → k ∈ numeros c → k < n.
Proof.
  intros Hok c c'. subst c c'. destruct r; simpl.
  - destruct (create_afap_spec afap_data current_user now utcnow uuid w)
      as (n & -> & _ & _ & Hlt); [apply Hok|].
    simpl. split.
    + eapply registry_ok_snoc; [done|apply numero_of_stored|done].
    + exists [n]. rewrite numeros_app, (numeros_cons _ []), numero_of_stored.
      split; [done|]. split; [done|].
      intros k' k Hk'. apply list_elem_of_singleton in Hk' as ->. auto.
  - pose proof (update_afap_estado_numbers N afap_id estado observaciones
                  current_user w) as E.
    split; [by eapply registry_ok_ext|].
    exists []. rewrite app_nil_r, !numeros_fmap, E.
    split; [done|]. split; [done|].
    intros n k Hn. by apply elem_of_nil in Hn.
  - pose proof (keeps_download_certificado R afap_id current_user utcnow
                  uuid w) as E.
    rewrite !E. split; [done|].
    exists []. rewrite app_nil_r. split; [done|]. split; [done|].
    intros n k Hn. by apply elem_of_nil in Hn.
Qed.

Lemma serve_all_registry N R rs w :
  registry_ok (afap (db w)) →
  registry_ok (afap (db (serve_all N R rs w))) ∧
  ∃ added,
    numeros (afap (db (serve_all N R rs w)))
    = numeros (afap (db w)) ++ added ∧
    length added = length (List.filter is_create rs) ∧
    ∀ n k, n ∈ added → k ∈ numeros (afap (db w)) → k < n.
Proof.
  revert w. induction rs as [|r rs IH]; intros w Hok; simpl.
  - split; [done|]. exists []. rewrite app_nil_r.
    split; [done|]. split; [done|].
    intros n k Hn. by apply elem_of_nil in Hn.
  - destruct (serve_registry N R r w Hok) as (Hok1 & a1 & E1 & L1 & G1).
    destruct (IH _ Hok1) as (Hok2 & a2 & E2 & L2 & G2).
    split; [done|]. exists (a1 ++ a2).
    rewrite E2, E1, <- app_assoc. split; [done|]. split.
    + rewrite length_app, L1, L2. by destruct (is_create r).
    + intros n k Hn Hk. apply elem_of_app in Hn as [Hn|Hn]; [by apply G1|].
      apply G2; [done|]. rewrite E1. apply elem_of_app. by left.
Qed.

(** C1, as amended.  When the requests are served one after another, none
    starting before the one before it has ended, the registry keeps its
    invariant: every permit is numbered and the numbers grow strictly
    along the order of creation.  Hence no two permits carry the same
    number, the numbers already assigned stay as they are, each create
    adds exactly one number, and each number added exceeds every number
    assigned before it.  And every create among the requests files its
    permit, after those on file when it is served, under the greatest
    number then on file plus one, or under 1001 when none is on file. *)
Theorem numero_afap_sequential N R rs w :
  registry_ok (afap (db w)) →
  let c := afap (db w) in
  let c' := afap (db (serve_all N R rs w)) in
  registry_ok c' ∧
  NoDup (numeros c') ∧
  (∃ added,
    numeros c' = numeros c ++ added ∧
    length added = length (List.filter is_create rs) ∧
    StronglySorted Z.lt added ∧
    ∀ n k, n ∈ added → k ∈ numeros c → k < n) ∧
  ∀ rs1 p u now utcnow uuid rs2,
    rs = rs1 ++ ReqCreate p u now utcnow uuid :: rs2 →
    let c1 := afap (db (serve_all N R rs1 w)) in
    ∃ n,
      afap (db (serve_all N R (rs1 ++ [ReqCreate p u now utcnow uuid]) w))
      = c1 ++ [stored_afap (new_afap p u now utcnow uuid n)
                           (now + timedelta_days 30)] ∧
      numero_of (stored_afap (new_afap p u now utcnow uuid n)
                             (now + timedelta_days 30)) = Some n ∧
      (c1 = [] → n = 1001) ∧
      (∀ m, prior_max c1 m → n = m + 1) ∧
      (c1 ≠ [] → ∃ m, prior_max c1 m).
Proof.
  intros Hok c c'. subst c c'.
  destruct (serve_all_registry N R rs w Hok) as (Hok' & added & E & L & G).
  split; [done|]. split; [|split].
  - destruct Hok' as [_ Hs]. clear -Hs.
    induction Hs as [|x l _ IH Hx]; constructor; [|done].
    intros Hin. eapply Forall_forall in Hx; [|done]. lia.
  - exists added. split; [done|]. split; [done|]. split; [|done].
    destruct Hok' as [_ Hs]. rewrite E in Hs.
    by apply StronglySorted_app_1_r in Hs.
  - intros rs1 p u now utcnow uuid rs2 _ c1.
    destruct (serve_all_registry N R rs1 w Hok) as ([Hnum _] & _).
    fold c1 in Hnum.
    destruct (create_afap_spec p u now utcnow uuid (serve_all N R rs1 w) Hnum)
      as (n & Hrun & Hempty & Hmax & _).
    exists n. split; [|split; [|split; [|split]]].
    + unfold serve_all at 1. rewrite foldl_app. cbn [foldl serve].
      fold (serve_all N R rs1 w). by rewrite Hrun.
    + apply numero_of_stored.
    + exact Hempty.
    + exact Hmax.
    + intros Hne. by apply numbered_prior_max.
Qed.

Lemma numero_afap_sequential_witness :
  let c' := afap (db (serve_all EmailService.notifier Sample.renderer
                                Sample.requests Sample.w0)) in
  registry_ok c' ∧ NoDup (numeros c') ∧ numeros c' = [1001; 1002] ∧
  ∃ n,
    afap (db (serve_all EmailService.notifier Sample.renderer
                ([] ++ [ReqCreate Sample.payload Sample.ana 1000 1001
                                  "afap-a"])
                Sample.w0))
    = [] ++ [stored_afap (new_afap Sample.payload Sample.ana 1000 1001
                                   "afap-a" n)
                         (1000 + timedelta_days 30)] ∧
    n = 1001.
Proof.
  destruct (numero_afap_sequential EmailService.notifier Sample.renderer
              Sample.requests Sample.w0) as (H1 & H2 & _ & H4).
  - split; constructor.
  - split; [exact H1|]. split; [exact H2|]. split; [compute_done|].
    destruct (H4 [] Sample.payload Sample.ana 1000 1001 "afap-a"
                 [ ReqUpdateEstado "afap-a" "aprobado" None Sample.maria;
                   ReqCreate Sample.payload Sample.juan 2000 2001 "afap-b" ]
                 eq_refl) as (n & Hrun & _ & Hempty & _).
    exists n. split; [exact Hrun|]. by apply Hempty.
Defined.

(** A schedule that runs a create from start to end without letting
    anything in between is the handler [create_afap]. *)
Lemma run_schedule_sequential calls r c w :
  calls !! r = Some c →
  run_schedule calls [Reads r; Inserts r] w
  = (create_afap (call_data c) (call_user c) (call_now c) (call_utcnow c)
                 (call_uuid c) w).2.
Proof.
  intros Hc. unfold run_schedule, create_afap, bind. cbn [foldl]. unfold step.
  destruct (create_afap_next_number w) as [[n|e] w'].
  - by rewrite Hc, lookup_insert_eq.
  - by rewrite Hc, lookup_empty.
Qed.

(** C1, as stated, fails: two creates whose reads of the greatest number
    both come before either insert are given the same number. *)
Lemma numero_afap_interleaved_duplicate :
  let w := run_schedule Sample.calls
             [Reads 0%nat; Reads 1%nat; Inserts 0%nat; Inserts 1%nat]
             Sample.w0 in
  numeros (afap (db w)) = [1001; 1001] ∧
  ¬ NoDup (numeros (afap (db w))) ∧
  ¬ StronglySorted Z.lt (numeros (afap (db w))).
Proof.
  assert (numeros (afap (db (run_schedule Sample.calls
            [Reads 0%nat; Reads 1%nat; Inserts 0%nat; Inserts 1%nat]
            Sample.w0))) = [1001; 1001]) as E by compute_done.
  simpl. rewrite E. split; [done|]. split.
  - intros H. apply NoDup_cons in H as [H _]. apply H. by left.
  - intros H. apply StronglySorted_cons in H as [H _].
    apply Forall_cons in H as [H _]. lia.
Qed.

(** ** [download_certificado] *)

Lemma lookup_truthy (d : doc) k v : d !! k = Some v → truthy_doc d = true.
Proof.
  intros H. unfold truthy_doc. rewrite bool_decide_eq_false_2; [done|].
  intros ->. by rewrite lookup_empty in H.
Qed.

(** C3.  For a permit that exists and whose [estado] is anything but
    "aprobado", [download_certificado] raises 400 for every requester,
    whatever the role, and leaves the world as it was: no certificate is
    rendered and no download is logged. *)
Theorem download_certificado_invalid_state R afap_id u utcnow uuid w d
    estado :
  find_one [("id", Eq (VStr afap_id))] None (afap (db w)) = Some d →
  d !! "estado" = Some estado →
  estado ≠ VStr "aprobado" →
  download_certificado R afap_id u utcnow uuid w
  = (Raise (HTTPException 400
              "El AFAP debe estar aprobado para generar el certificado"), w).
Proof.
  intros Hd He Hne. unfold download_certificado.
  erewrite bind_ok
    by (unfold db_find_one; cbn [coll]; rewrite Hd; reflexivity).
  cbv beta iota. rewrite (lookup_truthy _ _ _ He). cbn [negb].
  item_ok He. by rewrite bool_decide_eq_true_2.
Qed.

Lemma download_certificado_invalid_state_witness :
  (∀ u,
     download_certificado Sample.renderer "afap-a" u 3000 "log-1" Sample.w1
     = (Raise (HTTPException 400
                 "El AFAP debe estar aprobado para generar el certificado"),
        Sample.w1)) ∧
  (download_certificado Sample.renderer "afap-a" Sample.ana 3000 "log-1"
                        Sample.w2).1
  = Ok (mkCertificateResponse [Byte.x25; Byte.x50] "application/pdf"
          [ Lit "attachment; filename=HabilitacionPrecaria_";
            Fmt (VInt 1001); Lit "_Argentina.pdf" ]).
Proof.
  split.
  - intros u.
    apply (download_certificado_invalid_state Sample.renderer "afap-a" u
             3000 "log-1" Sample.w1 Sample.d1 (VStr "pendiente"));
      compute_done.
  - vm_compute. reflexivity.
Defined.

(** C8, as amended.  For a permit that exists and whose [estado] is
    "aprobado", [download_certificado] raises 403 when the requester is a
    ciudadano whose id is not the permit's [user_id]: the rule of
    [get_afap], applied after the check of the state. *)
Theorem download_certificado_forbidden R afap_id u utcnow uuid w d owner :
  find_one [("id", Eq (VStr afap_id))] None (afap (db w)) = Some d →
  d !! "estado" = Some (VStr "aprobado") →
  User.role u = ciudadano →
  d !! "user_id" = Some owner →
  owner ≠ VStr (User.id u) →
  download_certificado R afap_id u utcnow uuid w
  = (Raise (HTTPException 403 "No autorizado"), w).
Proof.
  intros Hd He Hrole Ho Hne. unfold download_certificado.
  erewrite bind_ok
    by (unfold db_find_one; cbn [coll]; rewrite Hd; reflexivity).
  cbv beta iota. rewrite (lookup_truthy _ _ _ He). cbn [negb].
  item_ok He. rewrite bool_decide_eq_false_2 by (by intros []).
  rewrite Hrole, bool_decide_eq_true_2 by done.
  erewrite bind_ok.
  2:{ item_ok Ho. reflexivity. }
  by rewrite bool_decide_eq_true_2.
Qed.

Lemma download_certificado_forbidden_witness :
  download_certificado Sample.renderer "afap-a" Sample.juan 3000 "log-1"
                       Sample.w2
  = (Raise (HTTPException 403 "No autorizado"), Sample.w2).
Proof.
  apply (download_certificado_forbidden Sample.renderer "afap-a" Sample.juan
           3000 "log-1" Sample.w2 (update_data "aprobado" None ∪ Sample.d1)
           (VStr "user-4"));
    compute_done.
Defined.

(** C8, as stated, fails: on a permit that is not approved, a ciudadano
    who does not own it gets 400, not 403. *)
Lemma download_certificado_state_first :
  find_one [("id", Eq (VStr "afap-a"))] None (afap (db Sample.w1))
  = Some Sample.d1 ∧
  User.role Sample.juan = ciudadano ∧
  Sample.d1 !! "user_id" = Some (VStr "user-4") ∧
  User.id Sample.juan ≠ "user-4" ∧
  (download_certificado Sample.renderer "afap-a" Sample.juan 3000 "log-1"
                        Sample.w1).1
  = Raise (HTTPException 400
             "El AFAP debe estar aprobado para generar el certificado") ∧
  (download_certificado Sample.renderer "afap-a" Sample.juan 3000 "log-1"
                        Sample.w1).1
  ≠ Raise (HTTPException 403 "No autorizado").
Proof.
  assert ((download_certificado Sample.renderer "afap-a" Sample.juan 3000
             "log-1" Sample.w1).1
          = Raise (HTTPException 400
              "El AFAP debe estar aprobado para generar el certificado"))
    as E by (vm_compute; reflexivity).
  rewrite E. repeat split; try compute_done. discriminate.
Qed.

(** ** [verificar_certificado_publico] *)

Lemma bind_Ok_inv {A B} (m : M A) (k : A → M B) w b w' :
  bind m k w = (Ok b, w') → ∃ a w1, m w = (Ok a, w1) ∧ k a w1 = (Ok b, w').
Proof.
  unfold bind. destruct (m w) as [[a|e] w1]; [eauto|done].
Qed.

Lemma lift_Ok_inv {A} (r : result A) w a w' :
  lift r w = (Ok a, w') → r = Ok a ∧ w' = w.
Proof. unfold lift. by intros [= -> ->]. Qed.

(** Opens the next [let*] of a handler that is known to return. *)
Ltac open_bind H :=
  let a := fresh "v" in
  let w1 := fresh "w" in
  let H1 := fresh "Hv" in
  apply bind_Ok_inv in H as (a & w1 & H1 & H);
  first [ apply lift_Ok_inv in H1 as [H1 ->] | idtac ].

Lemma verificar_body_keys (resp : json) afap w w' :
  (let* afap := lift (afap_dates afap) in
   let* id := lift (dict_item afap "id") in
   let* numero_afap := lift (dict_item afap "numero_afap") in
   let* estado := lift (dict_item afap "estado") in
   let* titular_nombre := lift (dict_item afap "titular_nombre") in
   let* titular_cuit := lift (dict_item afap "titular_cuit") in
   let* domicilio_calle := lift (dict_item afap "domicilio_calle") in
   let* domicilio_altura := lift (dict_item afap "domicilio_altura") in
   let domicilio_local := dict_get afap "domicilio_local" in
   let* domicilio_localidad :=
     lift (dict_item afap "domicilio_localidad") in
   let* rubro_tipo := lift (dict_item afap "rubro_tipo") in
   let* rubro_descripcion := lift (dict_item afap "rubro_descripcion") in
   let* metros_cuadrados := lift (dict_item afap "metros_cuadrados") in
   let* fecha_solicitud := lift (isoformat_item afap "fecha_solicitud") in
   let* fecha_vencimiento :=
     if truthy (dict_get afap "fecha_vencimiento")
     then lift (isoformat_item afap "fecha_vencimiento")
     else ret VNone in
   let observaciones := dict_get afap "observaciones" in
   ret [ ("id", id);
         ("numero_afap", numero_afap);
         ("estado", estado);
         ("titular_nombre", titular_nombre);
         ("titular_cuit", titular_cuit);
         ("domicilio_calle", domicilio_calle);
         ("domicilio_altura", domicilio_altura);
         ("domicilio_local", domicilio_local);
         ("domicilio_localidad", domicilio_localidad);
         ("rubro_tipo", rubro_tipo);
         ("rubro_descripcion", rubro_descripcion);
         ("metros_cuadrados", metros_cuadrados);
         ("fecha_solicitud", fecha_solicitud);
         ("fecha_vencimiento", fecha_vencimiento);
         ("observaciones", observaciones) ]) w = (Ok resp, w') →
  resp.*1 = public_fields ∧ w' = w.
Proof.
  intros H.
  do 13 open_bind H.
  apply bind_Ok_inv in H as (fv & w1 & Hfv & H).
  assert (w1 = w) as ->.
  { destruct (truthy _).
    - by apply lift_Ok_inv in Hfv as [_ ->].
    - by injection Hfv as _ ->. }
  injection H as <- <-. done.
Qed.

Lemma verificar_handler_raises e w (resp : json) w' :
  (match e with
   | HTTPException _ _ => raise e
   | _ => logger ERROR (ErrorVerifyingCertificate e) ;;;
          raise (HTTPException 500 "Error al verificar el certificado")
   end) w ≠ (Ok resp, w').
Proof. by destruct e. Qed.

Lemma public_fields_not_solicitante :
  Forall (λ k, solicitante_field k = false) public_fields.
Proof. repeat constructor. Qed.

(** A permit as [create_afap] stored it, whatever its state has become
    since, is shown by [verificar_certificado_publico]. *)
Lemma verificar_stored afap_id estado obs a venc w :
  find_one [("id", Eq (VStr afap_id))] None (afap (db w))
  = Some (update_data estado obs ∪ stored_afap a venc) →
  ∃ resp, verificar_certificado_publico afap_id w = (Ok resp, w).
Proof.
  intros Hd. unfold verificar_certificado_publico, try_except.
  erewrite bind_ok
    by (unfold db_find_one; cbn [coll]; rewrite Hd; reflexivity).
  cbv beta iota.
  destruct obs as [o|]; [destruct (truthy (VStr o)) eqn:Ho|].
  all: unfold update_data; try rewrite Ho.
  all: vm_compute.
  all: eexists; reflexivity.
Qed.

(** C2.  Whenever [verificar_certificado_publico] returns a view, its
    fields are the fifteen public ones, in their order; none of them is
    [solicitante_email], [solicitante_telefono] or
    [solicitante_cuit_cuil], and none has a name that starts with
    [solicitante_].  The handler takes the permit id and nothing about
    the caller, and leaves the world as it was. *)
Theorem verificar_public_view afap_id w resp w' :
  verificar_certificado_publico afap_id w = (Ok resp, w') →
  resp.*1 = public_fields ∧
  ("solicitante_email" ∉ resp.*1) ∧
  ("solicitante_telefono" ∉ resp.*1) ∧
  ("solicitante_cuit_cuil" ∉ resp.*1) ∧
  (∀ k, k ∈ resp.*1 → solicitante_field k = false) ∧
  w' = w.
Proof.
  intros H. unfold verificar_certificado_publico, try_except in H.
  match type of H with
  | match ?body w with _ => _ end = _ =>
      destruct (body w) as [[r|e] w1] eqn:Hbody
  end.
  2:{ by apply verificar_handler_raises in H. }
  injection H as -> ->.
  apply bind_Ok_inv in Hbody as (o & w1 & Hfind & Hbody).
  injection Hfind as <- <-.
  destruct (find_one _ _ _) as [d|]; [|done].
  destruct (negb (truthy_doc d)); [done|].
  apply verificar_body_keys in Hbody as [Hkeys ->].
  rewrite Hkeys. split; [done|].
  assert (∀ k, k ∈ public_fields → solicitante_field k = false) as Hno.
  { apply Forall_forall, public_fields_not_solicitante. }
  repeat split; try done; intros Hin; by apply Hno in Hin.
Qed.

Lemma verificar_public_view_witness :
  ∃ resp,
    verificar_certificado_publico "afap-a" Sample.w1 = (Ok resp, Sample.w1) ∧
    resp.*1 = public_fields ∧
    ("solicitante_email" ∉ resp.*1) ∧
    (Sample.d1 !! "solicitante_email"
     = Some (VStr "comerciante@email.com")) ∧
    resp = [ ("id", VStr "afap-a");
             ("numero_afap", VInt 1001);
             ("estado", VStr "pendiente");
             ("titular_nombre", VStr "Ana Martinez");
             ("titular_cuit", VStr "20111222333");
             ("domicilio_calle", VStr "Av. San Martin");
             ("domicilio_altura", VStr "500");
             ("domicilio_local", VStr "Local 2");
             ("domicilio_localidad", VStr "Moron");
             ("rubro_tipo", VStr "Comercio Minorista");
             ("rubro_descripcion", VStr "Boutique de ropa");
             ("metros_cuadrados", VFloat 4638144666238189568);
             ("fecha_solicitud", VIso 1001);
             ("fecha_vencimiento", VIso (1000 + timedelta_days 30));
             ("observaciones", VNone) ].
Proof.
  destruct (verificar_certificado_publico "afap-a" Sample.w1) as [r w'] eqn:E.
  assert (r = Ok [ ("id", VStr "afap-a");
             ("numero_afap", VInt 1001);
             ("estado", VStr "pendiente");
             ("titular_nombre", VStr "Ana Martinez");
             ("titular_cuit", VStr "20111222333");
             ("domicilio_calle", VStr "Av. San Martin");
             ("domicilio_altura", VStr "500");
             ("domicilio_local", VStr "Local 2");
             ("domicilio_localidad", VStr "Moron");
             ("rubro_tipo", VStr "Comercio Minorista");
             ("rubro_descripcion", VStr "Boutique de ropa");
             ("metros_cuadrados", VFloat 4638144666238189568);
             ("fecha_solicitud", VIso 1001);
             ("fecha_vencimiento", VIso (1000 + timedelta_days 30));
             ("observaciones", VNone) ]) as ->.
  { change r with (r, w').1. rewrite <- E. vm_compute. reflexivity. }
  destruct (verificar_public_view "afap-a" Sample.w1 _ _ E)
    as (Hk & He & _ & _ & _ & ->).
  eexists. split; [reflexivity|]. split; [exact Hk|]. split; [exact He|].
  split; [compute_done|reflexivity].
Defined.

(** ** Filters and date conversion *)

Lemma field_eq_scalar v x :
  (∀ l, x ≠ VList l) → field_eq v (Some x) = bool_decide (x = v).
Proof. intros H. destruct x; try done. by destruct (H l). Qed.

Lemma matches_single k c d : matches [(k, c)] d = cond_matches c (d !! k).
Proof. unfold matches. simpl. by rewrite andb_true_r. Qed.

Lemma matches_str k s d :
  not_array k d →
  matches [(k, Eq (VStr s))] d = bool_decide (d !! k = Some (VStr s)).
Proof.
  intros Hk. rewrite matches_single. simpl.
  destruct (d !! k) as [x|] eqn:E.
  - rewrite field_eq_scalar by (intros l ->; by apply (Hk l)).
    apply bool_decide_ext. split; [by intros ->|by intros [= ->]].
  - transitivity false; [|symmetry]; by apply bool_decide_eq_false_2.
Qed.

Lemma filter_bool_decide (f : doc → bool) (P : doc → Prop)
    `{∀ x, Decision (P x)} (l : list doc) :
  Forall (λ x, f x = bool_decide (P x)) l → List.filter f l = filter P l.
Proof.
  induction 1 as [|x l Hx _ IH]; [done|].
  simpl. rewrite filter_cons, Hx, IH.
  destruct (decide (P x)).
  - by rewrite bool_decide_eq_true_2.
  - by rewrite bool_decide_eq_false_2.
Qed.

Lemma find_owned uid c :
  Forall (not_array "user_id") c →
  find [("user_id", Eq (VStr uid))] c = filter (owned_by uid) c.
Proof.
  intros H. unfold find. apply filter_bool_decide.
  eapply Forall_impl; [exact H|]. intros d Hd. by apply matches_str.
Qed.

Lemma find_all c : find [] c = c.
Proof. unfold find. induction c; simpl; by f_equal. Qed.

Lemma fromisoformat_field_alter k d :
  not_text k d → fromisoformat_field k d = Ok (alter as_datetime k d).
Proof.
  intros Hk. unfold fromisoformat_field, dict_get.
  destruct (d !! k) as [v|] eqn:E; simpl.
  - assert (alter as_datetime k d = <[k := as_datetime v]> d) as ->.
    { apply map_eq. intros j. rewrite lookup_alter, lookup_insert.
      destruct (decide (k = j)) as [<-|]; [by rewrite E|done]. }
    destruct v; simpl; try (by rewrite insert_id); [by destruct (Hk s)|done].
  - f_equal. apply map_eq. intros j. rewrite lookup_alter.
    destruct (decide (k = j)) as [<-|]; [by rewrite E|done].
Qed.

Lemma not_text_alter k j f d :
  k ≠ j → not_text k d → not_text k (alter f j d).
Proof. intros Hne H s. rewrite lookup_alter_ne by done. apply H. Qed.

Lemma afap_dates_parse d :
  not_text "fecha_solicitud" d → not_text "fecha_vencimiento" d →
  afap_dates d = Ok (parse_dates afap_date_fields d).
Proof.
  intros H1 H2. unfold afap_dates.
  rewrite (fromisoformat_field_alter _ _ H1). simpl.
  by rewrite fromisoformat_field_alter by by apply not_text_alter.
Qed.

Lemma inspeccion_dates_parse d :
  not_text "fecha_programada" d → not_text "fecha_realizada" d →
  not_text "created_at" d →
  inspeccion_dates d = Ok (parse_dates inspeccion_date_fields d).
Proof.
  intros H1 H2 H3. unfold inspeccion_dates.
  rewrite (fromisoformat_field_alter _ _ H1). simpl.
  rewrite fromisoformat_field_alter by by apply not_text_alter. simpl.
  by rewrite fromisoformat_field_alter
    by (apply not_text_alter; [done|]; by apply not_text_alter).
Qed.

Lemma for_each_fmap f g l :
  Forall (λ d, f d = Ok (g d)) l → for_each f l = Ok (g <$> l).
Proof.
  induction 1 as [|d l Hd _ IH]; [done|]. simpl. by rewrite Hd, IH.
Qed.

Lemma parse_dates_other ks d k : k ∉ ks → parse_dates ks d !! k = d !! k.
Proof.
  unfold parse_dates. revert d. induction ks as [|j ks IH]; intros d Hk; [done|].
  simpl. rewrite IH by set_solver. apply lookup_alter_ne. set_solver.
Qed.

Lemma Forall_take_filter {A} (P Q : A → Prop) `{∀ x, Decision (Q x)} n l :
  Forall P l → Forall P (take n (filter Q l)).
Proof.
  intros H'. apply Forall_take. apply Forall_forall. intros x Hx.
  apply list_elem_of_filter in Hx as [_ Hx].
  by eapply Forall_forall in H'.
Qed.

(** ** [get_afaps] *)

Lemma get_afaps_query V u w :
  get_afaps V u w =
  (let* afaps :=
     lift (for_each afap_dates
             (take 1000
                (find (if bool_decide
                           (User.role u ∈ [administrador; inspector])
                       then []
                       else [("user_id", Eq (VStr (User.id u)))])
                      (afap (db w))))) in
   lift (response_model_list V afaps)) w.
Proof.
  unfold get_afaps. erewrite bind_ok; [reflexivity|].
  unfold db_find_to_list, to_list. cbn [coll project].
  by rewrite list_fmap_id.
Qed.

Lemma find_visible_afaps u c :
  Forall (not_array "user_id") c →
  find (if bool_decide (User.role u ∈ [administrador; inspector])
        then []
        else [("user_id", Eq (VStr (User.id u)))]) c
  = visible_afaps u c.
Proof.
  intros H. unfold visible_afaps. destruct (User.role u).
  - rewrite bool_decide_eq_false_2; [by apply find_owned|].
    intros Hin. apply elem_of_cons in Hin as [?|Hin]; [done|].
    by apply list_elem_of_singleton in Hin.
  - rewrite bool_decide_eq_true_2; [apply find_all|]. right. left.
  - rewrite bool_decide_eq_true_2; [apply find_all|]. left.
Qed.

(** What [get_afaps] answers on a registry whose permits hold no array as
    [user_id] and no unreadable text as a date: the response model's
    verdict on the first 1000 permits the requester may see. *)
Lemma get_afaps_eval V u w :
  Forall (not_array "user_id") (afap (db w)) →
  Forall (λ d, not_text "fecha_solicitud" d ∧ not_text "fecha_vencimiento" d)
         (afap (db w)) →
  get_afaps V u w
  = (response_model_list V
       (parse_dates afap_date_fields
          <$> take 1000 (visible_afaps u (afap (db w)))), w).
Proof.
  intros Harr Hdates.
  rewrite get_afaps_query, find_visible_afaps by done.
  erewrite bind_ok; [reflexivity|].
  unfold lift. f_equal. apply for_each_fmap.
  assert (Forall (λ d, not_text "fecha_solicitud" d
                       ∧ not_text "fecha_vencimiento" d)
                 (visible_afaps u (afap (db w)))) as Hv.
  { unfold visible_afaps.
    destruct (User.role u); [|done..].
    apply Forall_forall. intros x Hx.
    apply list_elem_of_filter in Hx as [_ Hx].
    by eapply Forall_forall in Hdates. }
  apply Forall_take. eapply Forall_impl; [exact Hv|].
  intros d [H1 H2]. by apply afap_dates_parse.
Qed.

(** *** The response model *)

Lemma validate_each_Ok {A} (V : doc → result A) l models :
  validate_each V l = Ok models ↔ Forall2 (λ d a, V d = Ok a) l models.
Proof.
  revert models. induction l as [|d l IH]; intros models; cbn [validate_each].
  - split; [intros [= <-]; constructor|by intros ->%Forall2_nil_inv_l].
  - split.
    + destruct (V d) as [a|e] eqn:Ea; [|done]. cbn [and_then].
      destruct (validate_each V l) as [l'|e] eqn:El; [|done].
      cbn [and_then]. intros [= <-]. constructor; [done|]. by apply IH.
    + intros (a & l' & Ha & Hl & ->)%Forall2_cons_inv_l.
      rewrite Ha. cbn [and_then].
      apply IH in Hl. by rewrite Hl.
Qed.

Lemma validate_each_accepts {A} (V : doc → result A) l :
  Forall (λ d, ∃ a, V d = Ok a) l ↔ ∃ models, validate_each V l = Ok models.
Proof.
  induction l as [|d l IH]; cbn [validate_each].
  - split; [by eexists|constructor].
  - rewrite Forall_cons, IH. split.
    + intros [[a Ha] [l' Hl]]. rewrite Ha, Hl. by eexists.
    + destruct (V d) as [a|e]; [|by intros [? ?]]. cbn [and_then].
      destruct (validate_each V l) as [l'|e]; [|by intros [? ?]].
      intros _. split; by eexists.
Qed.

Lemma validate_each_snoc {A} (V : doc → result A) l d :
  validate_each V (l ++ [d])
  = and_then (validate_each V l) (λ models,
    and_then (V d) (λ a, Ok (models ++ [a]))).
Proof.
  induction l as [|x l IH]; cbn [validate_each app and_then].
  - by destruct (V d).
  - destruct (V x) as [a|e]; [|done]. cbn [and_then]. rewrite IH.
    destruct (validate_each V l) as [l'|e]; [|done]. cbn [and_then].
    by destruct (V d).
Qed.

Lemma response_model_list_Ok {A} (V : doc → result A) l models :
  response_model_list V l = Ok models
  ↔ Forall2 (λ d a, V d = Ok a) l models.
Proof.
  rewrite <- validate_each_Ok. unfold response_model_list.
  destruct (validate_each V l); [done|]. split; intros; done.
Qed.

Lemma response_model_list_accepts {A} (V : doc → result A) l :
  Forall (λ d, ∃ a, V d = Ok a) l →
  ∃ models, response_model_list V l = Ok models.
Proof.
  intros [models H]%validate_each_accepts. exists models.
  unfold response_model_list. by rewrite H.
Qed.

Lemma response_model_list_rejects {A} (V : doc → result A) l :
  ¬ Forall (λ d, ∃ a, V d = Ok a) l →
  response_model_list V l = Raise (OtherError "ResponseValidationError").
Proof.
  intros H. unfold response_model_list.
  destruct (validate_each V l) as [models|e] eqn:E; [|done].
  destruct H. apply validate_each_accepts. by eexists.
Qed.

Lemma response_model_list_fmap {A B} (V : doc → result A) (g : B → A)
    (f : B → doc) l :
  Forall (λ x, V (f x) = Ok (g x)) l →
  response_model_list V (f <$> l) = Ok (g <$> l).
Proof.
  intros H. apply response_model_list_Ok.
  induction H as [|x l Hx _ IH]; by constructor.
Qed.

(** A validator that checks the [Literal] of [estado] rejects a list that
    holds a permit in a state outside it. *)
Lemma response_model_list_estado V l :
  checks_estado V → Exists estado_unlisted l →
  response_model_list V (parse_dates afap_date_fields <$> l)
  = Raise (OtherError "ResponseValidationError").
Proof.
  intros HV Hl. apply response_model_list_rejects. intros Hall.
  apply Exists_exists in Hl as (d & Hd & s & Hs & Hout).
  rewrite Forall_fmap in Hall.
  eapply Forall_forall in Hall as [a Ha]; [|exact Hd].
  cbn [compose] in Ha. revert Ha. apply (HV _ s); [|done].
  rewrite parse_dates_other; [done|].
  unfold afap_date_fields. intros Hin.
  apply elem_of_cons in Hin as [?|Hin]; [done|].
  by apply list_elem_of_singleton in Hin.
Qed.

(** *** The validator of the examples *)

Lemma AFAP_of_doc_checks_estado : checks_estado AFAP_of_doc.
Proof.
  intros d s a Hs Hout. unfold AFAP_of_doc, read_estado. rewrite Hs.
  repeat (rewrite bool_decide_eq_false_2;
          [|intros ->; apply Hout; set_solver]).
  done.
Qed.

(** It accepts the permits [create_afap] stores, once their dates are
    read back, and returns the model that was stored. *)
Lemma AFAP_of_doc_stored p u now utcnow uuid n venc :
  AFAP_of_doc
    (parse_dates afap_date_fields
       (stored_afap (new_afap p u now utcnow uuid n) venc))
  = Ok (AFAP.mk p uuid n (User.id u) pendiente utcnow (Some venc) None None).
Proof.
  destruct p as [? ? ? ? ? tt tn tc ? ? ? dp dd dl ? ? ? ? ? ? ? ? ? ? ? ? ?
                 ? ? ? ? ?].
  destruct tt, tn, tc, dp, dd, dl; vm_compute; reflexivity.
Qed.

(** C5, as amended.  On a registry whose permits hold no array as
    [user_id] and no unreadable text as a date, [get_afaps] puts to the
    response model, with their dates read back, the first 1000 of the
    permits in store order that the requester may see: those filed under
    the requester's id for a ciudadano, all of them for an inspector or
    administrador.  When the model accepts each of them the answer is
    their models, one for one and in that order; when it rejects one, as
    it does a permit whose state is outside the four of the model, the
    request fails with a response validation error and nothing is
    returned.  So a ciudadano is never shown a permit of another user, and
    whoever may see at most 1000 permits, all of them accepted, is shown
    them all.  The store is left as it was. *)
Theorem get_afaps_scope V u w :
  Forall (not_array "user_id") (afap (db w)) →
  Forall (λ d, not_text "fecha_solicitud" d ∧ not_text "fecha_vencimiento" d)
         (afap (db w)) →
  let visible := visible_afaps u (afap (db w)) in
  let shown := parse_dates afap_date_fields <$> take 1000 visible in
  let out := get_afaps V u w in
  out.2 = w ∧
  (∀ models, out.1 = Ok models ↔ Forall2 (λ d a, V d = Ok a) shown models) ∧
  (Forall (accepts V) shown → ∃ models, out.1 = Ok models) ∧
  (¬ Forall (accepts V) shown →
   out.1 = Raise (OtherError "ResponseValidationError")) ∧
  (checks_estado V → Exists estado_unlisted (take 1000 visible) →
   out.1 = Raise (OtherError "ResponseValidationError")) ∧
  (User.role u = ciudadano → ∀ d, d ∈ shown → owned_by (User.id u) d) ∧
  (User.role u ≠ ciudadano → visible = afap (db w)) ∧
  ((length visible ≤ 1000)%nat → take 1000 visible = visible).
Proof.
  intros Harr Hdates visible shown out.
  assert (out = (response_model_list V shown, w)) as ->
    by by apply get_afaps_eval.
  cbn [fst snd]. split_and!.
  - done.
  - intros models. apply response_model_list_Ok.
  - apply response_model_list_accepts.
  - apply response_model_list_rejects.
  - apply response_model_list_estado.
  - intros Hrole d Hd. apply list_elem_of_fmap in Hd as (d0 & -> & Hd0).
    apply elem_of_take in Hd0 as (i & Hd0 & _).
    apply list_elem_of_lookup_2 in Hd0.
    subst visible. unfold visible_afaps in Hd0. rewrite Hrole in Hd0.
    apply list_elem_of_filter in Hd0 as [Hown _].
    unfold owned_by in *. rewrite parse_dates_other; [done|].
    unfold afap_date_fields. intros Hin.
    apply elem_of_cons in Hin as [?|Hin]; [done|].
    by apply list_elem_of_singleton in Hin.
  - intros Hrole. subst visible. unfold visible_afaps.
    by destruct (User.role u).
  - intros Hlen. by apply take_ge.
Qed.

Lemma get_afaps_scope_witness :
  visible_afaps Sample.ana (afap (db Sample.w_few)) = [Sample.permit 0] ∧
  (get_afaps AFAP_of_doc Sample.ana Sample.w_few).1
  = Ok [AFAP.mk Sample.payload "afap-0" 1001 "user-4" pendiente 1001
                (Some (1000 + timedelta_days 30)) None None] ∧
  checks_estado AFAP_of_doc ∧
  Exists estado_unlisted
         (take 1000 (visible_afaps Sample.ana (afap (db Sample.w_archivado))))
  ∧
  (get_afaps AFAP_of_doc Sample.ana Sample.w_archivado).1
  = Raise (OtherError "ResponseValidationError").
Proof.
  assert (Exists estado_unlisted
            (take 1000 (visible_afaps Sample.ana
                          (afap (db Sample.w_archivado))))) as Hun.
  { apply Exists_exists.
    exists (update_data "archivado" None ∪ Sample.d1). split; [compute_done|].
    exists "archivado". split; [vm_compute; reflexivity|compute_done]. }
  split; [compute_done|]. split; [|split; [|split]].
  - apply (proj1 (proj2 (get_afaps_scope AFAP_of_doc Sample.ana Sample.w_few
                           ltac:(compute_done) ltac:(compute_done)))).
    constructor; [vm_compute; reflexivity|constructor].
  - exact AFAP_of_doc_checks_estado.
  - exact Hun.
  - apply (get_afaps_scope AFAP_of_doc Sample.ana Sample.w_archivado
             ltac:(compute_done) ltac:(compute_done)).
    + exact AFAP_of_doc_checks_estado.
    + exact Hun.
Defined.

Lemma sample_permit_user_id n :
  Sample.permit n !! "user_id" = Some (VStr "user-4").
Proof.
  unfold Sample.permit, stored_afap.
  rewrite !lookup_insert_ne by done. by rewrite dump_user_id.
Qed.

Lemma sample_permit_fecha_solicitud n :
  Sample.permit n !! "fecha_solicitud" = Some (VIso 1001).
Proof.
  unfold Sample.permit, stored_afap.
  rewrite lookup_insert_ne by done. by rewrite lookup_insert_eq.
Qed.

Lemma sample_permit_fecha_vencimiento n :
  Sample.permit n !! "fecha_vencimiento"
  = Some (VIso (1000 + timedelta_days 30)).
Proof. unfold Sample.permit, stored_afap. by rewrite lookup_insert_eq. Qed.

(** C5, as stated, fails: of a registry of 1001 permits, each of which
    the response model accepts, an administrador is returned 1000. *)
Lemma get_afaps_capped :
  User.role Sample.carlos = administrador ∧
  length (afap (db Sample.w_big)) = 1001%nat ∧
  returned (get_afaps AFAP_of_doc Sample.carlos Sample.w_big).1
  = Some 1000%nat.
Proof.
  split; [done|]. split.
  { cbn [Sample.w_big db afap]. by rewrite length_fmap, length_seq. }
  rewrite get_afaps_eval.
  - cbn [fst Sample.w_big db afap]. unfold visible_afaps.
    cbn [Sample.carlos User.role].
    rewrite <- fmap_take, <- list_fmap_compose.
    rewrite (response_model_list_fmap _
               (λ n, AFAP.mk Sample.payload ("afap-" +:+ pretty n)
                             (1001 + Z.of_nat n) "user-4" pendiente 1001
                             (Some (1000 + timedelta_days 30)) None None)).
    + cbn [returned]. by rewrite length_fmap, length_take, length_seq.
    + apply Forall_forall. intros n _. cbn [compose].
      unfold Sample.permit. apply AFAP_of_doc_stored.
  - apply Forall_fmap, Forall_forall. intros n _ l.
    by rewrite sample_permit_user_id.
  - apply Forall_fmap, Forall_forall. intros n _. split; intros s.
    + by rewrite sample_permit_fecha_solicitud.
    + by rewrite sample_permit_fecha_vencimiento.
Qed.

(** ** [get_inspecciones] *)

Lemma ids_of_project l :
  Forall (has_str "id") l →
  ids_of (project (Some ["id"]) <$> l)
  = Ok ((λ d, default VNone (d !! "id")) <$> l).
Proof.
  induction 1 as [|d l [s Hd] _ IH]; [done|].
  cbn [fmap list_fmap ids_of]. fold (fmap (M:=list) (project (Some ["id"])) l).
  unfold dict_item at 1. rewrite project_lookup, bool_decide_eq_true_2, Hd
    by (by left).
  cbn [and_then]. rewrite IH. done.
Qed.

Lemma field_eq_str k s (i : doc) :
  not_array k i →
  field_eq (VStr s) (i !! k) = bool_decide (i !! k = Some (VStr s)).
Proof.
  intros Hi. destruct (i !! k) as [x|] eqn:E.
  - rewrite field_eq_scalar by (intros l' ->; by apply (Hi l')).
    apply bool_decide_ext. split; [by intros ->|by intros [= ->]].
  - transitivity false; [|symmetry]; by apply bool_decide_eq_false_2.
Qed.

Lemma matches_in_ids i permits :
  not_array "afap_id" i → Forall (has_str "id") permits →
  matches [("afap_id", In ((λ d, default VNone (d !! "id")) <$> permits))] i
  = bool_decide (inspects permits i).
Proof.
  intros Hi Hp. rewrite matches_single. cbn [cond_matches].
  unfold inspects.
  induction Hp as [|d l [s Hd] _ IH].
  { symmetry. apply bool_decide_eq_false_2. by intros H%Exists_nil. }
  cbn [fmap list_fmap existsb]. rewrite IH. rewrite Hd.
  change (default VNone (Some (VStr s))) with (VStr s).
  rewrite field_eq_str by done.
  destruct (decide (i !! "afap_id" = Some (VStr s))) as [Heq|Hne].
  - rewrite bool_decide_eq_true_2 by done. symmetry.
    apply bool_decide_eq_true_2, Exists_cons. left.
    rewrite Hd. split; [eauto|done].
  - rewrite bool_decide_eq_false_2 by done. cbn [orb].
    apply bool_decide_ext. rewrite Exists_cons. split; [by right|].
    intros [[_ H]|H]; [|done]. by rewrite Hd in H.
Qed.

Lemma get_inspecciones_run u w q :
  (let* query :=
     if bool_decide (User.role u = inspector)
     then ret [("inspector_id", Eq (VStr (User.id u)))]
     else if bool_decide (User.role u = administrador)
     then ret []
     else
       let* user_afaps :=
         db_find_to_list c_afap [("user_id", Eq (VStr (User.id u)))]
                         (Some ["id"]) 1000 in
       let* afap_ids := lift (ids_of user_afaps) in
       ret [("afap_id", In afap_ids)] in
   ret query) w = (Ok q, w) →
  get_inspecciones u w
  = lift (for_each inspeccion_dates
            (take 1000 (find q (inspecciones (db w))))) w.
Proof.
  intros Hq. unfold get_inspecciones.
  apply bind_Ok_inv in Hq as (q' & w1 & Hq & Hret).
  injection Hret as -> ->.
  erewrite bind_ok by exact Hq.
  erewrite bind_ok; [reflexivity|].
  unfold db_find_to_list, to_list. cbn [coll project].
  by rewrite list_fmap_id.
Qed.

(** What [get_inspecciones] returns on a store whose permits hold a
    string as [id] and no array as [user_id], and whose inspections hold
    no array as [inspector_id] or [afap_id] and no unreadable text as a
    date. *)
Lemma get_inspecciones_eval u w :
  Forall (not_array "user_id") (afap (db w)) →
  Forall (has_str "id") (afap (db w)) →
  Forall (λ i, not_array "inspector_id" i ∧ not_array "afap_id" i)
         (inspecciones (db w)) →
  Forall (λ i, not_text "fecha_programada" i ∧ not_text "fecha_realizada" i
               ∧ not_text "created_at" i)
         (inspecciones (db w)) →
  get_inspecciones u w
  = (Ok (parse_dates inspeccion_date_fields
           <$> take 1000 (visible_inspecciones 1000 u (afap (db w))
                                                (inspecciones (db w)))), w).
Proof.
  intros Huid Hid Harr Hdates.
  set (visible :=
         visible_inspecciones 1000 u (afap (db w)) (inspecciones (db w))).
  assert (∃ q, (let* query :=
        if bool_decide (User.role u = inspector)
        then ret [("inspector_id", Eq (VStr (User.id u)))]
        else if bool_decide (User.role u = administrador)
        then ret []
        else
          let* user_afaps :=
            db_find_to_list c_afap [("user_id", Eq (VStr (User.id u)))]
                            (Some ["id"]) 1000 in
          let* afap_ids := lift (ids_of user_afaps) in
          ret [("afap_id", In afap_ids)] in
      ret query) w = (Ok q, w)
      ∧ find q (inspecciones (db w)) = visible) as (q & Hq & Hfind).
  { subst visible. unfold visible_inspecciones.
    destruct (User.role u) eqn:Hrole.
    - rewrite !bool_decide_eq_false_2 by done.
      set (owned := take 1000 (filter (owned_by (User.id u)) (afap (db w)))).
      assert (Forall (has_str "id") owned) as Hown.
      { subst owned. apply Forall_take, Forall_forall. intros x Hx.
        apply list_elem_of_filter in Hx as [_ Hx].
        by eapply Forall_forall in Hid. }
      eexists. split.
      + erewrite bind_ok; [reflexivity|].
        erewrite bind_ok.
        2:{ unfold db_find_to_list, to_list. cbn [coll].
            rewrite find_owned by done. fold owned. reflexivity. }
        erewrite bind_ok; [reflexivity|].
        unfold lift. by rewrite ids_of_project.
      + unfold find. apply filter_bool_decide.
        eapply Forall_impl; [exact Harr|]. intros i [_ Hi].
        by apply matches_in_ids.
    - rewrite bool_decide_eq_true_2 by done.
      eexists. split; [reflexivity|]. unfold find.
      apply filter_bool_decide.
      eapply Forall_impl; [exact Harr|]. intros i [Hi _].
      by apply matches_str.
    - rewrite bool_decide_eq_false_2, bool_decide_eq_true_2 by done.
      eexists. split; [reflexivity|]. apply find_all. }
  rewrite (get_inspecciones_run u w q Hq), Hfind.
  unfold lift. f_equal. apply for_each_fmap.
  assert (Forall (λ i, not_text "fecha_programada" i
                       ∧ not_text "fecha_realizada" i
                       ∧ not_text "created_at" i) visible) as Hv.
  { subst visible. unfold visible_inspecciones.
    destruct (User.role u); [| |done]; apply Forall_forall; intros x Hx;
      apply list_elem_of_filter in Hx as [_ Hx];
      by eapply Forall_forall in Hdates. }
  apply Forall_take. eapply Forall_impl; [exact Hv|].
  intros d (H1 & H2 & H3). by apply inspeccion_dates_parse.
Qed.

(** C9, as amended.  On a store whose permits hold a string as [id] and
    no array as [user_id], and whose inspections hold no array as
    [inspector_id] or [afap_id] and no unreadable text as a date,
    [get_inspecciones] returns, with their dates read back, the first 1000
    in store order of: the inspections assigned to the requester, for an
    inspector; all inspections, for an administrador; the inspections
    whose [afap_id] is the id of one of the first 1000 permits filed under
    the requester's id, for a ciudadano. *)
Theorem get_inspecciones_scope u w :
  Forall (not_array "user_id") (afap (db w)) →
  Forall (has_str "id") (afap (db w)) →
  Forall (λ i, not_array "inspector_id" i ∧ not_array "afap_id" i)
         (inspecciones (db w)) →
  Forall (λ i, not_text "fecha_programada" i ∧ not_text "fecha_realizada" i
               ∧ not_text "created_at" i)
         (inspecciones (db w)) →
  let visible :=
    visible_inspecciones 1000 u (afap (db w)) (inspecciones (db w)) in
  get_inspecciones u w
  = (Ok (parse_dates inspeccion_date_fields <$> take 1000 visible), w) ∧
  ((length visible ≤ 1000)%nat → take 1000 visible = visible) ∧
  ((length (filter (owned_by (User.id u)) (afap (db w))) ≤ 1000)%nat →
   User.role u = ciudadano →
   visible
   = filter (inspects (filter (owned_by (User.id u)) (afap (db w))))
            (inspecciones (db w))).
Proof.
  intros Huid Hid Harr Hdates visible.
  split; [by apply get_inspecciones_eval|]. split.
  - intros Hlen. by apply take_ge.
  - intros Hlen Hrole. subst visible. unfold visible_inspecciones.
    by rewrite Hrole, take_ge.
Qed.

Lemma get_inspecciones_scope_witness :
  let visible :=
    visible_inspecciones 1000 Sample.ana (afap (db Sample.w_few))
                         (inspecciones (db Sample.w_few)) in
  visible = Sample.inspeccion <$> seq 0 3 ∧
  get_inspecciones Sample.ana Sample.w_few
  = (Ok (parse_dates inspeccion_date_fields <$> take 1000 visible),
     Sample.w_few).
Proof.
  split; [compute_done|].
  apply (get_inspecciones_scope Sample.ana Sample.w_few); compute_done.
Defined.

(** C9, as stated, fails: of 1001 inspections on file, an administrador
    is returned 1000. *)
Lemma get_inspecciones_capped :
  User.role Sample.carlos = administrador ∧
  length (inspecciones (db Sample.w_inspected)) = 1001%nat ∧
  returned (get_inspecciones Sample.carlos Sample.w_inspected).1
  = Some 1000%nat.
Proof.
  split; [done|]. split.
  { cbn [Sample.w_inspected db inspecciones].
    by rewrite length_fmap, length_seq. }
  rewrite get_inspecciones_eval.
  - cbn [fst returned Sample.w_inspected db afap inspecciones].
    unfold visible_inspecciones. cbn [Sample.carlos User.role].
    by rewrite length_fmap, length_take, length_fmap, length_seq.
  - apply Forall_singleton. intros l. by rewrite sample_permit_user_id.
  - apply Forall_singleton. compute_done.
  - apply Forall_fmap, Forall_forall. intros n _.
    split; intros l; unfold Sample.inspeccion; by simplify_map_eq.
  - apply Forall_fmap, Forall_forall. intros n _.
    repeat split; intros s; unfold Sample.inspeccion; by simplify_map_eq.
Qed.

(** * Further properties of the handlers *)

(** ** [update_afap_estado]: errors and frame *)

(** X1.  For an inspector or administrador and an id under which no
    permit is on file, [update_afap_estado] raises 404 and changes
    nothing: no permit is created, nothing is logged or dispatched. *)
Theorem update_afap_estado_not_found N afap_id estado obs u w :
  User.role u ∈ [inspector; administrador] →
  find_one [("id", Eq (VStr afap_id))] None (afap (db w)) = None →
  update_afap_estado N afap_id estado obs u w
  = (Raise (HTTPException 404 "AFAP no encontrado"), w).
Proof.
  intros Hrole Hd. unfold update_afap_estado.
  rewrite (role_staff _ (staff_not_ciudadano _ Hrole)). cbn [negb].
  erewrite bind_ok
    by (unfold db_find_one; cbn [coll]; rewrite Hd; reflexivity).
  done.
Qed.

Lemma update_afap_estado_not_found_witness :
  update_afap_estado EmailService.notifier "afap-zzz" "aprobado" None
                     Sample.maria Sample.w1
  = (Raise (HTTPException 404 "AFAP no encontrado"), Sample.w1).
Proof.
  apply (update_afap_estado_not_found EmailService.notifier "afap-zzz"
           "aprobado" None Sample.maria Sample.w1); compute_done.
Defined.

Lemma field_of_update_one q e o c k :
  k ≠ "estado" → k ≠ "observaciones" →
  (λ d : doc, d !! k) <$> (update_one q (update_data e o) c).1
  = (λ d : doc, d !! k) <$> c.
Proof.
  intros H1 H2. induction c as [|d c IH]; [done|].
  cbn [update_one]. destruct (matches q d).
  - cbn [fst fmap list_fmap]. by rewrite updated_other.
  - destruct (update_one q (update_data e o) c) as [c' n].
    cbn [fst fmap list_fmap] in *. by f_equal.
Qed.

(** The world [update_afap_estado] leaves: the one it found, or the one
    [update_one] made, with lines added to the log and the dispatches. *)
Lemma update_afap_estado_db N afap_id estado obs u w :
  db (update_afap_estado N afap_id estado obs u w).2 = db w ∨
  db (update_afap_estado N afap_id estado obs u w).2
  = db (updated_world afap_id estado obs w).
Proof.
  destruct (decide (User.role u = ciudadano)) as [Hc|Hc].
  { left. by rewrite update_afap_estado_forbidden. }
  destruct (find_one [("id", Eq (VStr afap_id))] None (afap (db w)))
    as [d|] eqn:Hd.
  - right. rewrite (update_afap_estado_run N _ _ _ _ _ d Hc Hd).
    apply (keeps_after_update (λ x, x)).
  - left. unfold update_afap_estado. rewrite (role_staff _ Hc). cbn [negb].
    erewrite bind_ok
      by (unfold db_find_one; cbn [coll]; rewrite Hd; reflexivity).
    done.
Qed.

(** X2.  Whoever calls [update_afap_estado], with whatever arguments and
    whatever the notifier does: no permit is added or removed, and no
    field of any permit other than [estado] and [observaciones] changes
    (so [id], [numero_afap], [user_id] and the dates stay as filed); the
    users, the inspections and the download log are left as they were. *)
Theorem update_afap_estado_frame N afap_id estado obs u w k :
  k ≠ "estado" → k ≠ "observaciones" →
  let w' := (update_afap_estado N afap_id estado obs u w).2 in
  (λ d : doc, d !! k) <$> afap (db w') = (λ d : doc, d !! k) <$> afap (db w) ∧
  length (afap (db w')) = length (afap (db w)) ∧
  users (db w') = users (db w) ∧
  inspecciones (db w') = inspecciones (db w) ∧
  download_logs (db w') = download_logs (db w).
Proof.
  intros H1 H2 w'. subst w'.
  assert ((λ d : doc, d !! k)
            <$> afap (db (update_afap_estado N afap_id estado obs u w).2)
          = (λ d : doc, d !! k) <$> afap (db w)) as Hk.
  { destruct (update_afap_estado_db N afap_id estado obs u w) as [->| ->];
      [done|].
    unfold updated_world. cbn [db]. cbn [set_coll afap].
    by apply field_of_update_one. }
  split; [exact Hk|]. split.
  { apply (f_equal length) in Hk. by rewrite !length_fmap in Hk. }
  destruct (update_afap_estado_db N afap_id estado obs u w) as [->| ->];
    [done|].
  unfold updated_world. cbn [db]. by destruct (db w).
Qed.

Lemma update_afap_estado_frame_witness :
  let w' := (update_afap_estado failing_notifier "afap-a" "rechazado"
               (Some "Falta plano") Sample.carlos Sample.w1).2 in
  (λ d : doc, d !! "numero_afap") <$> afap (db w')
  = (λ d : doc, d !! "numero_afap") <$> afap (db Sample.w1) ∧
  length (afap (db w')) = length (afap (db Sample.w1)) ∧
  users (db w') = users (db Sample.w1) ∧
  inspecciones (db w') = inspecciones (db Sample.w1) ∧
  download_logs (db w') = download_logs (db Sample.w1).
Proof.
  apply (update_afap_estado_frame failing_notifier "afap-a" "rechazado"
           (Some "Falta plano") Sample.carlos Sample.w1 "numero_afap");
    done.
Defined.

(** X3.  The observation of a status change: a non-empty text replaces
    the permit's [observaciones]; no text, or the empty text, leaves the
    stored [observaciones] as it was. *)
Theorem update_afap_estado_observaciones N afap_id estado obs u w d :
  User.role u ∈ [inspector; administrador] →
  find_one [("id", Eq (VStr afap_id))] None (afap (db w)) = Some d →
  ∃ d',
    find_one [("id", Eq (VStr afap_id))] None
             (afap (db (update_afap_estado N afap_id estado obs u w).2))
    = Some d' ∧
    d' !! "observaciones" =
      match obs with
      | Some o => if bool_decide (o = "") then d !! "observaciones"
                  else Some (VStr o)
      | None => d !! "observaciones"
      end.
Proof.
  intros Hrole Hd.
  destruct (update_afap_estado_commits N afap_id estado obs u w d
              (staff_not_ciudadano _ Hrole) Hd) as (_ & Hf & _).
  eexists. split; [exact Hf|].
  unfold update_data. destruct obs as [o|].
  - cbn [truthy]. destruct (bool_decide (o = "")); cbn [negb].
    + by rewrite lookup_union_r by by simplify_map_eq.
    + apply lookup_union_Some_l. by simplify_map_eq.
  - by rewrite lookup_union_r by by simplify_map_eq.
Qed.

Lemma update_afap_estado_observaciones_witness :
  ∃ d1 d2,
    find_one [("id", Eq (VStr "afap-a"))] None
      (afap (db (update_afap_estado EmailService.notifier "afap-a"
                   "inspeccion" (Some "") Sample.maria Sample.w1).2))
    = Some d1 ∧ d1 !! "observaciones" = Some VNone ∧
    find_one [("id", Eq (VStr "afap-a"))] None
      (afap (db (update_afap_estado EmailService.notifier "afap-a"
                   "inspeccion" (Some "Falta plano") Sample.maria
                   Sample.w1).2))
    = Some d2 ∧ d2 !! "observaciones" = Some (VStr "Falta plano").
Proof.
  assert (User.role Sample.maria ∈ [inspector; administrador]) as Hr
    by compute_done.
  assert (find_one [("id", Eq (VStr "afap-a"))] None (afap (db Sample.w1))
          = Some Sample.d1) as Hd by compute_done.
  assert (Sample.d1 !! "observaciones" = Some VNone) as Ho by compute_done.
  destruct (update_afap_estado_observaciones EmailService.notifier "afap-a"
              "inspeccion" (Some "") Sample.maria Sample.w1 Sample.d1 Hr Hd)
    as (d1 & Hf1 & Ho1).
  destruct (update_afap_estado_observaciones EmailService.notifier "afap-a"
              "inspeccion" (Some "Falta plano") Sample.maria Sample.w1
              Sample.d1 Hr Hd) as (d2 & Hf2 & Ho2).
  exists d1, d2. split; [exact Hf1|]. split; [by rewrite Ho1|].
  split; [exact Hf2|exact Ho2].
Defined.

(** ** [download_certificado]: delivery and its log *)

Lemma download_log_timestamp l :
  DownloadLog_model_dump l !! "timestamp"
  = Some (VDatetime (DownloadLog.timestamp l)).
Proof. vm_compute. reflexivity. Qed.

(** Past its three checks, [download_certificado] appends the log entry,
    logs the download, and renders. *)
Lemma download_certificado_allowed R afap_id u utcnow uuid w d n :
  find_one [("id", Eq (VStr afap_id))] None (afap (db w)) = Some d →
  d !! "estado" = Some (VStr "aprobado") →
  d !! "numero_afap" = Some (VInt n) →
  may_fetch u d →
  download_certificado R afap_id u utcnow uuid w
  = try_except
      (let* pdf_bytes := lift (R d) in
       let* numero := lift (dict_item d "numero_afap") in
       ret (mkCertificateResponse pdf_bytes "application/pdf"
              [ Lit "attachment; filename=HabilitacionPrecaria_"; Fmt numero;
                Lit "_Argentina.pdf" ]))
      (λ e, logger ERROR (ErrorGeneratingCertificate e) ;;;
            raise (HTTPException 500 "Error al generar el certificado"))
      (mkWorld
         (set_coll c_download_logs
            (download_logs (db w)
             ++ [download_log_doc afap_id n u utcnow uuid]) (db w))
         (log w ++ [(INFO, CertificateDownloaded (VInt n) (User.email u))])
         (dispatched w)).
Proof.
  intros Hd He Hn Hu. unfold download_certificado.
  erewrite bind_ok
    by (unfold db_find_one; cbn [coll]; rewrite Hd; reflexivity).
  cbv beta iota. rewrite (lookup_truthy _ _ _ He). cbn [negb].
  item_ok He. rewrite bool_decide_eq_false_2 by (by intros []).
  erewrite bind_ok.
  2:{ destruct (decide (User.role u = ciudadano)) as [Hc|Hc].
      - rewrite bool_decide_eq_true_2 by done.
        item_ok (Hu Hc). unfold ret.
        rewrite bool_decide_eq_false_2 by (by intros []). reflexivity.
      - rewrite bool_decide_eq_false_2 by done. reflexivity. }
  cbv beta iota.
  erewrite bind_ok; [reflexivity|].
  unfold try_except. item_ok Hn.
  unfold bind at 1, ret at 1. unfold bind at 1.
  unfold lift at 1, isoformat_item at 1.
  rewrite download_log_timestamp. unfold bind at 1.
  unfold db_insert_one at 1. item_ok Hn.
  reflexivity.
Qed.

(** X4.  For an approved permit that carries its number, and a requester
    who is not a ciudadano or is the ciudadano it is filed under:
    [download_certificado] returns the bytes the renderer made of the
    stored permit, as a PDF attachment named after the permit number; it
    appends exactly one entry to the download log, naming the permit, its
    number, the requester and the time; and it changes nothing else in
    the database. *)
Theorem download_certificado_delivers R afap_id u utcnow uuid w d n pdf :
  find_one [("id", Eq (VStr afap_id))] None (afap (db w)) = Some d →
  d !! "estado" = Some (VStr "aprobado") →
  d !! "numero_afap" = Some (VInt n) →
  may_fetch u d →
  R d = Ok pdf →
  ∃ w' entry,
    download_certificado R afap_id u utcnow uuid w
    = (Ok (mkCertificateResponse pdf "application/pdf"
             [ Lit "attachment; filename=HabilitacionPrecaria_";
               Fmt (VInt n); Lit "_Argentina.pdf" ]), w') ∧
    download_logs (db w') = download_logs (db w) ++ [entry] ∧
    entry !! "afap_id" = Some (VStr afap_id) ∧
    entry !! "afap_numero" = Some (VInt n) ∧
    entry !! "user_id" = Some (VStr (User.id u)) ∧
    entry !! "user_email" = Some (VStr (User.email u)) ∧
    entry !! "timestamp" = Some (VIso utcnow) ∧
    afap (db w') = afap (db w) ∧
    users (db w') = users (db w) ∧
    inspecciones (db w') = inspecciones (db w).
Proof.
  intros Hd He Hn Hu HR.
  rewrite (download_certificado_allowed R afap_id u utcnow uuid w d n)
    by done.
  unfold try_except. item_ok HR. item_ok Hn. unfold ret.
  eexists _, _. split; [reflexivity|]. cbn [db set_coll download_logs].
  split; [reflexivity|].
  unfold download_log_doc.
  do 4 (split; [rewrite lookup_insert_ne by done; vm_compute; reflexivity|]).
  split; [by rewrite lookup_insert_eq|].
  by destruct (db w).
Qed.

Lemma download_certificado_delivers_witness :
  ∃ w' entry,
    download_certificado Sample.renderer "afap-a" Sample.ana 3000 "log-1"
                         Sample.w2
    = (Ok (mkCertificateResponse [Byte.x25; Byte.x50] "application/pdf"
             [ Lit "attachment; filename=HabilitacionPrecaria_";
               Fmt (VInt 1001); Lit "_Argentina.pdf" ]), w') ∧
    download_logs (db w') = download_logs (db Sample.w2) ++ [entry] ∧
    entry !! "afap_id" = Some (VStr "afap-a") ∧
    entry !! "afap_numero" = Some (VInt 1001) ∧
    entry !! "user_id" = Some (VStr (User.id Sample.ana)) ∧
    entry !! "user_email" = Some (VStr (User.email Sample.ana)) ∧
    entry !! "timestamp" = Some (VIso 3000) ∧
    afap (db w') = afap (db Sample.w2) ∧
    users (db w') = users (db Sample.w2) ∧
    inspecciones (db w') = inspecciones (db Sample.w2).
Proof.
  apply (download_certificado_delivers Sample.renderer "afap-a" Sample.ana
           3000 "log-1" Sample.w2 (update_data "aprobado" None ∪ Sample.d1)
           1001 [Byte.x25; Byte.x50]).
  - compute_done.
  - vm_compute. reflexivity.
  - vm_compute. reflexivity.
  - intros _. vm_compute. reflexivity.
  - reflexivity.
Defined.

(** X5.  When the renderer raises, [download_certificado] raises 500 and
    logs the error; the download has been recorded all the same: the
    entry of the download log is written before the certificate is
    rendered. *)
Theorem download_certificado_render_fails R afap_id u utcnow uuid w d n e :
  find_one [("id", Eq (VStr afap_id))] None (afap (db w)) = Some d →
  d !! "estado" = Some (VStr "aprobado") →
  d !! "numero_afap" = Some (VInt n) →
  may_fetch u d →
  R d = Raise e →
  ∃ w',
    download_certificado R afap_id u utcnow uuid w
    = (Raise (HTTPException 500 "Error al generar el certificado"), w') ∧
    download_logs (db w')
    = download_logs (db w) ++ [download_log_doc afap_id n u utcnow uuid] ∧
    log w'
    = log w ++ [ (INFO, CertificateDownloaded (VInt n) (User.email u));
                 (ERROR, ErrorGeneratingCertificate e) ].
Proof.
  intros Hd He Hn Hu HR.
  rewrite (download_certificado_allowed R afap_id u utcnow uuid w d n)
    by done.
  unfold try_except.
  erewrite bind_raise by (unfold lift; rewrite HR; reflexivity).
  unfold bind, logger, raise. cbn [db log set_coll download_logs].
  eexists. split; [reflexivity|]. cbn [db log].
  split; [by destruct (db w)|]. by rewrite <- app_assoc.
Qed.

Lemma download_certificado_render_fails_witness :
  ∃ w',
    download_certificado (λ _, Raise (OtherError "reportlab")) "afap-a"
                         Sample.ana 3000 "log-1" Sample.w2
    = (Raise (HTTPException 500 "Error al generar el certificado"), w') ∧
    download_logs (db w')
    = download_logs (db Sample.w2)
      ++ [download_log_doc "afap-a" 1001 Sample.ana 3000 "log-1"] ∧
    log w'
    = log Sample.w2
      ++ [ (INFO, CertificateDownloaded (VInt 1001)
                                         (User.email Sample.ana));
           (ERROR, ErrorGeneratingCertificate (OtherError "reportlab")) ].
Proof.
  apply (download_certificado_render_fails
           (λ _, Raise (OtherError "reportlab")) "afap-a" Sample.ana 3000
           "log-1" Sample.w2 (update_data "aprobado" None ∪ Sample.d1) 1001
           (OtherError "reportlab")).
  - compute_done.
  - vm_compute. reflexivity.
  - vm_compute. reflexivity.
  - intros _. vm_compute. reflexivity.
  - reflexivity.
Defined.

(** X6.  Under an id with no permit on file, [download_certificado]
    raises 404 for every requester, before any other check, and changes
    nothing. *)
Theorem download_certificado_not_found R afap_id u utcnow uuid w :
  find_one [("id", Eq (VStr afap_id))] None (afap (db w)) = None →
  download_certificado R afap_id u utcnow uuid w
  = (Raise (HTTPException 404 "AFAP no encontrado"), w).
Proof.
  intros Hd. unfold download_certificado.
  erewrite bind_ok
    by (unfold db_find_one; cbn [coll]; rewrite Hd; reflexivity).
  done.
Qed.

Lemma download_certificado_not_found_witness :
  download_certificado Sample.renderer "afap-zzz" Sample.carlos 3000 "log-1"
                       Sample.w2
  = (Raise (HTTPException 404 "AFAP no encontrado"), Sample.w2).
Proof.
  apply (download_certificado_not_found Sample.renderer "afap-zzz"
           Sample.carlos 3000 "log-1" Sample.w2).
  compute_done.
Defined.

(** ** [verificar_certificado_publico]: failures and composition *)

Lemma bind_lift_Raise_inv {A B} (r : result A) (k : A → M B) w e w' :
  bind (lift r) k w = (Raise e, w') →
  (r = Raise e ∧ w' = w) ∨ (∃ a, r = Ok a ∧ k a w = (Raise e, w')).
Proof.
  unfold bind, lift. destruct r as [a|e0]; [eauto|].
  intros [= -> ->]. by left.
Qed.

Lemma dict_item_plain d k e : dict_item d k = Raise e → plain_exn e.
Proof. unfold dict_item. destruct (d !! k); [done|]. by intros [= <-]. Qed.

Lemma isoformat_item_plain d k e : isoformat_item d k = Raise e → plain_exn e.
Proof.
  unfold isoformat_item. destruct (d !! k) as [[]|]; try done;
    by intros [= <-].
Qed.

Lemma fromisoformat_field_plain k d e :
  fromisoformat_field k d = Raise e → plain_exn e.
Proof.
  unfold fromisoformat_field. destruct (dict_get d k); try done.
  by intros [= <-].
Qed.

Lemma afap_dates_plain d e : afap_dates d = Raise e → plain_exn e.
Proof.
  unfold afap_dates.
  destruct (fromisoformat_field "fecha_solicitud" d) as [d'|e0] eqn:E1.
  - apply fromisoformat_field_plain.
  - intros [= <-]. by eapply fromisoformat_field_plain.
Qed.

(** Opens the next [let*] of a handler that is known to raise; the
    exception of a lookup is a plain one. *)
Ltac open_raise H :=
  let a := fresh "v" in
  apply bind_lift_Raise_inv in H as [[H ->]|(a & _ & H)];
  [ split; [done|];
    first [ by eapply dict_item_plain
          | by eapply isoformat_item_plain
          | by eapply afap_dates_plain ]
  | ].

Lemma verificar_body_raises afap w e w' :
  (let* afap := lift (afap_dates afap) in
   let* id := lift (dict_item afap "id") in
   let* numero_afap := lift (dict_item afap "numero_afap") in
   let* estado := lift (dict_item afap "estado") in
   let* titular_nombre := lift (dict_item afap "titular_nombre") in
   let* titular_cuit := lift (dict_item afap "titular_cuit") in
   let* domicilio_calle := lift (dict_item afap "domicilio_calle") in
   let* domicilio_altura := lift (dict_item afap "domicilio_altura") in
   let domicilio_local := dict_get afap "domicilio_local" in
   let* domicilio_localidad :=
     lift (dict_item afap "domicilio_localidad") in
   let* rubro_tipo := lift (dict_item afap "rubro_tipo") in
   let* rubro_descripcion := lift (dict_item afap "rubro_descripcion") in
   let* metros_cuadrados := lift (dict_item afap "metros_cuadrados") in
   let* fecha_solicitud := lift (isoformat_item afap "fecha_solicitud") in
   let* fecha_vencimiento :=
     if truthy (dict_get afap "fecha_vencimiento")
     then lift (isoformat_item afap "fecha_vencimiento")
     else ret VNone in
   let observaciones := dict_get afap "observaciones" in
   ret [ ("id", id);
         ("numero_afap", numero_afap);
         ("estado", estado);
         ("titular_nombre", titular_nombre);
         ("titular_cuit", titular_cuit);
         ("domicilio_calle", domicilio_calle);
         ("domicilio_altura", domicilio_altura);
         ("domicilio_local", domicilio_local);
         ("domicilio_localidad", domicilio_localidad);
         ("rubro_tipo", rubro_tipo);
         ("rubro_descripcion", rubro_descripcion);
         ("metros_cuadrados", metros_cuadrados);
         ("fecha_solicitud", fecha_solicitud);
         ("fecha_vencimiento", fecha_vencimiento);
         ("observaciones", observaciones) ]) w = (Raise e, w') →
  w' = w ∧ plain_exn e.
Proof.
  intros H.
  do 13 open_raise H.
  unfold bind in H.
  destruct (truthy _).
  - unfold lift in H.
    destruct (isoformat_item _ _) as [x|e0] eqn:E; [done|].
    injection H as <- <-. split; [done|]. by eapply isoformat_item_plain.
  - done.
Qed.

(** X7.  [verificar_certificado_publico] ends in one of three ways,
    whatever the store holds: it returns a view and leaves the world as
    it was; or no permit is on file under the id, and it raises 404 and
    leaves the world as it was; or the permit on file cannot be shown (a
    field is missing or is not a date), and it raises 500 and logs the
    error.  No other exception leaves it, and it never writes to the
    database. *)
Theorem verificar_outcomes afap_id w :
  let found := find_one [("id", Eq (VStr afap_id))] None (afap (db w)) in
  let out := verificar_certificado_publico afap_id w in
  (∃ resp, is_Some found ∧ out = (Ok resp, w)) ∨
  (found = None ∧
   out = (Raise (HTTPException 404
                   "Certificado no encontrado. Verificá el código QR."), w)) ∨
  (∃ e, plain_exn e ∧ is_Some found ∧
        out = (Raise (HTTPException 500 "Error al verificar el certificado"),
               mkWorld (db w)
                       (log w ++ [(ERROR, ErrorVerifyingCertificate e)])
                       (dispatched w))).
Proof.
  intros found out. subst out.
  unfold verificar_certificado_publico, try_except.
  erewrite bind_ok by reflexivity. cbn [coll]. fold found.
  destruct found as [d|] eqn:Hfound; [|right; left; done].
  assert (truthy_doc d = true) as ->.
  { subst found. unfold find_one in Hfound. cbn [project] in Hfound.
    rewrite fmap_Some in Hfound. destruct Hfound as (x & Hh & ->).
    apply find_head_split in Hh as (l1 & l2 & _ & _ & Hm).
    by apply matches_id_truthy in Hm. }
  cbn [negb].
  match goal with
  | |- context [match ?body w with _ => _ end] =>
      destruct (body w) as [[resp|e] w1] eqn:Hbody
  end.
  - left. apply verificar_body_keys in Hbody as [_ ->]. eauto.
  - right. right. apply verificar_body_raises in Hbody as [-> He].
    exists e. split; [done|]. split; [eauto|].
    by destruct e.
Qed.

Lemma verificar_stored_view afap_id estado obs a venc w :
  find_one [("id", Eq (VStr afap_id))] None (afap (db w))
  = Some (update_data estado obs ∪ stored_afap a venc) →
  verificar_certificado_publico afap_id w
  = (Ok (public_view a venc estado
           (observaciones_after obs (opt_str (AFAP.observaciones a)))), w).
Proof.
  intros Hd. unfold verificar_certificado_publico, try_except.
  erewrite bind_ok
    by (unfold db_find_one; cbn [coll]; rewrite Hd; reflexivity).
  cbv beta iota. unfold observaciones_after.
  destruct obs as [o|]; [destruct (bool_decide (o = "")) eqn:Ho|].
  all: unfold update_data; cbn [truthy]; try rewrite Ho; cbn [negb].
  all: vm_compute; reflexivity.
Qed.

(** X8.  A status change shows at once in the public view: after an
    inspector or administrador has set the state of a permit stored by
    [create_afap], [verificar_certificado_publico] returns that permit's
    number, titleholder, address, category, area and dates as filed, the
    new state, and the new observation if one was given. *)
Theorem verificar_after_update N afap_id estado obs u w a venc :
  User.role u ∈ [inspector; administrador] →
  find_one [("id", Eq (VStr afap_id))] None (afap (db w))
  = Some (stored_afap a venc) →
  let w' := (update_afap_estado N afap_id estado obs u w).2 in
  verificar_certificado_publico afap_id w'
  = (Ok (public_view a venc estado
           (observaciones_after obs (opt_str (AFAP.observaciones a)))), w').
Proof.
  intros Hrole Hd w'.
  destruct (update_afap_estado_commits N afap_id estado obs u w _
              (staff_not_ciudadano _ Hrole) Hd) as (_ & Hf & _).
  by apply verificar_stored_view.
Qed.

Lemma verificar_after_update_witness :
  let w' := (update_afap_estado EmailService.notifier "afap-a" "rechazado"
               (Some "Falta plano") Sample.maria Sample.w1).2 in
  verificar_certificado_publico "afap-a" w'
  = (Ok (public_view
           (new_afap Sample.payload Sample.ana 1000 1001 "afap-a" 1001)
           (1000 + timedelta_days 30) "rechazado"
           (observaciones_after (Some "Falta plano") (opt_str None))), w').
Proof.
  apply (verificar_after_update EmailService.notifier "afap-a" "rechazado"
           (Some "Falta plano") Sample.maria Sample.w1
           (new_afap Sample.payload Sample.ana 1000 1001 "afap-a" 1001)
           (1000 + timedelta_days 30)); compute_done.
Defined.

(** ** Numbering without gaps *)

Lemma foldr_max_spec n ns :
  foldr Z.max n ns ∈ n :: ns ∧ ∀ x, x ∈ n :: ns → x ≤ foldr Z.max n ns.
Proof.
  induction ns as [|k ns [IHin IHmax]]; simpl.
  - split; [by left|]. intros x Hx. apply list_elem_of_singleton in Hx. lia.
  - split.
    + destruct (Z.max_spec k (foldr Z.max n ns)) as [[_ ->]|[_ ->]].
      * apply elem_of_cons in IHin as [->|IHin]; [by left|].
        right. by right.
      * right. by left.
    + intros x Hx.
      apply elem_of_cons in Hx as [->|Hx].
      * specialize (IHmax n ltac:(by left)). lia.
      * apply elem_of_cons in Hx as [->|Hx]; [lia|].
        specialize (IHmax x ltac:(by right)). lia.
Qed.

Lemma next_number_of_nonempty c :
  numeros c ≠ [] → prior_max c (next_number_of c - 1).
Proof.
  unfold next_number_of, prior_max. destruct (numeros c) as [|n ns]; [done|].
  intros _. replace (foldr Z.max n ns + 1 - 1) with (foldr Z.max n ns) by lia.
  apply foldr_max_spec.
Qed.

Lemma next_number_of_snoc c d n :
  numero_of d = Some n → (∀ k, k ∈ numeros c → k < n) →
  next_number_of (c ++ [d]) = n + 1.
Proof.
  intros Hd Hlt. unfold next_number_of.
  rewrite numeros_app, (numeros_cons d []), Hd.
  change (numeros []) with (@nil Z).
  destruct (numeros c ++ [n]) as [|x xs] eqn:E.
  { by destruct (numeros c). }
  destruct (foldr_max_spec x xs) as [Hin Hmax]. rewrite <- E in Hin, Hmax.
  assert (foldr Z.max x xs = n) as ->; [|done].
  apply elem_of_app in Hin as [Hin|Hin].
  - specialize (Hlt _ Hin).
    specialize (Hmax n ltac:(apply elem_of_app; right; by left)). lia.
  - by apply list_elem_of_singleton in Hin.
Qed.

Lemma create_afap_next c w p u now utcnow uuid :
  afap (db w) = c → numbered c →
  ∃ d,
    afap (db (create_afap p u now utcnow uuid w).2) = c ++ [d] ∧
    numero_of d = Some (next_number_of c) ∧
    ∀ k, k ∈ numeros c → k < next_number_of c.
Proof.
  intros <- Hnum.
  destruct (create_afap_spec p u now utcnow uuid w Hnum)
    as (n & -> & Hempty & Hmax & Hlt).
  eexists. split; [reflexivity|].
  assert (n = next_number_of (afap (db w))) as <-.
  { destruct (numeros (afap (db w))) as [|x xs] eqn:E.
    - unfold next_number_of. rewrite E.
      destruct (afap (db w)) as [|d0 c0] eqn:Ec; [by apply Hempty|].
      apply Forall_cons in Hnum as [[k Hk] _].
      rewrite numeros_cons, Hk in E. done.
    - rewrite (Hmax (next_number_of (afap (db w)) - 1)); [lia|].
      apply next_number_of_nonempty. by rewrite E. }
  split; [apply numero_of_stored|done].
Qed.

(** X9.  Served one after another from a registry whose permits are
    numbered, the creates among any requests are given consecutive
    numbers with no gap: the registry's numbers afterwards are those it
    had, followed by as many consecutive integers as there were creates,
    starting one above the greatest number on file (at 1001 when the
    registry was empty). *)
Theorem numero_afap_no_gaps N R rs w :
  numbered (afap (db w)) →
  numeros (afap (db (serve_all N R rs w)))
  = numeros (afap (db w))
    ++ seqZ (next_number_of (afap (db w)))
            (Z.of_nat (length (List.filter is_create rs))).
Proof.
  revert w. induction rs as [|r rs IH]; intros w Hnum.
  { simpl. by rewrite app_nil_r. }
  cbn [serve_all foldl]. fold (serve_all N R rs (serve N R r w)).
  destruct r; cbn [List.filter is_create serve].
  - destruct (create_afap_next _ w afap_data current_user now utcnow uuid
                eq_refl Hnum) as (d & Hc & Hd & Hlt).
    rewrite IH.
    2:{ rewrite Hc. apply numbered_app. split; [done|].
        constructor; [eauto|constructor]. }
    rewrite Hc, (next_number_of_snoc _ _ _ Hd Hlt).
    rewrite numeros_app, (numeros_cons d []), Hd, <- app_assoc.
    f_equal. cbn [length].
    rewrite Nat2Z.inj_succ. rewrite (seqZ_cons _ (Z.succ _)) by lia.
    change (numeros []) with (@nil Z). cbn [app]. do 2 f_equal; lia.
  - pose proof (update_afap_estado_numbers N afap_id estado observaciones
                  current_user w) as E.
    assert (numeros (afap (db (update_afap_estado N afap_id estado
                                 observaciones current_user w).2))
            = numeros (afap (db w))) as En
      by by rewrite !numeros_fmap, E.
    rewrite IH.
    2:{ apply (proj2 (numbered_fmap _)). rewrite E.
        by apply (proj1 (numbered_fmap _)). }
    unfold next_number_of. by rewrite En.
  - pose proof (keeps_download_certificado R afap_id current_user utcnow
                  uuid w) as E.
    rewrite IH by by rewrite E. unfold next_number_of. by rewrite E.
Qed.

Lemma numero_afap_no_gaps_witness :
  numeros (afap (db (serve_all EmailService.notifier Sample.renderer
                               Sample.requests Sample.w0)))
  = numeros (afap (db Sample.w0)) ++ seqZ 1001 2.
Proof.
  apply (numero_afap_no_gaps EmailService.notifier Sample.renderer
           Sample.requests Sample.w0).
  constructor.
Defined.

(** ** The shipped notifier *)

(** X10.  With the notifier of [email_service.py], which simulates the
    delivery and never raises, a status change whose owner is found logs
    informational lines only: the three lines of the certificate e-mail
    and the handler's confirmation when the permit becomes approved, then
    the two lines of the status notification.  No error is logged. *)
Theorem update_afap_estado_logs afap_id estado obs u w d us
    nombre apellido email numero :
  User.role u ∈ [inspector; administrador] →
  find_one [("id", Eq (VStr afap_id))] None (afap (db w)) = Some d →
  d !! "numero_afap" = Some numero →
  owner_record d w = Some us →
  truthy_doc us = true →
  us !! "nombre" = Some nombre →
  us !! "apellido" = Some apellido →
  us !! "email" = Some email →
  let old := dict_get d "estado" in
  let name := [Fmt nombre; Lit " "; Fmt apellido] in
  let lines :=
    (if approving old estado
     then [ (INFO, EmailSimulado email); (INFO, EmailAsunto numero);
            (INFO, EmailUsuario name); (INFO, CertificateEmailSent numero) ]
     else [])
    ++ [ (INFO, NotificacionEnviada email);
         (INFO, NotificacionCambio numero old estado) ] in
  log (update_afap_estado EmailService.notifier afap_id estado obs u w).2
  = log w ++ lines ∧
  Forall (λ l : LogRecord, l.1 = INFO) lines.
Proof.
  intros Hrole Hd Hnum Hus Ht Hn Ha He old name lines.
  subst lines name old.
  rewrite (update_afap_estado_run _ _ _ _ _ _ d
             (staff_not_ciudadano _ Hrole) Hd).
  assert (owner_record d (updated_world afap_id estado obs w) = Some us)
    as Hus' by by rewrite owner_record_updated.
  rewrite (after_update_world _ _ _ _ _ _ Hus').
  destruct (notify_world EmailService.notifier d (dict_get d "estado")
              estado obs us
              (updated_world afap_id estado obs w)
              nombre apellido email numero Ht Hn Ha He Hnum) as [_ Hlog].
  split.
  - rewrite Hlog. cbn [updated_world log].
    by destruct (approving _ estado).
  - destruct (approving _ estado); repeat constructor.
Qed.

Lemma update_afap_estado_logs_witness :
  let name := [Fmt (VStr "Ana"); Lit " "; Fmt (VStr "Martinez")] in
  let email := VStr "comerciante@email.com" in
  log (update_afap_estado EmailService.notifier "afap-a" "aprobado" None
                          Sample.maria Sample.w1).2
  = log Sample.w1
    ++ (if approving (dict_get Sample.d1 "estado") "aprobado"
        then [ (INFO, EmailSimulado email); (INFO, EmailAsunto (VInt 1001));
               (INFO, EmailUsuario name);
               (INFO, CertificateEmailSent (VInt 1001)) ]
        else [])
    ++ [ (INFO, NotificacionEnviada email);
         (INFO, NotificacionCambio (VInt 1001) (dict_get Sample.d1 "estado")
                                   "aprobado") ].
Proof.
  intros name email.
  apply (update_afap_estado_logs "afap-a" "aprobado" None Sample.maria
           Sample.w1 Sample.d1 Sample.ana_contact (VStr "Ana")
           (VStr "Martinez") (VStr "comerciante@email.com") (VInt 1001)).
  - compute_done.
  - compute_done.
  - vm_compute. reflexivity.
  - compute_done.
  - vm_compute. reflexivity.
  - vm_compute. reflexivity.
  - vm_compute. reflexivity.
  - vm_compute. reflexivity.
Defined.

(** ** From filing to certificate *)

Lemma find_one_snoc_fresh q c d :
  find_one q None c = None → matches q d = true →
  find_one q None (c ++ [d]) = Some d.
Proof.
  unfold find_one. cbn [project]. rewrite !option_fmap_id.
  intros Hc Hd. apply find_head_app; [|done]. by apply find_head_None.
Qed.

Lemma dump_id a : AFAP_model_dump a !! "id" = Some (VStr (AFAP.id a)).
Proof. vm_compute. reflexivity. Qed.

Lemma stored_afap_id a venc :
  stored_afap a venc !! "id" = Some (VStr (AFAP.id a)).
Proof.
  unfold stored_afap. rewrite !lookup_insert_ne by done. apply dump_id.
Qed.

Lemma stored_afap_user_id a venc :
  stored_afap a venc !! "user_id" = Some (VStr (AFAP.user_id a)).
Proof.
  unfold stored_afap. rewrite !lookup_insert_ne by done. apply dump_user_id.
Qed.

Lemma stored_afap_estado a venc :
  stored_afap a venc !! "estado" = Some (VStr (estado_str (AFAP.estado a))).
Proof.
  unfold stored_afap. rewrite !lookup_insert_ne by done. apply dump_estado.
Qed.

Lemma stored_afap_numero a venc :
  stored_afap a venc !! "numero_afap" = Some (VInt (AFAP.numero_afap a)).
Proof.
  unfold stored_afap. rewrite !lookup_insert_ne by done.
  apply dump_numero_afap.
Qed.

Lemma matches_id_stored a venc :
  matches [("id", Eq (VStr (AFAP.id a)))] (stored_afap a venc) = true.
Proof.
  rewrite matches_single. cbn [cond_matches]. rewrite stored_afap_id.
  cbn [field_eq]. by apply bool_decide_eq_true_2.
Qed.

(** The permit [create_afap] files, the world it leaves, and where the
    permit is found in it when its id is fresh. *)
Lemma create_afap_files p u now utcnow uuid w :
  numbered (afap (db w)) →
  let a := new_afap p u now utcnow uuid (next_number_of (afap (db w))) in
  let d := stored_afap a (now + timedelta_days 30) in
  create_afap p u now utcnow uuid w
  = (Ok a, mkWorld (set_coll c_afap (afap (db w) ++ [d]) (db w))
                   (log w) (dispatched w)) ∧
  (find_one [("id", Eq (VStr uuid))] None (afap (db w)) = None →
   find_one [("id", Eq (VStr uuid))] None
            (afap (db (create_afap p u now utcnow uuid w).2)) = Some d).
Proof.
  intros Hnum a d.
  destruct (create_afap_spec p u now utcnow uuid w Hnum)
    as (n & Hrun & Hempty & Hmax & Hlt).
  assert (n = next_number_of (afap (db w))) as ->.
  { destruct (numeros (afap (db w))) as [|x xs] eqn:E.
    - unfold next_number_of. rewrite E.
      destruct (afap (db w)) as [|d0 c0] eqn:Ec; [by apply Hempty|].
      apply Forall_cons in Hnum as [[k Hk] _].
      rewrite numeros_cons, Hk in E. done.
    - rewrite (Hmax (next_number_of (afap (db w)) - 1)); [lia|].
      apply next_number_of_nonempty. by rewrite E. }
  split; [exact Hrun|].
  intros Hfresh. rewrite Hrun. cbn [snd db set_coll afap].
  apply find_one_snoc_fresh; [done|]. apply (matches_id_stored a).
Qed.

(** X11.  From filing to certificate.  A user files a permit under a
    fresh id on a registry whose permits are numbered; an inspector or
    administrador then approves it.  Before the approval the owner's
    download is refused with 400.  After it, the permit on file is the
    one filed, now "aprobado"; the owner's download returns whatever the
    renderer makes of it, named after the number the permit was given; a
    ciudadano other than the owner is refused with 403; and the public
    view shows the permit as "aprobado". *)
Theorem permit_lifecycle N R p owner staff other now utcnow uuid t uuid' w :
  numbered (afap (db w)) →
  find_one [("id", Eq (VStr uuid))] None (afap (db w)) = None →
  User.role staff ∈ [inspector; administrador] →
  User.role other = ciudadano →
  User.id other ≠ User.id owner →
  let n := next_number_of (afap (db w)) in
  let a := new_afap p owner now utcnow uuid n in
  let venc := now + timedelta_days 30 in
  let w1 := (create_afap p owner now utcnow uuid w).2 in
  let w2 := (update_afap_estado N uuid "aprobado" None staff w1).2 in
  let d2 := update_data "aprobado" None ∪ stored_afap a venc in
  (download_certificado R uuid owner t uuid' w1).1
  = Raise (HTTPException 400
             "El AFAP debe estar aprobado para generar el certificado") ∧
  find_one [("id", Eq (VStr uuid))] None (afap (db w2)) = Some d2 ∧
  (∀ pdf, R d2 = Ok pdf →
     (download_certificado R uuid owner t uuid' w2).1
     = Ok (mkCertificateResponse pdf "application/pdf"
             [ Lit "attachment; filename=HabilitacionPrecaria_";
               Fmt (VInt n); Lit "_Argentina.pdf" ])) ∧
  (download_certificado R uuid other t uuid' w2).1
  = Raise (HTTPException 403 "No autorizado") ∧
  (verificar_certificado_publico uuid w2).1
  = Ok (public_view a venc "aprobado" VNone).
Proof.
  intros Hnum Hfresh Hstaff Hother Hne n a venc w1 w2 d2.
  destruct (create_afap_files p owner now utcnow uuid w Hnum) as [_ Hf1].
  specialize (Hf1 Hfresh). fold n a venc w1 in Hf1.
  destruct (update_afap_estado_commits N uuid "aprobado" None staff w1 _
              (staff_not_ciudadano _ Hstaff) Hf1) as (_ & Hf2 & _).
  fold w2 d2 in Hf2.
  assert (d2 !! "estado" = Some (VStr "aprobado")) as He2
    by apply updated_estado.
  assert (d2 !! "numero_afap" = Some (VInt n)) as Hn2.
  { subst d2. rewrite updated_other by done. apply stored_afap_numero. }
  assert (d2 !! "user_id" = Some (VStr (User.id owner))) as Hu2.
  { subst d2. rewrite updated_other by done. apply stored_afap_user_id. }
  split; [|split; [exact Hf2|split; [|split]]].
  - unfold download_certificado.
    erewrite bind_ok
      by (unfold db_find_one; cbn [coll]; rewrite Hf1; reflexivity).
    cbv beta iota.
    rewrite (lookup_truthy _ _ _ (stored_afap_estado a venc)). cbn [negb].
    item_ok (stored_afap_estado a venc).
    by rewrite bool_decide_eq_true_2.
  - intros pdf Hpdf.
    rewrite (download_certificado_allowed R uuid owner t uuid' w2 d2 n
               Hf2 He2 Hn2 (λ _, Hu2)).
    unfold try_except. item_ok Hpdf. by item_ok Hn2.
  - unfold download_certificado.
    erewrite bind_ok
      by (unfold db_find_one; cbn [coll]; rewrite Hf2; reflexivity).
    cbv beta iota. rewrite (lookup_truthy _ _ _ He2). cbn [negb].
    item_ok He2. rewrite bool_decide_eq_false_2 by (by intros []).
    rewrite Hother, bool_decide_eq_true_2 by done.
    erewrite bind_ok.
    2:{ item_ok Hu2. reflexivity. }
    rewrite bool_decide_eq_true_2; [done|].
    intros [= E]. by apply Hne.
  - by rewrite (verificar_stored_view uuid "aprobado" None a venc w2 Hf2).
Qed.

Lemma permit_lifecycle_witness :
  let n := next_number_of (afap (db Sample.w1)) in
  let a := new_afap Sample.payload Sample.juan 5000 5001 "afap-j" n in
  let w1 := (create_afap Sample.payload Sample.juan 5000 5001 "afap-j"
                         Sample.w1).2 in
  let w2 := (update_afap_estado EmailService.notifier "afap-j" "aprobado"
                                None Sample.carlos w1).2 in
  n = 1002 ∧
  (download_certificado Sample.renderer "afap-j" Sample.juan 6000 "log-1"
                        w2).1
  = Ok (mkCertificateResponse [Byte.x25; Byte.x50] "application/pdf"
          [ Lit "attachment; filename=HabilitacionPrecaria_";
            Fmt (VInt n); Lit "_Argentina.pdf" ]) ∧
  (download_certificado Sample.renderer "afap-j" Sample.ana 6000 "log-1"
                        w2).1
  = Raise (HTTPException 403 "No autorizado").
Proof.
  intros n a w1 w2.
  split; [vm_compute; reflexivity|].
  destruct (permit_lifecycle EmailService.notifier Sample.renderer
              Sample.payload Sample.juan Sample.carlos Sample.ana 5000 5001
              "afap-j" 6000 "log-1" Sample.w1)
    as (_ & _ & H3 & H4 & _).
  - unfold numbered. apply (bool_decide_unpack _). vm_compute. exact I.
  - compute_done.
  - compute_done.
  - reflexivity.
  - compute_done.
  - split; [by apply H3|exact H4].
Defined.

(** ** Filing and listing *)

Lemma payload_keys_not_dates p :
  Forall (λ kv : string * value,
            kv.1 ≠ "fecha_solicitud" ∧ kv.1 ≠ "fecha_vencimiento")
         (AFAPCreate_fields p).
Proof. unfold AFAPCreate_fields. repeat constructor; done. Qed.

Lemma dump_keys_NoDup a :
  NoDup ((AFAPCreate_fields (AFAP.base a) ++ AFAP_own_fields a).*1).
Proof. apply (bool_decide_unpack _). vm_compute. exact I. Qed.

(** X12.  [create_afap] carries the payload through unchanged: the
    permit it files holds every field of the request under its name with
    the value sent, the fresh id, the second clock reading as
    [fecha_solicitud], and no observation and no inspector yet. *)
Theorem create_afap_stores_payload p u now utcnow uuid w :
  numbered (afap (db w)) →
  ∃ d,
    afap (db (create_afap p u now utcnow uuid w).2) = afap (db w) ++ [d] ∧
    (∀ k v, (k, v) ∈ AFAPCreate_fields p → d !! k = Some v) ∧
    d !! "id" = Some (VStr uuid) ∧
    d !! "fecha_solicitud" = Some (VIso utcnow) ∧
    d !! "observaciones" = Some VNone ∧
    d !! "inspector_asignado" = Some VNone ∧
    size d = 40%nat.
Proof.
  intros Hnum.
  destruct (create_afap_files p u now utcnow uuid w Hnum) as [-> _].
  eexists. split; [reflexivity|].
  set (a := new_afap p u now utcnow uuid (next_number_of (afap (db w)))).
  split; [|split; [|split; [|split; [|split]]]].
  - intros k v Hkv.
    pose proof (payload_keys_not_dates p) as Hk.
    eapply Forall_forall in Hk; [|exact Hkv]. destruct Hk as [Hk1 Hk2].
    unfold stored_afap. rewrite !lookup_insert_ne by done.
    unfold AFAP_model_dump. apply elem_of_list_to_map_1.
    + apply dump_keys_NoDup.
    + apply elem_of_app. by left.
  - apply (stored_afap_id a).
  - unfold stored_afap. rewrite lookup_insert_ne by done.
    by rewrite lookup_insert_eq.
  - unfold stored_afap. rewrite !lookup_insert_ne by done.
    vm_compute. reflexivity.
  - unfold stored_afap. rewrite !lookup_insert_ne by done.
    vm_compute. reflexivity.
  - vm_compute. reflexivity.
Qed.

Lemma create_afap_stores_payload_witness :
  ∃ d,
    afap (db (create_afap Sample.payload Sample.ana 1000 1001 "afap-a"
                          Sample.w0).2) = afap (db Sample.w0) ++ [d] ∧
    d !! "rubro_descripcion" = Some (VStr "Boutique de ropa") ∧
    d !! "solicitante_email" = Some (VStr "comerciante@email.com") ∧
    d !! "id" = Some (VStr "afap-a").
Proof.
  destruct (create_afap_stores_payload Sample.payload Sample.ana 1000 1001
              "afap-a" Sample.w0) as (d & Hc & Hp & Hid & _).
  - constructor.
  - exists d. split; [exact Hc|]. split; [|split; [|exact Hid]].
    + apply Hp. unfold AFAPCreate_fields. do 17 right. left.
    + apply Hp. unfold AFAPCreate_fields. do 4 right. left.
Defined.

Lemma visible_afaps_snoc u c d :
  owned_by (User.id u) d →
  visible_afaps u (c ++ [d]) = visible_afaps u c ++ [d].
Proof.
  intros Hd. unfold visible_afaps. destruct (User.role u); [|done..].
  rewrite filter_app. f_equal. rewrite filter_cons_True by done.
  by rewrite filter_nil.
Qed.

Lemma stored_afap_not_text a venc :
  not_text "fecha_solicitud" (stored_afap a venc)
  ∧ not_text "fecha_vencimiento" (stored_afap a venc).
Proof.
  unfold stored_afap. split; intros s.
  - rewrite lookup_insert_ne by done. by rewrite lookup_insert_eq.
  - by rewrite lookup_insert_eq.
Qed.

Lemma response_model_list_snoc {A} (V : doc → result A) l d :
  response_model_list V (l ++ [d])
  = match response_model_list V l, V d with
    | Ok models, Ok a => Ok (models ++ [a])
    | _, _ => Raise (OtherError "ResponseValidationError")
    end.
Proof.
  unfold response_model_list. rewrite validate_each_snoc.
  destruct (validate_each V l) as [models|e]; cbn [and_then]; [|done].
  by destruct (V d).
Qed.

(** X13.  Filing, then listing.  A user files a permit on a well-formed
    registry.  With fewer than 1000 permits visible to the user before,
    [get_afaps] then puts to the response model the list of before with
    the new permit at its end, its two dates read back as the instants
    that were stored: when the list of before was answered and the model
    accepts the new permit, the answer is the models of before followed
    by the new permit's; when the list of before failed validation, or the
    new permit does, the request fails.  With 1000 or more visible
    before, the answer is what it was and the new permit is not in it. *)
Theorem create_then_list V p u now utcnow uuid w :
  numbered (afap (db w)) →
  Forall (not_array "user_id") (afap (db w)) →
  Forall (λ d, not_text "fecha_solicitud" d ∧ not_text "fecha_vencimiento" d)
         (afap (db w)) →
  let w1 := (create_afap p u now utcnow uuid w).2 in
  let seen := visible_afaps u (afap (db w)) in
  let d :=
    stored_afap (new_afap p u now utcnow uuid
                          (next_number_of (afap (db w))))
                (now + timedelta_days 30) in
  let before := (get_afaps V u w).1 in
  let after := (get_afaps V u w1).1 in
  ((length seen < 1000)%nat →
   (∀ models a,
      before = Ok models → V (parse_dates afap_date_fields d) = Ok a →
      after = Ok (models ++ [a])) ∧
   (∀ e, before = Raise e → after = Raise e) ∧
   (∀ e, V (parse_dates afap_date_fields d) = Raise e →
         after = Raise (OtherError "ResponseValidationError")))
  ∧
  ((1000 ≤ length seen)%nat → after = before) ∧
  parse_dates afap_date_fields d !! "id" = Some (VStr uuid) ∧
  parse_dates afap_date_fields d !! "fecha_solicitud"
  = Some (VDatetime utcnow) ∧
  parse_dates afap_date_fields d !! "fecha_vencimiento"
  = Some (VDatetime (now + timedelta_days 30)).
Proof.
  intros Hnum Harr Hdates w1 seen d before after.
  destruct (create_afap_files p u now utcnow uuid w Hnum) as [Hrun _].
  fold d in Hrun.
  assert (afap (db w1) = afap (db w) ++ [d]) as Hc.
  { subst w1. by rewrite Hrun. }
  assert (owned_by (User.id u) d) as Hown by apply stored_afap_user_id.
  assert (before
          = response_model_list V
              (parse_dates afap_date_fields <$> take 1000 seen)) as Hbefore.
  { subst before. by rewrite get_afaps_eval. }
  assert (after
          = response_model_list V
              (parse_dates afap_date_fields <$> take 1000 (seen ++ [d])))
    as Hafter.
  { subst after. rewrite get_afaps_eval; rewrite Hc.
    - by rewrite visible_afaps_snoc.
    - apply Forall_app. split; [done|]. apply Forall_singleton.
      intros l. by rewrite Hown.
    - apply Forall_app. split; [done|]. apply Forall_singleton.
      apply stored_afap_not_text. }
  clearbody before after.
  split; [|split; [|split; [|split]]].
  - intros Hlen.
    assert (after
            = match before, V (parse_dates afap_date_fields d) with
              | Ok models, Ok a => Ok (models ++ [a])
              | _, _ => Raise (OtherError "ResponseValidationError")
              end) as ->.
    { rewrite Hafter, Hbefore.
      rewrite (take_ge (seen ++ [d]))
        by (rewrite length_app; cbn [length]; lia).
      rewrite (take_ge seen) by lia.
      rewrite fmap_app. apply response_model_list_snoc. }
    split; [|split].
    + by intros models a -> ->.
    + intros e He. rewrite He. f_equal.
      rewrite Hbefore in He. unfold response_model_list in He.
      destruct (validate_each _ _); [done|]. by injection He.
    + intros e ->. by destruct before.
  - intros Hlen. rewrite Hafter, Hbefore.
    by rewrite take_app_le by lia.
  - unfold parse_dates, afap_date_fields. cbn [foldl].
    rewrite !lookup_alter_ne by done. apply stored_afap_id.
  - unfold parse_dates, afap_date_fields. cbn [foldl].
    rewrite lookup_alter_ne by done.
    rewrite lookup_alter_eq. unfold d, stored_afap.
    rewrite lookup_insert_ne by done. by rewrite lookup_insert_eq.
  - unfold parse_dates, afap_date_fields. cbn [foldl].
    rewrite lookup_alter_eq, lookup_alter_ne by done.
    unfold d, stored_afap. by rewrite lookup_insert_eq.
Qed.

Lemma create_then_list_witness :
  (get_afaps AFAP_of_doc Sample.ana
     (create_afap Sample.payload Sample.ana 5000 5001 "afap-c" Sample.w1).2).1
  = Ok ([AFAP.mk Sample.payload "afap-a" 1001 "user-4" pendiente 1001
                 (Some (1000 + timedelta_days 30)) None None]
        ++ [AFAP.mk Sample.payload "afap-c"
                    (next_number_of (afap (db Sample.w1))) "user-4"
                    pendiente 5001 (Some (5000 + timedelta_days 30))
                    None None]) ∧
  (get_afaps AFAP_of_doc Sample.ana
     (create_afap Sample.payload Sample.ana 5000 5001 "afap-c"
                  Sample.w_archivado).2).1
  = Raise (OtherError "ResponseValidationError").
Proof.
  split.
  - destruct (create_then_list AFAP_of_doc Sample.payload Sample.ana 5000
                5001 "afap-c" Sample.w1) as [H _].
    + unfold numbered. apply (bool_decide_unpack _). vm_compute. exact I.
    + compute_done.
    + compute_done.
    + destruct H as (H & _); [vm_compute; lia|].
      apply H; [vm_compute; reflexivity|apply AFAP_of_doc_stored].
  - destruct (create_then_list AFAP_of_doc Sample.payload Sample.ana 5000
                5001 "afap-c" Sample.w_archivado) as [H _].
    + unfold numbered. apply (bool_decide_unpack _). vm_compute. exact I.
    + compute_done.
    + compute_done.
    + destruct H as (_ & H & _); [vm_compute; lia|].
      apply H. vm_compute. reflexivity.
Defined.

(** ** [get_afap] *)

(** X14.  The access rule of [get_afap].  With no permit on file under
    the id it raises 404.  For a ciudadano and a permit filed under
    another user it raises 403, whatever the permit's state.  For every
    other requester (the owner, an inspector, an administrador) and a
    permit whose dates can be read, it hands the permit, its dates read
    back, to the model's validation and returns what that returns.  In
    no case does it change the world. *)
Theorem get_afap_access V afap_id u w :
  let found := find_one [("id", Eq (VStr afap_id))] None (afap (db w)) in
  (found = None →
   get_afap V afap_id u w
   = (Raise (HTTPException 404 "AFAP no encontrado"), w)) ∧
  (∀ d owner,
     found = Some d → User.role u = ciudadano →
     d !! "user_id" = Some owner → owner ≠ VStr (User.id u) →
     get_afap V afap_id u w = (Raise (HTTPException 403 "No autorizado"), w))
  ∧
  (∀ d,
     found = Some d → may_fetch u d →
     not_text "fecha_solicitud" d → not_text "fecha_vencimiento" d →
     get_afap V afap_id u w = (V (parse_dates afap_date_fields d), w)).
Proof.
  intros found. subst found. split; [|split].
  - intros Hd. unfold get_afap.
    erewrite bind_ok
      by (unfold db_find_one; cbn [coll]; rewrite Hd; reflexivity).
    done.
  - intros d owner Hd Hrole Ho Hne. unfold get_afap.
    erewrite bind_ok
      by (unfold db_find_one; cbn [coll]; rewrite Hd; reflexivity).
    cbv beta iota. rewrite (lookup_truthy _ _ _ Ho). cbn [negb].
    rewrite Hrole, bool_decide_eq_true_2 by done.
    erewrite bind_ok.
    2:{ item_ok Ho. reflexivity. }
    by rewrite bool_decide_eq_true_2.
  - intros d Hd Hu H1 H2. unfold get_afap.
    erewrite bind_ok
      by (unfold db_find_one; cbn [coll]; rewrite Hd; reflexivity).
    cbv beta iota.
    assert (truthy_doc d = true) as ->.
    { unfold find_one in Hd. cbn [project] in Hd.
      rewrite option_fmap_id in Hd.
      apply find_head_split in Hd as (l1 & l2 & _ & _ & Hm).
      by apply matches_id_truthy in Hm. }
    cbn [negb].
    erewrite bind_ok.
    2:{ destruct (decide (User.role u = ciudadano)) as [Hc|Hc].
        - rewrite bool_decide_eq_true_2 by done.
          item_ok (Hu Hc). unfold ret.
          rewrite bool_decide_eq_false_2 by (by intros []). reflexivity.
        - rewrite bool_decide_eq_false_2 by done. reflexivity. }
    cbv beta iota.
    erewrite bind_ok
      by (unfold lift; rewrite afap_dates_parse by done; reflexivity).
    reflexivity.
Qed.

Lemma get_afap_access_witness :
  get_afap rejecting_validator "afap-zzz" Sample.juan Sample.w1
  = (Raise (HTTPException 404 "AFAP no encontrado"), Sample.w1) ∧
  get_afap rejecting_validator "afap-a" Sample.juan Sample.w1
  = (Raise (HTTPException 403 "No autorizado"), Sample.w1) ∧
  get_afap rejecting_validator "afap-a" Sample.ana Sample.w1
  = (rejecting_validator (parse_dates afap_date_fields Sample.d1),
     Sample.w1).
Proof.
  split; [|split].
  - apply (get_afap_access rejecting_validator "afap-zzz" Sample.juan
             Sample.w1). compute_done.
  - apply (proj1 (proj2 (get_afap_access rejecting_validator "afap-a"
                           Sample.juan Sample.w1))
             Sample.d1 (VStr "user-4")).
    + compute_done.
    + reflexivity.
    + vm_compute. reflexivity.
    + discriminate.
  - apply (proj2 (proj2 (get_afap_access rejecting_validator "afap-a"
                           Sample.ana Sample.w1)) Sample.d1).
    + compute_done.
    + intros _. vm_compute. reflexivity.
    + compute_done.
    + compute_done.
Defined.

(** ** [create_inspeccion] *)

Lemma stored_inspeccion_fields data utcnow uuid :
  let i := stored_inspeccion data utcnow uuid in
  i !! "afap_id" = Some (VStr (InspeccionCreate.afap_id data)) ∧
  i !! "inspector_id" = Some (VStr (InspeccionCreate.inspector_id data)) ∧
  i !! "id" = Some (VStr uuid) ∧
  i !! "estado" = Some (VStr "programada") ∧
  i !! "fecha_programada"
  = Some (VIso (InspeccionCreate.fecha_programada data)) ∧
  i !! "created_at" = Some (VIso utcnow) ∧
  i !! "fecha_realizada" = Some VNone ∧
  i !! "resultado" = Some VNone.
Proof.
  unfold stored_inspeccion.
  split; [|split; [|split; [|split; [|split; [|split; [|split]]]]]].
  - rewrite !lookup_insert_ne by done. vm_compute. reflexivity.
  - rewrite !lookup_insert_ne by done. vm_compute. reflexivity.
  - rewrite !lookup_insert_ne by done. vm_compute. reflexivity.
  - rewrite !lookup_insert_ne by done. vm_compute. reflexivity.
  - rewrite lookup_insert_ne by done. by rewrite lookup_insert_eq.
  - by rewrite lookup_insert_eq.
  - rewrite !lookup_insert_ne by done. vm_compute. reflexivity.
  - rewrite !lookup_insert_ne by done. vm_compute. reflexivity.
Qed.

Lemma create_inspeccion_staff data u utcnow uuid w :
  User.role u ≠ ciudadano →
  create_inspeccion data u utcnow uuid w
  = (Ok (Inspeccion.mk data uuid programada None None None utcnow),
     mkWorld (set_coll c_inspecciones
                (inspecciones (db w) ++ [stored_inspeccion data utcnow uuid])
                (db w))
             (log w) (dispatched w)).
Proof.
  intros Hrole. unfold create_inspeccion.
  rewrite role_staff by done.
  cbn [negb].
  set (dump := Inspeccion_model_dump _).
  assert (dump !! "fecha_programada"
          = Some (VDatetime (InspeccionCreate.fecha_programada data))) as H1
    by (vm_compute; reflexivity).
  assert (dump !! "created_at" = Some (VDatetime utcnow)) as H2
    by (vm_compute; reflexivity).
  assert (dump !! "fecha_realizada" = Some VNone) as H3
    by (vm_compute; reflexivity).
  unfold bind, lift, isoformat_item, dict_get.
  rewrite H1. rewrite lookup_insert_ne by done. rewrite H2.
  rewrite !lookup_insert_ne by done. rewrite H3.
  reflexivity.
Qed.

(** X15.  Who may schedule an inspection, and what is checked.  A
    ciudadano is refused with 403 and nothing is stored.  For an inspector
    or an administrador the call succeeds on every store: neither the
    permit named by [afap_id] nor the user named by [inspector_id] is
    looked up.  One document is appended to the inspections, in state
    "programada", with no result and no date of completion, its two dates
    as ISO text; permits, users, download log, log lines and outbox are
    as before. *)
Theorem create_inspeccion_schedules data u utcnow uuid w :
  let i := stored_inspeccion data utcnow uuid in
  let out := create_inspeccion data u utcnow uuid w in
  (User.role u = ciudadano →
   out = (Raise (HTTPException 403 "No autorizado"), w)) ∧
  (User.role u ≠ ciudadano →
   out.1 = Ok (Inspeccion.mk data uuid programada None None None utcnow) ∧
   inspecciones (db out.2) = inspecciones (db w) ++ [i] ∧
   afap (db out.2) = afap (db w) ∧
   users (db out.2) = users (db w) ∧
   download_logs (db out.2) = download_logs (db w) ∧
   log out.2 = log w ∧ dispatched out.2 = dispatched w ∧
   i !! "afap_id" = Some (VStr (InspeccionCreate.afap_id data)) ∧
   i !! "inspector_id" = Some (VStr (InspeccionCreate.inspector_id data)) ∧
   i !! "estado" = Some (VStr "programada") ∧
   i !! "fecha_programada"
   = Some (VIso (InspeccionCreate.fecha_programada data)) ∧
   i !! "fecha_realizada" = Some VNone ∧
   i !! "resultado" = Some VNone).
Proof.
  intros i out. split.
  - intros Hrole. subst out. unfold create_inspeccion.
    by rewrite (proj2 (role_not_staff u) Hrole).
  - intros Hrole. subst out. rewrite create_inspeccion_staff by done.
    destruct (stored_inspeccion_fields data utcnow uuid)
      as (Ha & Hi & _ & He & Hp & _ & Hr & Hres).
    cbn [fst snd db log dispatched set_coll inspecciones afap users
         download_logs].
    split_and!; first [assumption | reflexivity].
Qed.

Lemma create_inspeccion_schedules_witness :
  create_inspeccion visita Sample.ana 6000 "insp-9" Sample.w_few
  = (Raise (HTTPException 403 "No autorizado"), Sample.w_few) ∧
  find_one [("id", Eq (VStr "afap-zzz"))] None (afap (db Sample.w_few))
  = None ∧
  inspecciones
    (db (create_inspeccion visita Sample.maria 6000 "insp-9" Sample.w_few).2)
  = inspecciones (db Sample.w_few) ++ [stored_inspeccion visita 6000 "insp-9"].
Proof.
  split; [|split].
  - apply (create_inspeccion_schedules visita Sample.ana 6000 "insp-9"
             Sample.w_few). reflexivity.
  - compute_done.
  - apply (proj2 (create_inspeccion_schedules visita Sample.maria 6000
                    "insp-9" Sample.w_few)). discriminate.
Defined.

Lemma visible_inspecciones_filter cap u permits l :
  visible_inspecciones cap u permits l = filter (may_see cap u permits) l.
Proof.
  unfold visible_inspecciones.
  destruct (User.role u) eqn:Hr.
  - apply list_filter_iff. intros i. unfold may_see. by rewrite Hr.
  - apply list_filter_iff. intros i. unfold may_see. by rewrite Hr.
  - induction l as [|x l IH]; [done|].
    rewrite filter_cons_True, <- IH; [done|].
    unfold may_see. by rewrite Hr.
Qed.

Lemma visible_inspecciones_snoc cap u permits l i :
  visible_inspecciones cap u permits (l ++ [i])
  = visible_inspecciones cap u permits l
    ++ (if decide (may_see cap u permits i) then [i] else []).
Proof.
  rewrite !visible_inspecciones_filter, filter_app. reflexivity.
Qed.

(** X16.  Scheduling, then listing.  After an inspector or administrador
    has scheduled an inspection on a well-formed store, a requester who
    may see it (the inspector it is assigned to, an administrador, the
    ciudadano among whose first 1000 permits the inspected one is) is
    listed the inspections of before with the new one at the end,
    provided fewer than 1000 were visible before.  A requester who may not
    see it is listed what they were listed before: so an inspection of a
    permit that is not on file reaches no ciudadano. *)
Theorem create_inspeccion_then_list data staff utcnow uuid r w :
  User.role staff ≠ ciudadano →
  Forall (not_array "user_id") (afap (db w)) →
  Forall (has_str "id") (afap (db w)) →
  Forall (λ i, not_array "inspector_id" i ∧ not_array "afap_id" i)
         (inspecciones (db w)) →
  Forall (λ i, not_text "fecha_programada" i ∧ not_text "fecha_realizada" i
               ∧ not_text "created_at" i)
         (inspecciones (db w)) →
  let w1 := (create_inspeccion data staff utcnow uuid w).2 in
  let i := stored_inspeccion data utcnow uuid in
  let seen :=
    visible_inspecciones 1000 r (afap (db w)) (inspecciones (db w)) in
  (may_see 1000 r (afap (db w)) i → (length seen < 1000)%nat →
   (get_inspecciones r w1).1
   = Ok (parse_dates inspeccion_date_fields <$> (seen ++ [i]))) ∧
  (¬ may_see 1000 r (afap (db w)) i →
   (get_inspecciones r w1).1 = (get_inspecciones r w).1).
Proof.
  intros Hstaff Huid Hid Harr Hdates w1 i seen.
  assert (w1 = mkWorld (set_coll c_inspecciones (inspecciones (db w) ++ [i])
                          (db w)) (log w) (dispatched w)) as Hw1.
  { subst w1. by rewrite create_inspeccion_staff. }
  destruct (stored_inspeccion_fields data utcnow uuid)
    as (Ha & Hi & _ & _ & Hp & Hc & Hr & _). fold i in Ha, Hi, Hp, Hc, Hr.
  assert (get_inspecciones r w1
          = (Ok (parse_dates inspeccion_date_fields
                   <$> take 1000
                         (seen ++ (if decide (may_see 1000 r (afap (db w)) i)
                                   then [i] else []))), w1)) as Hlist.
  { rewrite get_inspecciones_eval; rewrite Hw1;
      cbn [db set_coll afap inspecciones]; [|done|done|..].
    - by rewrite visible_inspecciones_snoc.
    - apply Forall_app. split; [done|]. apply Forall_singleton.
      split; intros l; [by rewrite Hi|by rewrite Ha].
    - apply Forall_app. split; [done|]. apply Forall_singleton.
      split; [|split]; intros s; [by rewrite Hp|by rewrite Hr|by rewrite Hc]. }
  split.
  - intros Hsee Hlen. rewrite Hlist. cbn [fst].
    rewrite decide_True by done.
    rewrite take_ge; [done|]. rewrite length_app. cbn [length]. lia.
  - intros Hsee. rewrite Hlist, get_inspecciones_eval by done. cbn [fst].
    rewrite decide_False by done. by rewrite app_nil_r.
Qed.

Lemma create_inspeccion_then_list_witness :
  let w1 :=
    (create_inspeccion visita Sample.maria 6000 "insp-9" Sample.w_few).2 in
  (get_inspecciones Sample.maria w1).1
  = Ok (parse_dates inspeccion_date_fields
          <$> (visible_inspecciones 1000 Sample.maria
                 (afap (db Sample.w_few)) (inspecciones (db Sample.w_few))
               ++ [stored_inspeccion visita 6000 "insp-9"])) ∧
  (get_inspecciones Sample.ana w1).1
  = (get_inspecciones Sample.ana Sample.w_few).1.
Proof.
  assert (User.role Sample.maria ≠ ciudadano) as H0 by discriminate.
  assert (Forall (not_array "user_id") (afap (db Sample.w_few))) as H1
    by compute_done.
  assert (Forall (has_str "id") (afap (db Sample.w_few))) as H2
    by compute_done.
  assert (Forall (λ i, not_array "inspector_id" i ∧ not_array "afap_id" i)
            (inspecciones (db Sample.w_few))) as H3 by compute_done.
  assert (Forall (λ i, not_text "fecha_programada" i
                       ∧ not_text "fecha_realizada" i
                       ∧ not_text "created_at" i)
            (inspecciones (db Sample.w_few))) as H4 by compute_done.
  split.
  - apply (proj1 (create_inspeccion_then_list visita Sample.maria 6000
                    "insp-9" Sample.maria Sample.w_few H0 H1 H2 H3 H4)).
    + compute_done.
    + compute_done.
  - apply (proj2 (create_inspeccion_then_list visita Sample.maria 6000
                    "insp-9" Sample.ana Sample.w_few H0 H1 H2 H3 H4)).
    compute_done.
Defined.

(** ** [get_download_history] *)

#[local] Instance key_ge_total key : Total (key_ge key).
Proof.
  intros a b. unfold key_ge, key_ltb.
  destruct (key a), (key b); try (by left); try (by right).
  destruct (Z.ltb_spec z z0); [right|by left].
  apply Z.ltb_ge. lia.
Qed.

#[local] Instance key_ge_trans key : Transitive (key_ge key).
Proof.
  intros a b c. unfold key_ge, key_ltb.
  destruct (key a), (key b), (key c); try done.
  rewrite !Z.ltb_ge. lia.
Qed.

Lemma sort_desc_sorted key c :
  StronglySorted (key_ge key) (sort_desc key c) ∧ sort_desc key c ≡ₚ c.
Proof.
  split.
  - apply (StronglySorted_merge_sort _).
  - apply merge_sort_Permutation.
Qed.

Lemma find_field_str k s c :
  Forall (not_array k) c →
  find [(k, Eq (VStr s))] c = filter (λ d, d !! k = Some (VStr s)) c.
Proof.
  intros H. unfold find. apply filter_bool_decide.
  eapply Forall_impl; [exact H|]. intros d Hd. by apply matches_str.
Qed.

Lemma has_iso_not_text k d : has_iso k d → not_text k d.
Proof.
  unfold has_iso, iso_field. intros [t Ht] s Hs. by rewrite Hs in Ht.
Qed.

Lemma log_dates_parse d :
  has_iso "timestamp" d → log_dates d = Ok (parse_dates ["timestamp"] d).
Proof.
  intros H. unfold log_dates.
  by rewrite fromisoformat_field_alter by by apply has_iso_not_text.
Qed.

(** What an administrador is returned by [get_download_history] on a log
    whose entries hold no array as [afap_id] and an ISO date as
    [timestamp]. *)
Lemma get_download_history_eval afap_id u w :
  User.role u = administrador →
  Forall (not_array "afap_id") (download_logs (db w)) →
  Forall (has_iso "timestamp") (download_logs (db w)) →
  get_download_history afap_id u w
  = (Ok (parse_dates ["timestamp"]
           <$> take 100 (sort_desc (iso_field "timestamp")
                           (filter (for_permit afap_id)
                                   (download_logs (db w))))), w).
Proof.
  intros Hrole Harr Hiso. unfold get_download_history.
  rewrite bool_decide_eq_false_2 by (rewrite Hrole; by intros []).
  erewrite bind_ok by reflexivity.
  unfold lift, to_list. cbn [coll].
  rewrite find_field_str by done.
  erewrite for_each_fmap; [reflexivity|].
  apply Forall_take, Forall_forall. intros d Hd.
  apply log_dates_parse.
  rewrite (proj2 (sort_desc_sorted _ _)) in Hd.
  apply list_elem_of_filter in Hd as [_ Hd].
  by eapply Forall_forall in Hiso.
Qed.

(** X17.  The download history of a permit.  Anyone but an administrador,
    an inspector too, is refused with 403.  An administrador is returned,
    of the entries logged for that permit, the 100 latest, latest first,
    their timestamps read back: the entries returned, followed by the
    entries left out, are a rearrangement of the permit's entries in
    descending order of timestamp.  The world is left as it was. *)
Theorem get_download_history_latest afap_id u w :
  Forall (not_array "afap_id") (download_logs (db w)) →
  Forall (has_iso "timestamp") (download_logs (db w)) →
  let mine := filter (for_permit afap_id) (download_logs (db w)) in
  (User.role u ≠ administrador →
   get_download_history afap_id u w
   = (Raise (HTTPException 403 "No autorizado"), w)) ∧
  (User.role u = administrador →
   ∃ shown rest,
     get_download_history afap_id u w
     = (Ok (parse_dates ["timestamp"] <$> shown), w) ∧
     shown ++ rest ≡ₚ mine ∧
     length shown = (length mine `min` 100)%nat ∧
     StronglySorted (key_ge (iso_field "timestamp")) (shown ++ rest)).
Proof.
  intros Harr Hiso mine. split.
  - intros Hrole. unfold get_download_history.
    by rewrite bool_decide_eq_true_2.
  - intros Hrole.
    exists (take 100 (sort_desc (iso_field "timestamp") mine)),
           (drop 100 (sort_desc (iso_field "timestamp") mine)).
    destruct (sort_desc_sorted (iso_field "timestamp") mine) as [Hs Hp].
    split; [by apply get_download_history_eval|].
    rewrite take_drop. split; [done|]. split; [|done].
    rewrite length_take, Hp. lia.
Qed.

Lemma get_download_history_latest_witness :
  let w :=
    (download_certificado Sample.renderer "afap-a" Sample.ana 3000 "log-1"
                          Sample.w2).2 in
  get_download_history "afap-a" Sample.maria w
  = (Raise (HTTPException 403 "No autorizado"), w) ∧
  ∃ shown rest,
    get_download_history "afap-a" Sample.carlos w
    = (Ok (parse_dates ["timestamp"] <$> shown), w) ∧
    shown ++ rest ≡ₚ filter (for_permit "afap-a") (download_logs (db w)) ∧
    length shown
    = (length (filter (for_permit "afap-a") (download_logs (db w)))
       `min` 100)%nat ∧
    StronglySorted (key_ge (iso_field "timestamp")) (shown ++ rest).
Proof.
  intros w.
  assert (Forall (not_array "afap_id") (download_logs (db w))) as H1
    by compute_done.
  assert (Forall (has_iso "timestamp") (download_logs (db w))) as H2
    by compute_done.
  split.
  - apply (proj1 (get_download_history_latest "afap-a" Sample.maria w H1 H2)).
    discriminate.
  - apply (proj2 (get_download_history_latest "afap-a" Sample.carlos w H1 H2)).
    reflexivity.
Defined.

Lemma download_certificado_records R afap_id u utcnow uuid w d n :
  find_one [("id", Eq (VStr afap_id))] None (afap (db w)) = Some d →
  d !! "estado" = Some (VStr "aprobado") →
  d !! "numero_afap" = Some (VInt n) →
  may_fetch u d →
  download_logs (db (download_certificado R afap_id u utcnow uuid w).2)
  = download_logs (db w) ++ [download_log_doc afap_id n u utcnow uuid].
Proof.
  intros Hd He Hn Hu.
  rewrite (download_certificado_allowed R afap_id u utcnow uuid w d n
             Hd He Hn Hu).
  match goal with
  | |- download_logs (db (?m ?w').2) = _ =>
      assert (keeps download_logs m) as Hk; [|rewrite (Hk w')]
  end.
  { keeps_tac. }
  cbn [db set_coll download_logs]. reflexivity.
Qed.

Lemma download_log_doc_fields afap_id n u utcnow uuid :
  let e := download_log_doc afap_id n u utcnow uuid in
  e !! "afap_id" = Some (VStr afap_id) ∧
  e !! "timestamp" = Some (VIso utcnow) ∧
  e !! "user_id" = Some (VStr (User.id u)).
Proof.
  unfold download_log_doc. split; [|split].
  - rewrite lookup_insert_ne by done. vm_compute. reflexivity.
  - by rewrite lookup_insert_eq.
  - rewrite lookup_insert_ne by done. vm_compute. reflexivity.
Qed.

(** X18.  Downloading, then the history.  Once a requester who may fetch
    an approved certificate has asked for it, an administrador finds the
    download in the permit's history, the instant of the request as its
    timestamp, as long as fewer than 100 downloads of that permit were on
    record before.  This holds whatever the renderer did: a download whose
    rendering failed is in the history as well. *)
Theorem download_then_history R afap_id u admin utcnow uuid w d n :
  find_one [("id", Eq (VStr afap_id))] None (afap (db w)) = Some d →
  d !! "estado" = Some (VStr "aprobado") →
  d !! "numero_afap" = Some (VInt n) →
  may_fetch u d →
  User.role admin = administrador →
  Forall (not_array "afap_id") (download_logs (db w)) →
  Forall (has_iso "timestamp") (download_logs (db w)) →
  (length (filter (for_permit afap_id) (download_logs (db w))) < 100)%nat →
  let w1 := (download_certificado R afap_id u utcnow uuid w).2 in
  let e := parse_dates ["timestamp"]
             (download_log_doc afap_id n u utcnow uuid) in
  ∃ l,
    (get_download_history afap_id admin w1).1 = Ok l ∧
    e ∈ l ∧
    e !! "timestamp" = Some (VDatetime utcnow) ∧
    e !! "user_id" = Some (VStr (User.id u)) ∧
    length l
    = S (length (filter (for_permit afap_id) (download_logs (db w)))).
Proof.
  intros Hd He Hn Hu Hadmin Harr Hiso Hlen w1 e.
  pose proof (download_certificado_records R afap_id u utcnow uuid w d n
                Hd He Hn Hu) as Hlogs. fold w1 in Hlogs.
  destruct (download_log_doc_fields afap_id n u utcnow uuid)
    as (Ha & Ht & Hui).
  set (entry := download_log_doc afap_id n u utcnow uuid) in *.
  rewrite get_download_history_eval; [|done|rewrite Hlogs..].
  2:{ apply Forall_app. split; [done|]. apply Forall_singleton.
      intros l. by rewrite Ha. }
  2:{ apply Forall_app. split; [done|]. apply Forall_singleton.
      unfold has_iso, iso_field. by rewrite Ht. }
  cbn [fst]. rewrite Hlogs, filter_app.
  rewrite (filter_cons_True _ entry) by exact Ha. rewrite filter_nil.
  set (mine := filter (for_permit afap_id) (download_logs (db w))) in *.
  destruct (sort_desc_sorted (iso_field "timestamp") (mine ++ [entry]))
    as [_ Hp].
  rewrite take_ge.
  2:{ rewrite Hp, length_app. cbn [length]. lia. }
  eexists. split; [reflexivity|]. split; [|split; [|split]].
  - apply list_elem_of_fmap. exists entry. split; [done|].
    rewrite Hp. set_solver.
  - unfold e, parse_dates. cbn [foldl]. by rewrite lookup_alter_eq, Ht.
  - unfold e, parse_dates. cbn [foldl].
    by rewrite lookup_alter_ne by done.
  - rewrite length_fmap, Hp, length_app. cbn [length]. lia.
Qed.

Lemma download_then_history_witness :
  ∃ l,
    (get_download_history "afap-a" Sample.carlos
       (download_certificado (λ _, Raise (OtherError "reportlab")) "afap-a"
                             Sample.ana 3000 "log-1" Sample.w2).2).1
    = Ok l ∧
    parse_dates ["timestamp"]
      (download_log_doc "afap-a" 1001 Sample.ana 3000 "log-1") ∈ l ∧
    parse_dates ["timestamp"]
      (download_log_doc "afap-a" 1001 Sample.ana 3000 "log-1") !! "timestamp"
    = Some (VDatetime 3000) ∧
    parse_dates ["timestamp"]
      (download_log_doc "afap-a" 1001 Sample.ana 3000 "log-1") !! "user_id"
    = Some (VStr (User.id Sample.ana)) ∧
    length l
    = S (length (filter (for_permit "afap-a")
                        (download_logs (db Sample.w2)))).
Proof.
  apply (download_then_history (λ _, Raise (OtherError "reportlab"))
           "afap-a" Sample.ana Sample.carlos 3000 "log-1" Sample.w2
           (update_data "aprobado" None ∪ Sample.d1) 1001).
  - compute_done.
  - vm_compute. reflexivity.
  - vm_compute. reflexivity.
  - intros _. vm_compute. reflexivity.
  - reflexivity.
  - compute_done.
  - compute_done.
  - vm_compute. lia.
Defined.

(** ** [get_dashboard_stats] *)

Lemma estados_partition c :
  (length (filter (estado_is "pendiente") c)
   + length (filter (estado_is "aprobado") c)
   + length (filter (estado_is "rechazado") c)
   + length (filter (estado_is "inspeccion") c)
   + length (filter uncounted c))%nat
  = length c.
Proof.
  induction c as [|d c IH]; [done|].
  rewrite !filter_cons.
  destruct (decide (estado_is "pendiente" d)) as [H1|H1];
  destruct (decide (estado_is "aprobado" d)) as [H2|H2];
  destruct (decide (estado_is "rechazado" d)) as [H3|H3];
  destruct (decide (estado_is "inspeccion" d)) as [H4|H4];
  destruct (decide (uncounted d)) as [H5|H5];
  try (unfold estado_is in *; congruence);
  try (exfalso; unfold uncounted in H5; tauto);
  cbn [length]; lia.
Qed.

Lemma length_filter_zero {A} (P : A → Prop) `{∀ x, Decision (P x)} l :
  length (filter P l) = 0%nat ↔ Forall (λ x, ¬ P x) l.
Proof.
  induction l as [|x l IH]; [done|].
  rewrite filter_cons, Forall_cons. destruct (decide (P x)).
  - cbn [length]. split; [lia|tauto].
  - rewrite IH. tauto.
Qed.

Lemma find_estado s c :
  Forall (not_array "estado") c →
  find [("estado", Eq (VStr s))] c = filter (estado_is s) c.
Proof.
  intros H. rewrite find_field_str by done. by apply list_filter_iff.
Qed.

Lemma afap_dates_has_iso d :
  has_iso "fecha_solicitud" d → not_text "fecha_vencimiento" d →
  afap_dates d = Ok (parse_dates afap_date_fields d).
Proof. intros H1 H2. apply afap_dates_parse; [by apply has_iso_not_text|done]. Qed.

(** What an inspector or administrador is returned by
    [get_dashboard_stats] on a registry whose permits hold no array as
    [estado] and readable dates. *)
Lemma get_dashboard_stats_eval u w :
  Forall (not_array "estado") (afap (db w)) →
  Forall (has_iso "fecha_solicitud") (afap (db w)) →
  Forall (not_text "fecha_vencimiento") (afap (db w)) →
  User.role u ≠ ciudadano →
  let c := afap (db w) in
  let count s := Z.of_nat (length (filter (estado_is s) c)) in
  get_dashboard_stats u w
  = (Ok (mkDashboardStats
           (Z.of_nat (length c)) (count "pendiente") (count "aprobado")
           (count "rechazado") (count "inspeccion")
           (Z.of_nat (length (find [("estado", Eq (VStr "programada"))]
                                   (inspecciones (db w)))))
           (Z.of_nat (length (find [("estado", Eq (VStr "completada"))]
                                   (inspecciones (db w)))))
           (Z.of_nat (length (users (db w))))
           (parse_dates afap_date_fields
              <$> take 5 (sort_desc (iso_field "fecha_solicitud") c))), w).
Proof.
  intros Harr Hiso Hvenc Hrole c count. subst count.
  destruct (sort_desc_sorted (iso_field "fecha_solicitud") c) as [_ Hp].
  unfold get_dashboard_stats. rewrite role_staff by done. cbn [negb].
  unfold bind, db_count_documents, db_find_sorted_to_list, lift, ret,
    to_list.
  cbn [coll]. fold c. rewrite !find_all.
  rewrite !(find_estado _ c) by done.
  erewrite for_each_fmap; [reflexivity|].
  apply Forall_take, Forall_forall. intros d Hd. rewrite Hp in Hd.
  apply afap_dates_has_iso; by eapply Forall_forall in Hd.
Qed.

(** X19.  The dashboard.  A ciudadano is refused with 403.  For an
    inspector or an administrador, on a registry whose permits hold no
    array as [estado] and readable dates: the total is the number of
    permits on file; the four counts by state and the number of permits
    in none of the four states add up to the total, so the four counts
    add up to the total exactly when every permit is in one of the four
    states; the users' total is the number of user records; the recent
    permits are the five latest by date of filing, latest first, or all
    of them when there are fewer.  The world is left as it was. *)
Theorem get_dashboard_stats_counts u w :
  Forall (not_array "estado") (afap (db w)) →
  Forall (has_iso "fecha_solicitud") (afap (db w)) →
  Forall (not_text "fecha_vencimiento") (afap (db w)) →
  (User.role u = ciudadano →
   get_dashboard_stats u w = (Raise (HTTPException 403 "No autorizado"), w))
  ∧
  (User.role u ≠ ciudadano →
   ∃ s shown rest,
     get_dashboard_stats u w = (Ok s, w) ∧
     total_afaps s = Z.of_nat (length (afap (db w))) ∧
     pendientes s + aprobados s + rechazados s + en_inspeccion s
     + Z.of_nat (length (filter uncounted (afap (db w))))
     = total_afaps s ∧
     (pendientes s + aprobados s + rechazados s + en_inspeccion s
      = total_afaps s
      ↔ Forall (λ d, ¬ uncounted d) (afap (db w))) ∧
     total_usuarios s = Z.of_nat (length (users (db w))) ∧
     recent_afaps s = (parse_dates afap_date_fields <$> shown) ∧
     length shown = (length (afap (db w)) `min` 5)%nat ∧
     shown ++ rest ≡ₚ afap (db w) ∧
     StronglySorted (key_ge (iso_field "fecha_solicitud")) (shown ++ rest)).
Proof.
  intros Harr Hiso Hvenc. split.
  - intros Hrole. unfold get_dashboard_stats.
    by rewrite (proj2 (role_not_staff u) Hrole).
  - intros Hrole.
    set (c := afap (db w)) in *.
    set (sorted := sort_desc (iso_field "fecha_solicitud") c).
    destruct (sort_desc_sorted (iso_field "fecha_solicitud") c) as [Hs Hp].
    fold sorted in Hs, Hp.
    eexists _, (take 5 sorted), (drop 5 sorted).
    split; [by apply get_dashboard_stats_eval|].
    cbn [total_afaps pendientes aprobados rechazados en_inspeccion
         total_usuarios recent_afaps].
    fold c.
    pose proof (estados_partition c) as Hsum.
    split; [done|]. split; [lia|]. split.
    { rewrite <- (length_filter_zero uncounted). lia. }
    split; [done|]. split; [done|]. split.
    { rewrite length_take, Hp. lia. }
    rewrite take_drop. done.
Qed.

Lemma get_dashboard_stats_counts_witness :
  get_dashboard_stats Sample.ana w_vencido
  = (Raise (HTTPException 403 "No autorizado"), w_vencido) ∧
  ∃ s shown rest,
    get_dashboard_stats Sample.maria w_vencido = (Ok s, w_vencido) ∧
    total_afaps s = Z.of_nat (length (afap (db w_vencido))) ∧
    pendientes s + aprobados s + rechazados s + en_inspeccion s
    + Z.of_nat (length (filter uncounted (afap (db w_vencido))))
    = total_afaps s ∧
    (pendientes s + aprobados s + rechazados s + en_inspeccion s
     = total_afaps s
     ↔ Forall (λ d, ¬ uncounted d) (afap (db w_vencido))) ∧
    total_usuarios s = Z.of_nat (length (users (db w_vencido))) ∧
    recent_afaps s = (parse_dates afap_date_fields <$> shown) ∧
    length shown = (length (afap (db w_vencido)) `min` 5)%nat ∧
    shown ++ rest ≡ₚ afap (db w_vencido) ∧
    StronglySorted (key_ge (iso_field "fecha_solicitud")) (shown ++ rest).
Proof.
  assert (Forall (not_array "estado") (afap (db w_vencido))) as H1
    by compute_done.
  assert (Forall (has_iso "fecha_solicitud") (afap (db w_vencido))) as H2
    by compute_done.
  assert (Forall (not_text "fecha_vencimiento") (afap (db w_vencido))) as H3
    by compute_done.
  split.
  - apply (proj1 (get_dashboard_stats_counts Sample.ana w_vencido H1 H2 H3)).
    reflexivity.
  - apply (proj2 (get_dashboard_stats_counts Sample.maria w_vencido H1 H2 H3)).
    discriminate.
Defined.

(** X20.  A state outside the four, on the dashboard.  Once an inspector
    or administrador has set a permit to a state that is none of
    "pendiente", "aprobado", "rechazado", "inspeccion" (which
    [update_afap_estado] accepts), the four counts of the dashboard add up
    to less than its total: the permit is counted in the total and in no
    state. *)
Theorem dashboard_after_unlisted_estado N afap_id estado obs u viewer w d :
  User.role u ≠ ciudadano →
  User.role viewer ≠ ciudadano →
  find_one [("id", Eq (VStr afap_id))] None (afap (db w)) = Some d →
  estado ∉ ["pendiente"; "aprobado"; "rechazado"; "inspeccion"] →
  Forall (not_array "estado") (afap (db w)) →
  Forall (has_iso "fecha_solicitud") (afap (db w)) →
  Forall (not_text "fecha_vencimiento") (afap (db w)) →
  let w1 := (update_afap_estado N afap_id estado obs u w).2 in
  ∃ s,
    (get_dashboard_stats viewer w1).1 = Ok s ∧
    total_afaps s = Z.of_nat (length (afap (db w))) ∧
    pendientes s + aprobados s + rechazados s + en_inspeccion s
    < total_afaps s.
Proof.
  intros Hu Hv Hd He Harr Hiso Hvenc w1.
  destruct (update_afap_estado_commits N afap_id estado obs u w d Hu Hd)
    as ((l1 & l2 & Hc & Hc1) & _). fold w1 in Hc1.
  set (d1 := update_data estado obs ∪ d) in *.
  assert (d1 !! "estado" = Some (VStr estado)) as Hest
    by apply updated_estado.
  assert (uncounted d1) as Hun.
  { unfold uncounted, estado_is. rewrite Hest.
    split_and!; intros [= ->]; apply He; set_solver. }
  rewrite Hc in Harr, Hiso, Hvenc.
  apply Forall_app in Harr as [Ha1 Ha2%Forall_cons_1].
  apply Forall_app in Hiso as [Hi1 Hi2%Forall_cons_1].
  apply Forall_app in Hvenc as [Hv1 Hv2%Forall_cons_1].
  rewrite get_dashboard_stats_eval; [|rewrite Hc1..|done].
  2:{ apply Forall_app. split; [done|]. apply Forall_cons. split; [|tauto].
      intros l. by rewrite Hest. }
  2:{ apply Forall_app. split; [done|]. apply Forall_cons. split; [|tauto].
      unfold has_iso, iso_field, d1. rewrite updated_other by done.
      apply Hi2. }
  2:{ apply Forall_app. split; [done|]. apply Forall_cons. split; [|tauto].
      intros s. unfold d1. rewrite updated_other by done. apply Hv2. }
  eexists. split; [reflexivity|].
  cbn [fst total_afaps pendientes aprobados rechazados en_inspeccion].
  pose proof (estados_partition (afap (db w1))) as Hsum.
  assert (0 < length (filter uncounted (afap (db w1))))%nat as Hpos.
  { rewrite Hc1, filter_app, filter_cons_True, length_app by done.
    cbn [length]. lia. }
  assert (length (afap (db w1)) = length (afap (db w))) as Hlen.
  { rewrite Hc, Hc1, !length_app. reflexivity. }
  split; lia.
Qed.

Lemma dashboard_after_unlisted_estado_witness :
  ∃ s,
    (get_dashboard_stats Sample.carlos
       (update_afap_estado EmailService.notifier "afap-a" "vencido" None
                           Sample.maria Sample.w1).2).1 = Ok s ∧
    total_afaps s = Z.of_nat (length (afap (db Sample.w1))) ∧
    pendientes s + aprobados s + rechazados s + en_inspeccion s
    < total_afaps s.
Proof.
  apply (dashboard_after_unlisted_estado EmailService.notifier "afap-a"
           "vencido" None Sample.maria Sample.carlos Sample.w1 Sample.d1).
  - discriminate.
  - discriminate.
  - compute_done.
  - compute_done.
  - compute_done.
  - compute_done.
  - compute_done.
Defined.

(** ** [register] *)

Lemma matches_field_truthy k s d :
  matches [(k, Eq (VStr s))] d = true → truthy_doc d = true.
Proof.
  rewrite matches_single. cbn [cond_matches]. intros H.
  destruct (d !! k) as [v|] eqn:E; [by eapply lookup_truthy|done].
Qed.

(** A record holds the string under the field: the lookup finds a
    record. *)
Lemma find_one_taken k s c :
  Some (VStr s) ∈ field_of k c →
  not_found (find_one [(k, Eq (VStr s))] None c) = false.
Proof.
  intros Hin. apply list_elem_of_fmap in Hin as (d & Hd & Hin).
  assert (matches [(k, Eq (VStr s))] d = true) as Hm.
  { rewrite matches_single. cbn [cond_matches]. rewrite <- Hd.
    cbn [field_eq]. by apply bool_decide_eq_true_2. }
  unfold find_one. cbn [project]. rewrite option_fmap_id.
  destruct (head (find [(k, Eq (VStr s))] c)) as [x|] eqn:Hh.
  - apply find_head_split in Hh as (_ & _ & _ & _ & Hx).
    cbn [not_found]. by rewrite (matches_field_truthy _ _ _ Hx).
  - apply find_head_None in Hh.
    eapply Forall_forall in Hh; [|exact Hin]. congruence.
Qed.

(** No record holds the string under the field, nor an array: the
    lookup finds nothing. *)
Lemma find_one_free k s c :
  Forall (not_array k) c → Some (VStr s) ∉ field_of k c →
  find_one [(k, Eq (VStr s))] None c = None.
Proof.
  intros Harr Hout. unfold find_one. rewrite find_field_str by done.
  assert (filter (λ d : doc, d !! k = Some (VStr s)) c = []) as ->; [|done].
  apply nil_length_inv, length_filter_zero, Forall_forall.
  intros d Hd Hk. apply Hout, list_elem_of_fmap. by exists d.
Qed.

Lemma has_str_not_array k d : has_str k d → not_array k d.
Proof. intros [s Hs] l. by rewrite Hs. Qed.

Lemma stored_user_fields A data utcnow uuid :
  let d := stored_user A data utcnow uuid in
  d !! "cuit_cuil" = Some (VStr (UserCreate.cuit_cuil data)) ∧
  d !! "email" = Some (VStr (UserCreate.email data)) ∧
  d !! "nombre" = Some (VStr (UserCreate.nombre data)) ∧
  d !! "apellido" = Some (VStr (UserCreate.apellido data)) ∧
  d !! "role" = Some (VStr (role_str (UserCreate.role data))) ∧
  d !! "id" = Some (VStr uuid) ∧
  d !! "created_at" = Some (VIso utcnow) ∧
  d !! "hashed_password"
  = Some (VStr (get_password_hash A (UserCreate.password data))) ∧
  d !! "password" = None.
Proof.
  unfold stored_user.
  split_and!; try (rewrite lookup_insert_ne by done; vm_compute; reflexivity).
  by rewrite lookup_insert_eq.
Qed.

Lemma register_cuit_taken A data utcnow uuid w :
  Some (VStr (UserCreate.cuit_cuil data)) ∈ field_of "cuit_cuil" (users (db w)) →
  register A data utcnow uuid w
  = (Raise (HTTPException 400 "El CUIT/CUIL ya está registrado"), w).
Proof.
  intros Hin. unfold register, bind, db_find_one. cbn [coll].
  by rewrite (find_one_taken _ _ _ Hin).
Qed.

Lemma register_email_taken A data utcnow uuid w :
  Forall (not_array "cuit_cuil") (users (db w)) →
  Some (VStr (UserCreate.cuit_cuil data)) ∉ field_of "cuit_cuil" (users (db w)) →
  Some (VStr (UserCreate.email data)) ∈ field_of "email" (users (db w)) →
  register A data utcnow uuid w
  = (Raise (HTTPException 400 "El email ya está registrado"), w).
Proof.
  intros Harr Hout Hin. unfold register, bind, db_find_one. cbn [coll].
  rewrite (find_one_free _ _ _ Harr Hout). cbn [not_found negb].
  by rewrite (find_one_taken _ _ _ Hin).
Qed.

Lemma register_fresh A data utcnow uuid w :
  Forall (not_array "cuit_cuil") (users (db w)) →
  Forall (not_array "email") (users (db w)) →
  Some (VStr (UserCreate.cuit_cuil data)) ∉ field_of "cuit_cuil" (users (db w)) →
  Some (VStr (UserCreate.email data)) ∉ field_of "email" (users (db w)) →
  register A data utcnow uuid w
  = (Ok (Token.mk (create_access_token A (UserCreate.cuit_cuil data)
                                       (ACCESS_TOKEN_EXPIRE_MINUTES A))
                  "bearer" (registered data utcnow uuid)),
     mkWorld (set_coll c_users
                (users (db w) ++ [stored_user A data utcnow uuid]) (db w))
             (log w) (dispatched w)).
Proof.
  intros Hc He Hoc Hoe. unfold register, bind, db_find_one. cbn [coll].
  rewrite (find_one_free _ _ _ Hc Hoc). cbn [not_found negb].
  rewrite (find_one_free _ _ _ He Hoe). cbn [not_found negb].
  set (dump := UserInDB_model_dump _).
  assert (dump !! "created_at" = Some (VDatetime utcnow)) as H1
    by (vm_compute; reflexivity).
  unfold lift, isoformat_item. rewrite H1. reflexivity.
Qed.

(** X21.  A registration that is refused.  When a user record already
    holds the CUIT/CUIL of the request, [register] raises 400
    "El CUIT/CUIL ya está registrado"; when none does but one holds its
    email, it raises 400 "El email ya está registrado".  Either way the
    world is left as it was: no record is written and no password is
    hashed into the store. *)
Theorem register_conflict A data utcnow uuid w :
  (Some (VStr (UserCreate.cuit_cuil data))
     ∈ field_of "cuit_cuil" (users (db w)) →
   register A data utcnow uuid w
   = (Raise (HTTPException 400 "El CUIT/CUIL ya está registrado"), w)) ∧
  (Forall (not_array "cuit_cuil") (users (db w)) →
   Some (VStr (UserCreate.cuit_cuil data))
     ∉ field_of "cuit_cuil" (users (db w)) →
   Some (VStr (UserCreate.email data)) ∈ field_of "email" (users (db w)) →
   register A data utcnow uuid w
   = (Raise (HTTPException 400 "El email ya está registrado"), w)).
Proof.
  split; [apply register_cuit_taken|apply register_email_taken].
Qed.

Lemma register_conflict_witness :
  register demo_auth eva_cuit 9001 "user-6" w_eva
  = (Raise (HTTPException 400 "El CUIT/CUIL ya está registrado"), w_eva) ∧
  register demo_auth eva_email 9002 "user-7" w_eva
  = (Raise (HTTPException 400 "El email ya está registrado"), w_eva).
Proof.
  split.
  - apply (proj1 (register_conflict demo_auth eva_cuit 9001 "user-6" w_eva)).
    compute_done.
  - apply (proj2 (register_conflict demo_auth eva_email 9002 "user-7" w_eva)).
    + compute_done.
    + compute_done.
    + compute_done.
Defined.

(** X22.  A registration that is accepted.  When no user record holds the
    CUIT/CUIL or the email of the request (nor an array under either),
    [register] appends one record and returns a bearer token for the
    CUIT/CUIL, signed for the configured lifetime, with the user.  The
    record holds the hash of the password and no field [password]; it
    holds the role the request asked for, whichever it is, an
    administrador's too; it has the name and email the notifications
    read.  Permits, inspections, download log, log lines and outbox are as
    before. *)
Theorem register_stores A data utcnow uuid w :
  Forall (not_array "cuit_cuil") (users (db w)) →
  Forall (not_array "email") (users (db w)) →
  Some (VStr (UserCreate.cuit_cuil data))
    ∉ field_of "cuit_cuil" (users (db w)) →
  Some (VStr (UserCreate.email data)) ∉ field_of "email" (users (db w)) →
  let out := register A data utcnow uuid w in
  let d := stored_user A data utcnow uuid in
  out.1 = Ok (Token.mk (create_access_token A (UserCreate.cuit_cuil data)
                                            (ACCESS_TOKEN_EXPIRE_MINUTES A))
                       "bearer" (registered data utcnow uuid)) ∧
  users (db out.2) = users (db w) ++ [d] ∧
  afap (db out.2) = afap (db w) ∧
  inspecciones (db out.2) = inspecciones (db w) ∧
  download_logs (db out.2) = download_logs (db w) ∧
  log out.2 = log w ∧ dispatched out.2 = dispatched w ∧
  d !! "hashed_password"
  = Some (VStr (get_password_hash A (UserCreate.password data))) ∧
  d !! "password" = None ∧
  d !! "role" = Some (VStr (role_str (UserCreate.role data))) ∧
  d !! "id" = Some (VStr uuid) ∧
  d !! "created_at" = Some (VIso utcnow) ∧
  contactable d.
Proof.
  intros Hc He Hoc Hoe out d. subst out.
  rewrite register_fresh by done.
  destruct (stored_user_fields A data utcnow uuid)
    as (Hcu & Hem & Hno & Hap & Hro & Hid & Hca & Hha & Hpw).
  fold d in Hcu, Hem, Hno, Hap, Hro, Hid, Hca, Hha, Hpw.
  cbn [fst snd db log dispatched set_coll inspecciones afap users
       download_logs].
  split_and!; try first [assumption | reflexivity].
  unfold contactable. by rewrite Hno, Hap, Hem.
Qed.

Lemma register_stores_witness :
  let data := eva in
  let out := register demo_auth data 9000 "user-5" Sample.w0 in
  let d := stored_user demo_auth data 9000 "user-5" in
  out.1 = Ok (Token.mk (create_access_token demo_auth
                          (UserCreate.cuit_cuil data)
                          (ACCESS_TOKEN_EXPIRE_MINUTES demo_auth))
                       "bearer" (registered data 9000 "user-5")) ∧
  users (db out.2) = users (db Sample.w0) ++ [d] ∧
  afap (db out.2) = afap (db Sample.w0) ∧
  inspecciones (db out.2) = inspecciones (db Sample.w0) ∧
  download_logs (db out.2) = download_logs (db Sample.w0) ∧
  log out.2 = log Sample.w0 ∧ dispatched out.2 = dispatched Sample.w0 ∧
  d !! "hashed_password"
  = Some (VStr (get_password_hash demo_auth (UserCreate.password data))) ∧
  d !! "password" = None ∧
  d !! "role" = Some (VStr (role_str (UserCreate.role data))) ∧
  d !! "id" = Some (VStr "user-5") ∧
  d !! "created_at" = Some (VIso 9000) ∧
  contactable d.
Proof.
  apply (register_stores demo_auth eva 9000 "user-5" Sample.w0);
    compute_done.
Defined.

Lemma field_of_snoc k c d : field_of k (c ++ [d]) = field_of k c ++ [d !! k].
Proof. unfold field_of. by rewrite fmap_app. Qed.

Lemma register_keeps_unique A data utcnow uuid w :
  users_unique (users (db w)) →
  users_unique (users (db (register A data utcnow uuid w).2)).
Proof.
  intros (Hc & He & Hnc & Hne).
  assert (Forall (not_array "cuit_cuil") (users (db w))) as Hac
    by (eapply Forall_impl; [exact Hc|]; intros d; apply has_str_not_array).
  assert (Forall (not_array "email") (users (db w))) as Hae
    by (eapply Forall_impl; [exact He|]; intros d; apply has_str_not_array).
  destruct (decide (Some (VStr (UserCreate.cuit_cuil data))
                      ∈ field_of "cuit_cuil" (users (db w)))) as [Hic|Hoc].
  { by rewrite register_cuit_taken. }
  destruct (decide (Some (VStr (UserCreate.email data))
                      ∈ field_of "email" (users (db w)))) as [Hie|Hoe].
  { by rewrite register_email_taken. }
  rewrite register_fresh by done. cbn [snd db set_coll users].
  destruct (stored_user_fields A data utcnow uuid)
    as (Hcu & Hem & _).
  unfold users_unique. rewrite !field_of_snoc, Hcu, Hem.
  split_and!.
  - apply Forall_app. split; [done|]. apply Forall_singleton. by eexists.
  - apply Forall_app. split; [done|]. apply Forall_singleton. by eexists.
  - apply NoDup_app. split; [done|]. split; [|apply NoDup_singleton].
    intros x Hx ->%list_elem_of_singleton. done.
  - apply NoDup_app. split; [done|]. split; [|apply NoDup_singleton].
    intros x Hx ->%list_elem_of_singleton. done.
Qed.

(** X23.  One CUIT/CUIL, one email, one record.  If every user record
    holds a CUIT/CUIL and an email and no two records share either, this
    is still so after any series of registrations served one after
    another, accepted or refused. *)
Theorem register_unique A calls w :
  users_unique (users (db w)) →
  users_unique (users (db (register_all A calls w))).
Proof.
  revert w. induction calls as [|c calls IH]; intros w Hw; [done|].
  unfold register_all. cbn [foldl]. apply IH.
  by apply register_keeps_unique.
Qed.

Lemma register_unique_witness :
  users_unique (users (db (register_all demo_auth registrations Sample.w0))).
Proof.
  apply (register_unique demo_auth registrations Sample.w0). compute_done.
Defined.

(** X24.  Registering twice.  Once a registration has been accepted, a
    later request with the same CUIT/CUIL is refused with 400
    "El CUIT/CUIL ya está registrado", whatever else it holds; one with
    another CUIT/CUIL that no record holds and the same email is refused
    with 400 "El email ya está registrado".  Neither changes the store. *)
Theorem register_twice A data utcnow uuid later utcnow' uuid' w :
  Forall (has_str "cuit_cuil") (users (db w)) →
  Forall (has_str "email") (users (db w)) →
  Some (VStr (UserCreate.cuit_cuil data))
    ∉ field_of "cuit_cuil" (users (db w)) →
  Some (VStr (UserCreate.email data)) ∉ field_of "email" (users (db w)) →
  let w1 := (register A data utcnow uuid w).2 in
  (UserCreate.cuit_cuil later = UserCreate.cuit_cuil data →
   register A later utcnow' uuid' w1
   = (Raise (HTTPException 400 "El CUIT/CUIL ya está registrado"), w1)) ∧
  (UserCreate.cuit_cuil later ≠ UserCreate.cuit_cuil data →
   Some (VStr (UserCreate.cuit_cuil later))
     ∉ field_of "cuit_cuil" (users (db w)) →
   UserCreate.email later = UserCreate.email data →
   register A later utcnow' uuid' w1
   = (Raise (HTTPException 400 "El email ya está registrado"), w1)).
Proof.
  intros Hc He Hoc Hoe w1.
  assert (Forall (not_array "cuit_cuil") (users (db w))) as Hac
    by (eapply Forall_impl; [exact Hc|]; intros d; apply has_str_not_array).
  assert (Forall (not_array "email") (users (db w))) as Hae
    by (eapply Forall_impl; [exact He|]; intros d; apply has_str_not_array).
  assert (users (db w1) = users (db w) ++ [stored_user A data utcnow uuid])
    as Hu.
  { subst w1. rewrite register_fresh by done. reflexivity. }
  destruct (stored_user_fields A data utcnow uuid) as (Hcu & Hem & _).
  split.
  - intros Hsame. apply register_cuit_taken.
    rewrite Hu, field_of_snoc, Hcu, Hsame. set_solver.
  - intros Hne Hfree Hsame. apply register_email_taken.
    + rewrite Hu. apply Forall_app. split; [done|]. apply Forall_singleton.
      intros l. by rewrite Hcu.
    + rewrite Hu, field_of_snoc, Hcu. intros [?|Hin]%elem_of_app; [done|].
      apply list_elem_of_singleton in Hin. congruence.
    + rewrite Hu, field_of_snoc, Hem, Hsame. set_solver.
Qed.

Lemma register_twice_witness :
  register demo_auth eva_cuit 9001 "user-6"
           (register demo_auth eva 9000 "user-5" Sample.w0).2
  = (Raise (HTTPException 400 "El CUIT/CUIL ya está registrado"),
     (register demo_auth eva 9000 "user-5" Sample.w0).2) ∧
  register demo_auth eva_email 9002 "user-7"
           (register demo_auth eva 9000 "user-5" Sample.w0).2
  = (Raise (HTTPException 400 "El email ya está registrado"),
     (register demo_auth eva 9000 "user-5" Sample.w0).2).
Proof.
  assert (Forall (has_str "cuit_cuil") (users (db Sample.w0))) as H1
    by compute_done.
  assert (Forall (has_str "email") (users (db Sample.w0))) as H2
    by compute_done.
  assert (Some (VStr (UserCreate.cuit_cuil eva))
            ∉ field_of "cuit_cuil" (users (db Sample.w0))) as H3
    by compute_done.
  assert (Some (VStr (UserCreate.email eva))
            ∉ field_of "email" (users (db Sample.w0))) as H4
    by compute_done.
  split.
  - apply (proj1 (register_twice demo_auth eva 9000 "user-5" eva_cuit 9001
                    "user-6" Sample.w0 H1 H2 H3 H4)). reflexivity.
  - apply (proj2 (register_twice demo_auth eva 9000 "user-5" eva_email 9002
                    "user-7" Sample.w0 H1 H2 H3 H4)).
    + discriminate.
    + compute_done.
    + reflexivity.
Defined.

(** ** The stores the handlers build *)

Lemma find_one_on_file s p c :
  Some (VStr s) ∈ field_of "id" c →
  ∃ x, x ∈ c ∧ find_one [("id", Eq (VStr s))] p c = Some (project p x).
Proof.
  intros Hin. apply list_elem_of_fmap in Hin as (x0 & Hx0 & Hin).
  assert (matches [("id", Eq (VStr s))] x0 = true) as Hm.
  { rewrite matches_single. cbn [cond_matches]. rewrite <- Hx0.
    cbn [field_eq]. by apply bool_decide_eq_true_2. }
  unfold find_one.
  destruct (head (find [("id", Eq (VStr s))] c)) as [x|] eqn:Hh.
  - exists x. split; [|done].
    apply find_head_split in Hh as (l1 & l2 & -> & _).
    apply elem_of_app. right. by left.
  - apply find_head_None in Hh.
    eapply Forall_forall in Hh; [|exact Hin]. congruence.
Qed.

(** On such a store what the notifications need holds of every permit
    that is found: it carries its number, and its owner's record is on
    file, not empty, with name and address. *)
Lemma owners_on_file_found afap_id w d :
  owners_on_file w →
  find_one [("id", Eq (VStr afap_id))] None (afap (db w)) = Some d →
  ∃ us nombre apellido email numero,
    d !! "numero_afap" = Some numero ∧
    owner_record d w = Some us ∧
    truthy_doc us = true ∧
    us !! "nombre" = Some nombre ∧
    us !! "apellido" = Some apellido ∧
    us !! "email" = Some email.
Proof.
  intros (Hnum & Hus & Hown) Hd.
  assert (d ∈ afap (db w)) as Hin.
  { unfold find_one in Hd. cbn [project] in Hd. rewrite option_fmap_id in Hd.
    apply find_head_split in Hd as (l1 & l2 & -> & _).
    apply elem_of_app. right. by left. }
  assert (is_Some (numero_of d)) as [n Hn]
    by (by eapply Forall_forall in Hnum).
  assert (∃ s, d !! "user_id" = Some (VStr s)
               ∧ Some (VStr s) ∈ field_of "id" (users (db w)))
    as (s & Hs & Hfile).
  { eapply Forall_forall in Hown as (s & Hs & Hfile);
      [|apply list_elem_of_fmap; by exists d].
    by exists s. }
  destruct (find_one_on_file s (Some ["email"; "nombre"; "apellido"]) _ Hfile)
    as (x & Hx & Hfind).
  assert (contactable (project (Some ["email"; "nombre"; "apellido"]) x))
    as ([nombre Hno] & [apellido Hap] & [email Hem]).
  { apply contactable_project. by eapply Forall_forall in Hus. }
  exists (project (Some ["email"; "nombre"; "apellido"]) x),
    nombre, apellido, email, (VInt n).
  split_and!; [| |by eapply lookup_truthy|done..].
  - unfold numero_of, int_field in Hn.
    destruct (d !! "numero_afap") as [[]|]; naive_solver.
  - unfold owner_record. by rewrite Hs.
Qed.

Lemma owners_on_file_empty : owners_on_file empty_world.
Proof. split; [constructor|]. split; constructor. Qed.

Lemma keeps_users_download_certificado R afap_id u utcnow uuid :
  keeps users (download_certificado R afap_id u utcnow uuid).
Proof.
  unfold download_certificado. repeat first [keeps_step | by intros ?].
Qed.

(** [create_afap], [update_afap_estado] and [download_certificado] keep
    the store such, the first when the user it is handed is on file; and
    they leave the user records as they are. *)
Lemma owners_on_file_serve N R r w :
  owners_on_file w →
  (∀ p u now utcnow uuid, r = ReqCreate p u now utcnow uuid → on_file u w) →
  owners_on_file (serve N R r w) ∧
  users (db (serve N R r w)) = users (db w).
Proof.
  intros (Hnum & Hus & Hown) Hcreate. destruct r; cbn [serve].
  - specialize (Hcreate _ _ _ _ _ eq_refl).
    destruct (create_afap_spec afap_data current_user now utcnow uuid w Hnum)
      as (n & -> & _).
    unfold owners_on_file. cbn [snd db set_coll afap users]. split; [|done].
    split; [|split; [done|]].
    + apply numbered_app. split; [done|]. apply Forall_singleton.
      rewrite numero_of_stored. by eexists.
    + rewrite field_of_snoc. apply Forall_app. split; [done|].
      apply Forall_singleton. rewrite stored_afap_user_id. by eexists.
  - assert (users (db (update_afap_estado N afap_id estado observaciones
                         current_user w).2) = users (db w)) as Eu.
    { by destruct (update_afap_estado_db N afap_id estado observaciones
                     current_user w) as [-> | ->]. }
    split; [|done]. unfold owners_on_file. rewrite Eu.
    split; [|split; [done|]].
    + apply (proj2 (numbered_fmap _)).
      rewrite update_afap_estado_numbers.
      by apply (proj1 (numbered_fmap _)).
    + assert (field_of "user_id"
                (afap (db (update_afap_estado N afap_id estado observaciones
                             current_user w).2))
              = field_of "user_id" (afap (db w))) as ->; [|done].
      destruct (update_afap_estado_db N afap_id estado observaciones
                  current_user w) as [-> | ->]; [done|].
      cbn [updated_world db set_coll afap].
      by apply field_of_update_one.
  - unfold owners_on_file.
    rewrite (keeps_download_certificado R),
      (keeps_users_download_certificado R). by split_and!.
Qed.

Lemma register_users A data utcnow uuid w :
  afap (db (register A data utcnow uuid w).2) = afap (db w) ∧
  (users (db (register A data utcnow uuid w).2) = users (db w)
   ∨ users (db (register A data utcnow uuid w).2)
     = users (db w) ++ [stored_user A data utcnow uuid]).
Proof.
  unfold register, bind, db_find_one. cbn [coll].
  destruct (negb (not_found (find_one _ None (users (db w))))); [by auto|].
  destruct (negb (not_found (find_one _ None (users (db w))))); [by auto|].
  set (dump := UserInDB_model_dump _).
  assert (dump !! "created_at" = Some (VDatetime utcnow)) as H1
    by (vm_compute; reflexivity).
  unfold lift, isoformat_item. rewrite H1.
  cbn [snd db set_coll afap users]. split; [done|]. by right.
Qed.

(** [register] keeps the store such: the record it writes carries name
    and address, and the records on file stay. *)
Lemma owners_on_file_register A data utcnow uuid w :
  owners_on_file w → owners_on_file (register A data utcnow uuid w).2.
Proof.
  intros (Hnum & Hus & Hown).
  destruct (register_users A data utcnow uuid w) as [Ea [Eu|Eu]];
    unfold owners_on_file; rewrite Ea, Eu; [done|].
  split; [done|]. split.
  - apply Forall_app. split; [done|]. apply Forall_singleton.
    destruct (stored_user_fields A data utcnow uuid)
      as (_ & Hem & Hno & Hap & _).
    unfold contactable. by rewrite Hno, Hap, Hem.
  - eapply Forall_impl; [exact Hown|]. intros v (s & -> & Hs).
    exists s. split; [done|]. rewrite field_of_snoc.
    apply elem_of_app. by left.
Qed.
